(** * wide_to_long_pyqt5: the wide-to-long pipeline, embedded and verified

    The development follows [wide_to_long_pyqt5.py]:
    - [a1_to_rc] and the [A1_REGEX] gate of [ConvertWorker.run];
    - [read_block_from_header] (reading the block, trimming trailing empty
      columns, then trailing empty rows);
    - [wide_to_long_from_excel] (header derivation, the data frame, the
      melt, the null filter, the choice of output file).

    Python [str] values are modelled by [string]: sequences of the code
    points U+0000 to U+00FF.  On that range [\d] is [0-9], and the white
    space removed by [str.strip()] is the twelve characters of
    [Py.isspace].  Python integers are unbounded and are modelled by [Z]. *)

From Stdlib Require Import ZArith List String Ascii Bool Lia Permutation.
From Stdlib Require Import DecimalString DecimalPos DecimalZ.
Import ListNotations.
Local Open Scope string_scope.
Local Open Scope Z_scope.
Local Open Scope list_scope.

(** ** Exceptions and results *)

(** The exceptions the pipeline can raise, one constructor per raise site
    (the program raises [ValueError] at most of them and tells them apart by
    the message only). *)
Inductive error : Type :=
| InvalidAddress        (* a1_to_rc: illegal cell address *)
| HeaderCellRejected    (* ConvertWorker.run: A1_REGEX does not match *)
| CellOutOfSheet        (* openpyxl: row or column below 1 *)
| NoDataAtHeader        (* read_block_from_header: no data read *)
| NoValidDataAtHeader   (* read_block_from_header: no valid data read *)
| IndexError            (* list index out of range *)
| FileNotFound          (* input_path does not exist *)
| UnreadableWorkbook    (* load_workbook fails *)
| SheetNotFound         (* wb[sheet_name]: KeyError *)
| FrameShape            (* DataFrame: a row whose width is not the header's *)
| MissingIdColumn       (* the id column is not among the columns *)
| NoValueColumns        (* no column is left to unpivot *)
| LabelClash            (* pandas, lines 97-98: clashing column labels *)
| WriteError.           (* lines 104-108: the output cannot be written *)

Inductive result (A : Type) : Type :=
| Ok (a : A)
| Err (e : error).
Arguments Ok {A} a.
Arguments Err {A} e.

Definition bind {A B} (m : result A) (f : A -> result B) : result B :=
  match m with
  | Ok a => f a
  | Err e => Err e
  end.

Notation "x <- m ;; k" := (bind m (fun x => k))
  (at level 61, m at next level, right associativity).
Notation "' p <- m ;; k" := (bind m (fun x => match x with p => k end))
  (at level 61, p pattern, m at next level, right associativity).

Fixpoint mapM {A B} (f : A -> result B) (l : list A) : result (list B) :=
  match l with
  | [] => Ok []
  | a :: l' => b <- f a ;; bs <- mapM f l' ;; Ok (b :: bs)
  end.

Definition is_ok {A} (m : result A) : bool :=
  match m with Ok _ => true | Err _ => false end.

(** ** Python built-ins used by the program *)

Module Py.

Definition ord (ch : ascii) : Z := Z.of_N (N_of_ascii ch).

Definition chr (n : Z) : ascii := ascii_of_N (Z.to_N n).

(** [str.isspace] on one character of the range U+0000..U+00FF. *)
Definition isspace (ch : ascii) : bool :=
  let n := ord ch in
  ((9 <=? n) && (n <=? 13)) || ((28 <=? n) && (n <=? 32))
  || (n =? 133) || (n =? 160).

Fixpoint lstrip_chars (s : list ascii) : list ascii :=
  match s with
  | [] => []
  | ch :: t => if isspace ch then lstrip_chars t else s
  end.

Definition rstrip_chars (s : list ascii) : list ascii :=
  rev (lstrip_chars (rev s)).

Definition strip_chars (s : list ascii) : list ascii :=
  rstrip_chars (lstrip_chars s).

(** [s.strip()] *)
Definition strip (s : string) : string :=
  string_of_list_ascii (strip_chars (list_ascii_of_string s)).

(** The character class [[A-Za-z]]. *)
Definition is_letter (ch : ascii) : bool :=
  let n := ord ch in
  ((65 <=? n) && (n <=? 90)) || ((97 <=? n) && (n <=? 122)).

(** The character class [\d] (on U+0000..U+00FF: [0-9]). *)
Definition is_digit (ch : ascii) : bool :=
  let n := ord ch in (48 <=? n) && (n <=? 57).

(** [ch.upper()] for the characters of [[A-Za-z]], the only ones the
    program upper-cases; other characters are left alone. *)
Definition upper_char (ch : ascii) : ascii :=
  let n := ord ch in
  if (97 <=? n) && (n <=? 122) then chr (n - 32) else ch.

(** [ch.lower()] on U+0000..U+00FF: A-Z and the upper-case letters
    U+00C0..U+00DE (U+00D7, the multiplication sign, apart). *)
Definition lower_char (ch : ascii) : ascii :=
  let n := ord ch in
  if ((65 <=? n) && (n <=? 90))
     || ((192 <=? n) && (n <=? 222) && negb (n =? 215))
  then chr (n + 32) else ch.

Definition lower (s : string) : string :=
  string_of_list_ascii (map lower_char (list_ascii_of_string s)).

(** [int(s)] on a run of decimal digits: the number the run denotes.
    From CPython 3.11 on, [int] converts a run of up to
    [sys.get_int_max_str_digits()] digits, [int_max_str_digits] unless the
    interpreter is told otherwise, and raises [ValueError] on a longer one.
    [int_of_digits] converts every run, as the interpreter does with the
    limit off: what it tells of a run within the limit holds whatever the
    limit. *)
Definition int_max_str_digits : nat := 4300%nat.

Definition int_of_digits (ds : list ascii) : Z :=
  fold_left (fun n d => n * 10 + (ord d - 48)) ds 0.

(** [str(n)] for an integer. *)
Definition str_of_int (n : Z) : string :=
  NilZero.string_of_int (Z.to_int n).

(** [range(a, b)] *)
Definition range (a b : Z) : list Z :=
  map (fun k => a + Z.of_nat k) (seq 0 (Z.to_nat (b - a))).

(** [s.rfind(".")]: the index of the last dot, if any. *)
Fixpoint rfind_dot (s : list ascii) : option nat :=
  match s with
  | [] => None
  | ch :: t =>
      match rfind_dot t with
      | Some i => Some (S i)
      | None => if Ascii.eqb ch "."%char then Some 0%nat else None
      end
  end.

End Py.

(** ** The cell-address resolver *)

(** [span p s]: the longest prefix of [s] whose characters satisfy [p], and
    the rest. *)
Fixpoint span (p : ascii -> bool) (s : list ascii) : list ascii * list ascii :=
  match s with
  | [] => ([], [])
  | ch :: t =>
      if p ch then let (a, b) := span p t in (ch :: a, b) else ([], s)
  end.

(** [re.fullmatch(r"([A-Za-z]+)(\d+)", s)] and its two groups.  No digit is
    a letter, so the only way to match is to give the first group every
    leading letter. *)
Definition fullmatch_letters_digits (s : list ascii)
  : option (list ascii * list ascii) :=
  let (letters, rest) := span Py.is_letter s in
  match letters, rest with
  | [], _ => None
  | _, [] => None
  | _, _ => if forallb Py.is_digit rest then Some (letters, rest) else None
  end.

(** [a1_to_rc], lines 17-26. *)
Definition a1_to_rc (a1 : string) : result (Z * Z) :=
  match fullmatch_letters_digits (list_ascii_of_string (Py.strip a1)) with
  | None => Err InvalidAddress
  | Some (col_letters, row_str) =>
      let col :=
        fold_left (fun col ch => col * 26 + (Py.ord ch - Py.ord "A" + 1))
                  (map Py.upper_char col_letters) 0 in
      let row := Py.int_of_digits row_str in
      Ok (row, col)
  end.

(** [A1_REGEX.match(s)] for [A1_REGEX = ^[A-Za-z]+[1-9]\d*$], line 15.  [$]
    matches at the end of the string and also just before a line feed that
    ends it. *)
Definition is_digit_1_9 (ch : ascii) : bool :=
  let n := Py.ord ch in (49 <=? n) && (n <=? 57).

Definition A1_REGEX_match (s : string) : bool :=
  let (letters, rest) := span Py.is_letter (list_ascii_of_string s) in
  match letters, rest with
  | [], _ => false
  | _, [] => false
  | _, d :: ds =>
      is_digit_1_9 d &&
      (let (digits, tail) := span Py.is_digit ds in
       match tail with
       | [] => true
       | [nl] => Ascii.eqb nl "010"%char
       | _ => false
       end)
  end.


(** ** Cell values *)

(** What openpyxl hands out as a cell's [value].  A float and a date or
    time are carried by their [str()] text, which is all the program ever
    asks of them; the float NaN is the one whose text is [nan]. *)
Inductive cell : Type :=
| VNone
| VStr (s : string)
| VInt (n : Z)
| VBool (b : bool)
| VFloat (text : string)
| VDate (text : string).

(** [str(v)] *)
Definition py_str (v : cell) : string :=
  match v with
  | VNone => "None"
  | VStr s => s
  | VInt n => Py.str_of_int n
  | VBool true => "True"
  | VBool false => "False"
  | VFloat text => text
  | VDate text => text
  end.

(** The test of lines 45 and 54: [v is None or str(v).strip() == ""]. *)
Definition is_none_or_blank (v : cell) : bool :=
  match v with
  | VNone => true
  | _ => String.eqb (Py.strip (py_str v)) ""
  end.

(** ** openpyxl: worksheets and workbooks *)

Module Openpyxl.

Record worksheet : Type := {
  max_row : Z;
  max_column : Z;
  value_at : Z -> Z -> cell
}.

(** [ws.cell(row=r, column=c).value]: openpyxl raises [ValueError] for a
    row or a column below 1, and creates the cell (value [None]) when the
    sheet has none there. *)
Definition cell_value (ws : worksheet) (r c : Z) : result cell :=
  if (r <? 1) || (c <? 1) then Err CellOutOfSheet else Ok (value_at ws r c).

Record workbook : Type := {
  active : worksheet;
  sheets : list (string * worksheet)
}.

(** [wb[name]] *)
Fixpoint lookup_sheet (l : list (string * worksheet)) (name : string)
  : result worksheet :=
  match l with
  | [] => Err SheetNotFound
  | (n, ws) :: l' => if String.eqb n name then Ok ws else lookup_sheet l' name
  end.

Definition getitem (wb : workbook) (name : string) : result worksheet :=
  lookup_sheet (sheets wb) name.

End Openpyxl.

(** ** The block extractor *)

Definition block : Type := list (list cell).

(** Lines 30-38: every row from [start_r] to [ws.max_row], every column from
    [start_c] to [ws.max_column]. *)
Definition read_rows (ws : Openpyxl.worksheet) (start_r start_c : Z)
  : result block :=
  let max_r := Openpyxl.max_row ws in
  let max_c := Openpyxl.max_column ws in
  mapM (fun r =>
          mapM (fun c => Openpyxl.cell_value ws r c)
               (Py.range start_c (max_c + 1)))
       (Py.range start_r (max_r + 1)).

(** [col_is_all_none(ci)], lines 44-45.  [all] stops at the first row whose
    cell is not empty; [row[ci]] raises past the end of a row. *)
Fixpoint col_is_all_none (data : block) (ci : nat) : result bool :=
  match data with
  | [] => Ok true
  | row :: rest =>
      match nth_error row ci with
      | None => Err IndexError
      | Some v =>
          if is_none_or_blank v then col_is_all_none rest ci else Ok false
      end
  end.

(** [while end_c > 0 and col_is_all_none(end_c - 1): end_c -= 1], lines
    47-49. *)
Fixpoint scan_end_c (data : block) (end_c : nat) : result nat :=
  match end_c with
  | O => Ok O
  | S ci =>
      b <- col_is_all_none data ci ;;
      if b then scan_end_c data ci else Ok end_c
  end.

(** Lines 43-50. *)
Definition trim_columns (data : block) : result block :=
  match data with
  | [] => Err IndexError
  | row0 :: _ =>
      end_c <- scan_end_c data (List.length row0) ;;
      Ok (map (firstn end_c) data)
  end.

(** [row_is_all_none(ri)], lines 53-54. *)
Definition row_is_all_none (data : block) (ri : nat) : result bool :=
  match nth_error data ri with
  | None => Err IndexError
  | Some row => Ok (forallb is_none_or_blank row)
  end.

(** [while end_r > 0 and row_is_all_none(end_r - 1): end_r -= 1], lines
    56-58. *)
Fixpoint scan_end_r (data : block) (end_r : nat) : result nat :=
  match end_r with
  | O => Ok O
  | S ri =>
      b <- row_is_all_none data ri ;;
      if b then scan_end_r data ri else Ok end_r
  end.

(** Lines 52-59. *)
Definition trim_rows (data : block) : result block :=
  end_r <- scan_end_r data (List.length data) ;;
  Ok (firstn end_r data).

(** Lines 40-63, on the rows read. *)
Definition trim_block (data : block) : result block :=
  match data with
  | [] => Err NoDataAtHeader
  | _ :: _ =>
      data <- trim_columns data ;;
      data <- trim_rows data ;;
      match data with
      | [] => Err NoValidDataAtHeader
      | [] :: _ => Err NoValidDataAtHeader
      | _ => Ok data
      end
  end.

(** Lines 30-63: [read_block_from_header] once the address is resolved. *)
Definition read_block_at (ws : Openpyxl.worksheet) (start_r start_c : Z)
  : result block :=
  data <- read_rows ws start_r start_c ;;
  trim_block data.

(** [read_block_from_header], lines 28-63. *)
Definition read_block_from_header (ws : Openpyxl.worksheet)
    (header_cell : string) : result block :=
  ' (start_r, start_c) <- a1_to_rc header_cell ;;
  read_block_at ws start_r start_c.


(** ** pandas: the data frame operations the program calls *)

Module Pandas.

(** [pandas.isna] on a scalar: [None] and the float NaN.  A blank string
    is not missing. *)
Definition isna (v : cell) : bool :=
  match v with
  | VNone => true
  | VFloat text => String.eqb text "nan"
  | _ => false
  end.

(** A frame: the column labels and the rows, in order.  pandas gives each
    column a type: in a column of numbers that also holds a missing value
    or a float, an integer [n] becomes the 64-bit float nearest to [n] ([n]
    itself up to 2^53 in magnitude) and [None] becomes NaN.  The frame
    below keeps the cells as the sheet gave them: it tells which cells are
    missing, which rows and records exist and in which order, and it does
    not tell the type or the rounding of a number. *)
Record DataFrame : Type := {
  columns : list string;
  rows : list (list cell)
}.

(** [pd.DataFrame(rows, columns=header)], for rows of the header's width:
    the only ones that reach the call, since the rows of a block all have
    one width.  The model answers [FrameShape] on any other row list and
    says nothing of what pandas does there. *)
Definition make_frame (rows : list (list cell)) (header : list string)
  : result DataFrame :=
  if forallb (fun r => Nat.eqb (List.length r) (List.length header)) rows
  then Ok {| columns := header; rows := rows |}
  else Err FrameShape.

(** [df.dropna(how="all")]: a row goes when every value in it is missing. *)
Definition dropna_all (df : DataFrame) : DataFrame :=
  {| columns := columns df;
     rows := filter (fun r => negb (forallb isna r)) (rows df) |}.

(** The position of the first column labelled [label]. *)
Fixpoint index_of (label : string) (cols : list string) : option nat :=
  match cols with
  | [] => None
  | c :: cols' =>
      if String.eqb c label then Some O
      else option_map S (index_of label cols')
  end.

Definition position (label : string) (cols : list string) : nat :=
  match index_of label cols with Some i => i | None => O end.

(** The positions of the columns that are not the identifier. *)
Definition value_positions (cols : list string) (id_col : string)
  : list nat :=
  filter (fun j => negb (String.eqb (nth j cols "") id_col))
         (seq 0 (List.length cols)).

(** The identifier label names one column and [value_name] no column.
    Otherwise [df.melt] raises: pandas refuses a [value_name] that is a
    column label, and it cannot take out the identifier column when the
    label names several. *)
Definition melt_accepts (cols : list string) (id_col value_name : string)
  : bool :=
  negb (existsb (String.eqb value_name) cols)
  && Nat.eqb (count_occ string_dec cols id_col) 1.

(** [df.melt(id_vars=[id_col], var_name=var_name, value_name=value_name)],
    line 97: the value columns are stacked one after the other, each in row
    order, beside the identifier column repeated once per value column and
    the name of the value column; the result has the three columns
    [id_col], [var_name], [value_name].  pandas stores the three under
    their labels, the identifier first, then the values, then the names: a
    [var_name] that is also the identifier label or the value label takes
    that column's place, and the names fill it. *)
Definition melt (df : DataFrame) (id_col var_name value_name : string)
  : result DataFrame :=
  if negb (melt_accepts (columns df) id_col value_name) then Err LabelClash
  else
    let i := position id_col (columns df) in
    Ok {| columns := [id_col; var_name; value_name];
          rows :=
            flat_map
              (fun j =>
                 let label := VStr (nth j (columns df) "") in
                 map (fun r =>
                        [if String.eqb var_name id_col then label
                         else nth i r VNone;
                         label;
                         if String.eqb var_name value_name then label
                         else nth j r VNone])
                     (rows df))
              (value_positions (columns df) id_col) |}.

(** Where the melt gives the records of the rows: the identifier label
    names one column only, [value_name] is no column of the frame, and the
    three output labels differ. *)
Definition melt_defined (cols : list string)
    (id_col var_name value_name : string) : bool :=
  Nat.eqb (count_occ string_dec cols id_col) 1
  && negb (existsb (String.eqb value_name) cols)
  && negb (String.eqb var_name id_col)
  && negb (String.eqb var_name value_name).

(** [df[~df[label].isna()]], line 98.  [df[label]] is one column when the
    label names one column.  When it names several, [df[label]] is a frame
    and the selection by the frame of its missing values raises; when it
    names none, [df[label]] raises. *)
Definition drop_missing (df : DataFrame) (label : string)
  : result DataFrame :=
  if negb (Nat.eqb (count_occ string_dec (columns df) label) 1)
  then Err LabelClash
  else
    let k := position label (columns df) in
    Ok {| columns := columns df;
          rows := filter (fun r => negb (isna (nth k r VNone))) (rows df) |}.

End Pandas.

(** ** The reshaper *)

(** The name of the header cell at position [i] (from 0), lines 81-84. *)
Definition header_name (i : nat) (h : cell) : string :=
  let s := match h with VNone => "" | _ => Py.strip (py_str h) end in
  if String.eqb s ""
  then ("col_" ++ Py.str_of_int (Z.of_nat i + 1))%string
  else s.

Fixpoint header_from (i : nat) (row0 : list cell) : list string :=
  match row0 with
  | [] => []
  | h :: t => header_name i h :: header_from (S i) t
  end.

(** [header], lines 81-84. *)
Definition derive_header (row0 : list cell) : list string :=
  header_from 0 row0.

(** [df], line 87. *)
Definition wide_frame (data_block : block) : result Pandas.DataFrame :=
  match data_block with
  | [] => Err IndexError
  | row0 :: rows =>
      df <- Pandas.make_frame rows (derive_header row0) ;;
      Ok (Pandas.dropna_all df)
  end.

(** [id_col_name or header[0]], line 89: [None] and the empty string both
    give the first header name. *)
Definition resolve_id_col (id_col_name : option string)
    (header : list string) : result string :=
  let first := match header with
               | [] => Err IndexError
               | h :: _ => Ok h
               end in
  match id_col_name with
  | None => first
  | Some s => if String.eqb s "" then first else Ok s
  end.

(** Lines 81-98 of [wide_to_long_from_excel]: from the block to [long_df]. *)
Definition reshape (data_block : block) (id_col_name : option string)
    (var_name value_name : string) : result Pandas.DataFrame :=
  df <- wide_frame data_block ;;
  id_col <- resolve_id_col id_col_name (Pandas.columns df) ;;
  if negb (existsb (String.eqb id_col) (Pandas.columns df))
  then Err MissingIdColumn
  else
    let value_cols :=
      filter (fun c => negb (String.eqb c id_col)) (Pandas.columns df) in
    match value_cols with
    | [] => Err NoValueColumns
    | _ :: _ =>
        long_df <- Pandas.melt df id_col var_name value_name ;;
        Pandas.drop_missing long_df value_name
    end.

(** ** The writer *)

(** A path: the directory part and the final component. *)
Record path : Type := {
  parent : string;
  name : string
}.

(** [PurePath.suffix]: from the last dot of the name on, unless that dot
    opens or closes the name. *)
Definition suffix (p : path) : string :=
  let n := list_ascii_of_string (name p) in
  match Py.rfind_dot n with
  | Some i =>
      if Nat.ltb 0 i && Nat.ltb i (List.length n - 1)
      then string_of_list_ascii (skipn i n) else ""
  | None => ""
  end.

(** [PurePath.stem] *)
Definition stem (p : path) : string :=
  let n := list_ascii_of_string (name p) in
  match Py.rfind_dot n with
  | Some i =>
      if Nat.ltb 0 i && Nat.ltb i (List.length n - 1)
      then string_of_list_ascii (firstn i n) else name p
  | None => name p
  end.

(** [PurePath.with_name] *)
Definition with_name (p : path) (n : string) : path :=
  {| parent := parent p; name := n |}.

(** The extensions of line 103. *)
Definition spreadsheet_suffixes : list string :=
  [".xlsx"; ".xlsm"; ".xltx"; ".xltm"; ".xls"].

Inductive file_format : Type :=
| ExcelSheetLong   (* to_excel(writer, index=False, sheet_name="long") *)
| CsvText.         (* to_csv(out_path, index=False) *)

(** One file written: where, in which format, and the table (the header row
    is [columns], the data rows are [rows]; no index column). *)
Record written_file : Type := {
  w_path : path;
  w_format : file_format;
  w_table : Pandas.DataFrame
}.

(** Lines 100-110: the output path, the file the writer is asked for, the
    path returned.  Whether the disk takes the file is [write_file] below,
    which [ConvertWorker_run_signals] consults. *)
Definition write_long (input_path : path) (long_df : Pandas.DataFrame)
  : path * written_file :=
  let stem := stem input_path in
  let suffix := suffix input_path in
  let out_path :=
    with_name input_path
      (stem ++ "_long"
            ++ (if String.eqb suffix "" then ".xlsx" else suffix))%string in
  if existsb (String.eqb (Py.lower suffix)) spreadsheet_suffixes
  then (out_path,
        {| w_path := out_path; w_format := ExcelSheetLong;
           w_table := long_df |})
  else
    let out_path := with_name input_path (stem ++ "_long.csv")%string in
    (out_path,
     {| w_path := out_path; w_format := CsvText; w_table := long_df |}).

(** ** The pipeline *)

(** What becomes of a file handed to [ExcelWriter] and [to_excel] or to
    [to_csv], lines 104-108. *)
Inductive write_outcome : Type :=
| Written    (* the file holds the table *)
| Refused    (* the file cannot be opened for writing: the disk is as before *)
| Broken.    (* the file is created, then the writing fails: a file is left
                that does not hold the table *)

(** The files the pipeline works on: which paths exist, what
    [load_workbook] gives for a path, what becomes of a write. *)
Record filesystem : Type := {
  path_exists : path -> bool;
  load_workbook : path -> result Openpyxl.workbook;
  write_file : written_file -> write_outcome
}.

(** [wb[sheet_name] if sheet_name else wb.active], line 78: [None] and the
    empty string both give the active sheet. *)
Definition select_sheet (wb : Openpyxl.workbook) (sheet_name : option string)
  : result Openpyxl.worksheet :=
  match sheet_name with
  | None => Ok (Openpyxl.active wb)
  | Some n => if String.eqb n "" then Ok (Openpyxl.active wb)
              else Openpyxl.getitem wb n
  end.

(** [wide_to_long_from_excel], lines 65-110, on a disk that takes the
    write.  The result is the path returned together with the one file the
    call writes. *)
Definition wide_to_long_from_excel (fs : filesystem) (input_path : path)
    (header_cell : string) (sheet_name : option string)
    (id_col_name : option string) (var_name value_name : string)
  : result (path * written_file) :=
  if negb (path_exists fs input_path) then Err FileNotFound
  else
    wb <- load_workbook fs input_path ;;
    ws <- select_sheet wb sheet_name ;;
    data_block <- read_block_from_header ws header_cell ;;
    long_df <- reshape data_block id_col_name var_name value_name ;;
    Ok (write_long input_path long_df).

(** [ConvertWorker.run], lines 129-154, without its progress and log
    signals and on a disk that takes the write: the existence check and the
    [A1_REGEX] gate come before the pipeline. *)
Definition ConvertWorker_run (fs : filesystem) (input_path : path)
    (header_cell : string) (sheet_name : option string)
    (id_col_name : option string) (var_name value_name : string)
  : result (path * written_file) :=
  if negb (path_exists fs input_path) then Err FileNotFound
  else if negb (A1_REGEX_match header_cell) then Err HeaderCellRejected
  else wide_to_long_from_excel fs input_path header_cell sheet_name
         id_col_name var_name value_name.

(** ** Reference notions used in the statements *)

(** *** Addresses *)

(** The characters of [s] are one or more letters, then one or more
    decimal digits. *)
Definition letters_then_digits (s : string) : Prop :=
  exists letters digits,
    list_ascii_of_string s = letters ++ digits
    /\ letters <> [] /\ forallb Py.is_letter letters = true
    /\ digits <> [] /\ forallb Py.is_digit digits = true.

(** The address pattern of the specification: one or more letters, then a
    decimal number with no leading zero. *)
Definition strict_address (s : string) : Prop :=
  exists letters d digits,
    list_ascii_of_string s = letters ++ d :: digits
    /\ letters <> [] /\ forallb Py.is_letter letters = true
    /\ is_digit_1_9 d = true /\ forallb Py.is_digit digits = true.

(** A=1, ..., Z=26, in either case. *)
Definition letter_value (ch : ascii) : Z :=
  let n := Py.ord ch in
  if 97 <=? n then n - 96 else n - 64.

(** The number a run of letters denotes in bijective base 26, by position. *)
Fixpoint column_number (letters : list ascii) : Z :=
  match letters with
  | [] => 0
  | ch :: t => letter_value ch * 26 ^ Z.of_nat (List.length t) + column_number t
  end.

(** The number a run of digits denotes in base 10, by position. *)
Fixpoint decimal_value (digits : list ascii) : Z :=
  match digits with
  | [] => 0
  | d :: t => (Py.ord d - 48) * 10 ^ Z.of_nat (List.length t) + decimal_value t
  end.

(** *** Blocks *)

(** Every row of the block has [w] cells. *)
Definition rectangular (w : nat) (data : block) : Prop :=
  forall row, In row data -> List.length row = w.

(** Every row has an empty cell in column [j] (counted from 0). *)
Definition column_empty (data : block) (j : nat) : Prop :=
  forall row, In row data -> is_none_or_blank (nth j row VNone) = true.

(** Every cell of the row is empty. *)
Definition row_empty (row : list cell) : Prop :=
  forall v, In v row -> is_none_or_blank v = true.

(** The two trimming steps in sequence, before the final check. *)
Definition trimmed (data : block) : result block :=
  data <- trim_columns data ;; trim_rows data.

(** The rows read: the cells of the sheet from the anchor to its extent. *)
Definition cells_from (ws : Openpyxl.worksheet) (start_r start_c : Z) : block :=
  map (fun r => map (fun c => Openpyxl.value_at ws r c)
                    (Py.range start_c (Openpyxl.max_column ws + 1)))
      (Py.range start_r (Openpyxl.max_row ws + 1)).

(** *** Example sheets *)

(** Three rows and three columns; the third row and the third column are
    empty, the other four cells hold numbers. *)
Definition sheet_3x3 : Openpyxl.worksheet :=
  {| Openpyxl.max_row := 3;
     Openpyxl.max_column := 3;
     Openpyxl.value_at := fun r c =>
       if (r <=? 2) && (c <=? 2) then VInt (10 * r + c) else VNone |}.

(** Two rows and two columns; the two cells of the first row are empty, the
    second row holds data. *)
Definition sheet_empty_first_row : Openpyxl.worksheet :=
  {| Openpyxl.max_row := 2;
     Openpyxl.max_column := 2;
     Openpyxl.value_at := fun r c =>
       if r =? 1 then (if c =? 1 then VNone else VStr " ")
       else (if c =? 1 then VStr "x" else VInt 1) |}.

(** *** Long records *)

(** The record that row [r] gives for the column at position [j]: the
    identifier value, the column's name, the cell. *)
Definition long_record (header : list string) (id_col : string)
    (r : list cell) (j : nat) : list cell :=
  [nth (Pandas.position id_col header) r VNone;
   VStr (nth j header "");
   nth j r VNone].

(** Row [r] gives a record for column [j]: the column is not the identifier
    and the cell is not missing. *)
Definition emits (header : list string) (id_col : string)
    (r : list cell) (j : nat) : bool :=
  negb (String.eqb (nth j header "") id_col)
  && negb (Pandas.isna (nth j r VNone)).

Definition records_of (header : list string) (id_col : string)
    (r : list cell) (j : nat) : list (list cell) :=
  if emits header id_col r j then [long_record header id_col r j] else [].

(** Column after column, each column in row order. *)
Definition column_major (header : list string) (id_col : string)
    (rows : list (list cell)) : list (list cell) :=
  flat_map (fun j => flat_map (fun r => records_of header id_col r j) rows)
           (seq 0 (List.length header)).

(** Row after row, each row in header order. *)
Definition row_major (header : list string) (id_col : string)
    (rows : list (list cell)) : list (list cell) :=
  flat_map (fun r => flat_map (fun j => records_of header id_col r j)
                              (seq 0 (List.length header)))
           rows.

(** *** Output names *)

(** The suffix is one of the spreadsheet extensions, case apart. *)
Definition recognised_suffix (s : string) : Prop :=
  exists e, In e spreadsheet_suffixes /\ Py.lower s = Py.lower e.

(** *** Example inputs *)

(** A sheet of the given extent whose cells are those of [cells], row after
    row, and [None] elsewhere. *)
Definition sheet_of (n_rows n_cols : Z) (cells : block) : Openpyxl.worksheet :=
  {| Openpyxl.max_row := n_rows;
     Openpyxl.max_column := n_cols;
     Openpyxl.value_at := fun r c =>
       nth (Z.to_nat (c - 1)) (nth (Z.to_nat (r - 1)) cells []) VNone |}.

(** A file system where every path exists and holds a workbook with the one
    sheet [ws], named Sheet1 and active, and where every write goes
    through. *)
Definition one_workbook (ws : Openpyxl.worksheet) : filesystem :=
  {| path_exists := fun _ => true;
     load_workbook := fun _ =>
       Ok {| Openpyxl.active := ws;
             Openpyxl.sheets := [("Sheet1", ws)] |};
     write_file := fun _ => Written |}.

Definition block_2020_2021 : block :=
  [[VStr "id"; VStr "2020"; VStr "2021"];
   [VStr "x"; VInt 10; VNone];
   [VStr "y"; VNone; VInt 30]].

Definition block_full : block :=
  [[VStr "id"; VStr "2020"; VStr "2021"];
   [VStr "x"; VInt 1; VInt 2];
   [VStr "y"; VInt 3; VInt 4]].

(** What the program makes of [block_full]. *)
Definition long_of_block_full : Pandas.DataFrame :=
  {| Pandas.columns := ["id"; "variable"; "value"];
     Pandas.rows :=
       [[VStr "x"; VStr "2020"; VInt 1]; [VStr "y"; VStr "2020"; VInt 3];
        [VStr "x"; VStr "2021"; VInt 2]; [VStr "y"; VStr "2021"; VInt 4]] |}.

(** The row-major list of the same records. *)
Definition row_major_of_block_full : list (list cell) :=
  [[VStr "x"; VStr "2020"; VInt 1]; [VStr "x"; VStr "2021"; VInt 2];
   [VStr "y"; VStr "2020"; VInt 3]; [VStr "y"; VStr "2021"; VInt 4]].


Definition block_blank_row : block :=
  [[VStr "id"; VStr "a"];
   [VStr " "; VStr ""];
   [VStr "x"; VInt 1]].

Definition data_xlsx : path :=
  {| parent := "/home/user"; name := "data.xlsx" |}.

(** One row, the header, of three distinct names. *)
Definition sheet_header_only : Openpyxl.worksheet :=
  sheet_of 1 3 [[VStr "id"; VStr "2020"; VStr "2021"]].

(** The sheet that holds [block_2020_2021], and what the program makes of
    it. *)
Definition sheet_2020_2021 : Openpyxl.worksheet :=
  sheet_of 3 3 block_2020_2021.

Definition long_2020_2021 : Pandas.DataFrame :=
  {| Pandas.columns := ["id"; "variable"; "value"];
     Pandas.rows := [[VStr "x"; VStr "2020"; VInt 10];
                     [VStr "y"; VStr "2021"; VInt 30]] |}.

(** One row, the header, of the same name twice. *)
Definition sheet_same_name_twice : Openpyxl.worksheet :=
  sheet_of 1 2 [[VStr "a"; VStr "a"]].

(** A run of digits with no leading zero. *)
Definition no_leading_zero (l : list ascii) : Prop :=
  match l with
  | [] => True
  | d :: _ => is_digit_1_9 d = true
  end.

(** The characters of an address once stripped, its letters in upper case. *)
Definition normalised (a : string) : list ascii :=
  map Py.upper_char (list_ascii_of_string (Py.strip a)).

(** A character other than the dot. *)
Definition not_dot (ch : ascii) : bool := negb (Ascii.eqb ch "."%char).

(** ** The worker thread and its signals *)

(** The four log lines of [ConvertWorker.run], lines 132-153. *)
Inductive log_line : Type :=
| LogStart      (* line 132 *)
| LogReading    (* line 140 *)
| LogWriting    (* line 151 *)
| LogDone.      (* line 153 *)

(** What the worker emits, lines 115-118.  [failed] carries a text made of
    the exception's name, message and trace: here, the exception. *)
Inductive signal : Type :=
| Progressed (n : Z)
| Logged (msg : log_line)
| Failed (e : error)
| Succeeded (out_path : path).

(** [x or None] and [x or default] on a string: the empty string is false. *)
Definition or_none (s : string) : option string :=
  if String.eqb s "" then None else Some s.

Definition or_default (s default : string) : string :=
  if String.eqb s "" then default else s.

(** The fields [ConvertWorker.__init__] sets, lines 120-127. *)
Record ConvertWorker : Type := {
  cw_path : path;
  cw_header_cell : string;
  cw_sheet_name : option string;
  cw_id_col_name : option string;
  cw_var_name : string;
  cw_value_name : string
}.

(** What a run leaves on the disk. *)
Inductive disk_effect : Type :=
| NothingWritten                   (* the disk is as before *)
| FileWritten (f : written_file)   (* the file holds the table *)
| FileLeftBroken (p : path).       (* a file is left that does not *)

(** [ConvertWorker.run], lines 129-157, signals included: the signals in the
    order emitted, and what the run leaves on the disk.  The file is
    written inside [wide_to_long_from_excel], before the signals of lines
    150-154; a write that fails raises there, and [failed] follows the
    signals of lines 139-140. *)
Definition ConvertWorker_run_signals (fs : filesystem) (w : ConvertWorker)
  : list signal * disk_effect :=
  let opening := [Progressed 5; Logged LogStart] in
  if negb (path_exists fs (cw_path w))
  then (opening ++ [Failed FileNotFound], NothingWritten)
  else if negb (A1_REGEX_match (cw_header_cell w))
  then (opening ++ [Failed HeaderCellRejected], NothingWritten)
  else
    let reading := [Progressed 20; Logged LogReading] in
    match wide_to_long_from_excel fs (cw_path w) (cw_header_cell w)
            (cw_sheet_name w) (cw_id_col_name w)
            (cw_var_name w) (cw_value_name w) with
    | Ok (out_path, written) =>
        match write_file fs written with
        | Written =>
            (opening ++ reading
               ++ [Progressed 90; Logged LogWriting;
                   Progressed 100; Logged LogDone; Succeeded out_path],
             FileWritten written)
        | Refused =>
            (opening ++ reading ++ [Failed WriteError], NothingWritten)
        | Broken =>
            (opening ++ reading ++ [Failed WriteError],
             FileLeftBroken (w_path written))
        end
    | Err e => (opening ++ reading ++ [Failed e], NothingWritten)
    end.

(** ** The form *)

(** The three warnings of [start_convert], lines 316-325. *)
Inductive alert : Type :=
| AlertNoFile        (* the file field is blank *)
| AlertMissingFile   (* the file does not exist *)
| AlertBadHeader.    (* the header cell does not match A1_REGEX *)

(** What [start_convert] does: it warns and returns, or it starts a worker. *)
Inductive form_outcome : Type :=
| Alerted (a : alert)
| Started (w : ConvertWorker).

(** What the window shows: the progress bar, the log pane (last line
    first), whether the run button is enabled, the dialogs opened (last one
    first). *)
Inductive log_entry : Type :=
| LineOf (msg : log_line)
| LineError (e : error)
| LineSaved (out_path : path).

Inductive dialog : Type :=
| DialogWarning (a : alert)
| DialogError (e : error)
| DialogSaved (out_path : path).

Record window : Type := {
  progress : Z;
  log : list log_entry;
  btn_run_enabled : bool;
  dialogs : list dialog
}.

(** The slots the worker's signals are connected to, lines 333-336 and
    343-354. *)
Definition deliver (win : window) (s : signal) : window :=
  match s with
  | Progressed n =>
      {| progress := n; log := log win;
         btn_run_enabled := btn_run_enabled win; dialogs := dialogs win |}
  | Logged msg =>
      {| progress := progress win; log := LineOf msg :: log win;
         btn_run_enabled := btn_run_enabled win; dialogs := dialogs win |}
  | Failed e =>
      {| progress := 0; log := LineError e :: log win;
         btn_run_enabled := btn_run_enabled win;
         dialogs := DialogError e :: dialogs win |}
  | Succeeded out_path =>
      {| progress := 100; log := LineSaved out_path :: log win;
         btn_run_enabled := btn_run_enabled win;
         dialogs := DialogSaved out_path :: dialogs win |}
  end.

(** The slot of [finished], line 337. *)
Definition on_finished (win : window) : window :=
  {| progress := progress win; log := log win;
     btn_run_enabled := true; dialogs := dialogs win |}.

Section Form.

(** [Path(text)]: pathlib's reading of a path text into the directory part
    and the final component. *)
Variable Path : string -> path.

(** [ConvertWorker.__init__], lines 120-127. *)
Definition ConvertWorker_init
    (path_text header_cell sheet_name id_col_name var_name value_name : string)
  : ConvertWorker :=
  {| cw_path := Path path_text;
     cw_header_cell := header_cell;
     cw_sheet_name := or_none sheet_name;
     cw_id_col_name := or_none id_col_name;
     cw_var_name := or_default var_name "variable";
     cw_value_name := or_default value_name "value" |}.

(** [MainWindow.start_convert], lines 308-338, from the texts of the six
    fields: the checks, and the worker started when they pass. *)
Definition start_convert (fs : filesystem)
    (ed_file ed_header ed_sheet ed_id ed_var ed_val : string) : form_outcome :=
  let path := Py.strip ed_file in
  let header := or_default (Py.strip ed_header) "A1" in
  let sheet := Py.strip ed_sheet in
  let idcol := Py.strip ed_id in
  let varname := or_default (Py.strip ed_var) "variable" in
  let valname := or_default (Py.strip ed_val) "value" in
  if String.eqb path "" then Alerted AlertNoFile
  else if negb (path_exists fs (Path path)) then Alerted AlertMissingFile
  else if negb (A1_REGEX_match header) then Alerted AlertBadHeader
  else Started (ConvertWorker_init path header sheet idcol varname valname).

(** One press of the run button, lines 308-338, and the run of the worker
    it starts: the window once every signal is delivered.  A failed check
    only opens its warning. *)
Definition press_run (fs : filesystem) (win : window)
    (ed_file ed_header ed_sheet ed_id ed_var ed_val : string) : window :=
  match start_convert fs ed_file ed_header ed_sheet ed_id ed_var ed_val with
  | Alerted a =>
      {| progress := progress win; log := log win;
         btn_run_enabled := btn_run_enabled win;
         dialogs := DialogWarning a :: dialogs win |}
  | Started w =>
      let cleared :=
        {| progress := 0; log := []; btn_run_enabled := false;
           dialogs := dialogs win |} in
      on_finished
        (fold_left deliver (fst (ConvertWorker_run_signals fs w)) cleared)
  end.

End Form.

(** *** Reading a run of signals *)

(** The two signals that end a run. *)
Definition is_terminal (s : signal) : bool :=
  match s with
  | Failed _ | Succeeded _ => true
  | _ => false
  end.

(** The percentages emitted, in order. *)
Definition progress_values (l : list signal) : list Z :=
  flat_map (fun s => match s with Progressed n => [n] | _ => [] end) l.

(** A list of numbers that goes up strictly. *)
Fixpoint increasing (l : list Z) : Prop :=
  match l with
  | [] => True
  | a :: t =>
      match t with [] => True | b :: _ => a < b end /\ increasing t
  end.

(** A reading of path texts for the examples: no directory part, the text
    for name. *)
Definition bare_name (text : string) : path :=
  {| parent := ""; name := text |}.

(** The window before the first run. *)
Definition fresh_window : window :=
  {| progress := 0; log := []; btn_run_enabled := true; dialogs := [] |}.

(** * Proofs *)

(** ** Characters *)

Ltac by_cases_on_ascii ch :=
  destruct ch as [[] [] [] [] [] [] [] []]; vm_compute;
  try reflexivity; try discriminate; try (intros; discriminate);
  try (intros; reflexivity).

Ltac bounds_by_cases_on_ascii ch :=
  destruct ch as [[] [] [] [] [] [] [] []]; vm_compute;
  try (intros; discriminate); intros _; split; discriminate.

Lemma digit_not_letter ch : Py.is_digit ch = true -> Py.is_letter ch = false.
Proof. by_cases_on_ascii ch. Qed.

Lemma letter_not_space ch : Py.is_letter ch = true -> Py.isspace ch = false.
Proof. by_cases_on_ascii ch. Qed.

Lemma digit_not_space ch : Py.is_digit ch = true -> Py.isspace ch = false.
Proof. by_cases_on_ascii ch. Qed.

Lemma digit_1_9_is_digit ch : is_digit_1_9 ch = true -> Py.is_digit ch = true.
Proof. by_cases_on_ascii ch. Qed.

Lemma upper_letter_value ch :
  Py.is_letter ch = true ->
  Py.ord (Py.upper_char ch) - Py.ord "A" + 1 = letter_value ch.
Proof. by_cases_on_ascii ch. Qed.

Lemma letter_value_bounds ch :
  Py.is_letter ch = true -> 1 <= letter_value ch <= 26.
Proof. bounds_by_cases_on_ascii ch. Qed.

Lemma digit_bounds ch : Py.is_digit ch = true -> 0 <= Py.ord ch - 48 <= 9.
Proof. bounds_by_cases_on_ascii ch. Qed.

Lemma digit_1_9_bounds ch : is_digit_1_9 ch = true -> 1 <= Py.ord ch - 48 <= 9.
Proof. bounds_by_cases_on_ascii ch. Qed.

(** ** [span] and [strip] *)

Lemma span_app p s a b :
  span p s = (a, b) -> s = a ++ b /\ forallb p a = true.
Proof.
  revert a b. induction s as [|ch t IH]; simpl; intros a b H.
  - inversion H; subst. auto.
  - destruct (p ch) eqn:Hp.
    + destruct (span p t) as [a' b'] eqn:Hs. inversion H; subst.
      destruct (IH a' b eq_refl) as [-> Ha]. simpl. rewrite Hp, Ha. auto.
    + inversion H; subst. auto.
Qed.

Lemma span_rest p s a b :
  span p s = (a, b) -> match b with [] => True | ch :: _ => p ch = false end.
Proof.
  revert a b. induction s as [|ch t IH]; simpl; intros a b H.
  - inversion H; subst. exact I.
  - destruct (p ch) eqn:Hp.
    + destruct (span p t) as [a' b'] eqn:Hs. inversion H; subst.
      apply (IH a' b eq_refl).
    + inversion H; subst. exact Hp.
Qed.

Lemma span_prefix p a b :
  forallb p a = true ->
  match b with [] => True | ch :: _ => p ch = false end ->
  span p (a ++ b) = (a, b).
Proof.
  intros Ha Hb. induction a as [|ch t IH]; simpl in *.
  - destruct b as [|c b']; [reflexivity|]. simpl. now rewrite Hb.
  - apply andb_true_iff in Ha as [Hc Ht]. rewrite Hc, (IH Ht). reflexivity.
Qed.

Lemma lstrip_spaces pre s :
  forallb Py.isspace pre = true ->
  Py.lstrip_chars (pre ++ s) = Py.lstrip_chars s.
Proof.
  induction pre as [|ch t IH]; simpl; intros H; [reflexivity|].
  apply andb_true_iff in H as [Hc Ht]. rewrite Hc. auto.
Qed.

Lemma lstrip_stop ch s :
  Py.isspace ch = false -> Py.lstrip_chars (ch :: s) = ch :: s.
Proof. intros H. simpl. now rewrite H. Qed.

Lemma forallb_rev {A} (p : A -> bool) l : forallb p (rev l) = forallb p l.
Proof.
  induction l as [|a l IH]; simpl; [reflexivity|].
  rewrite forallb_app, IH. simpl. rewrite andb_true_r. apply andb_comm.
Qed.

Lemma rstrip_spaces s post :
  forallb Py.isspace post = true ->
  Py.rstrip_chars (s ++ post) = Py.rstrip_chars s.
Proof.
  intros H. unfold Py.rstrip_chars. rewrite rev_app_distr.
  rewrite lstrip_spaces; [reflexivity|]. now rewrite forallb_rev.
Qed.

Lemma rstrip_stop s ch :
  Py.isspace ch = false -> Py.rstrip_chars (s ++ [ch]) = s ++ [ch].
Proof.
  intros H. unfold Py.rstrip_chars. rewrite rev_app_distr. simpl.
  rewrite H. simpl. now rewrite rev_involutive.
Qed.

(** Stripping removes the surrounding white space and nothing else, when the
    core starts and ends with characters that are not white space. *)
Lemma strip_chars_core pre first mid last post :
  forallb Py.isspace pre = true -> forallb Py.isspace post = true ->
  Py.isspace first = false -> Py.isspace last = false ->
  Py.strip_chars (pre ++ (first :: mid ++ [last]) ++ post)
  = first :: mid ++ [last].
Proof.
  intros Hpre Hpost Hf Hl. unfold Py.strip_chars.
  rewrite lstrip_spaces by assumption.
  change ((first :: mid ++ [last]) ++ post)
    with (first :: (mid ++ [last]) ++ post).
  rewrite lstrip_stop by assumption.
  change (first :: (mid ++ [last]) ++ post)
    with ((first :: mid ++ [last]) ++ post).
  rewrite rstrip_spaces by assumption.
  change (first :: mid ++ [last]) with ((first :: mid) ++ [last]).
  now rewrite rstrip_stop.
Qed.

(** ** The resolver: what [a1_to_rc] accepts and what it computes *)

Lemma fullmatch_some s letters digits :
  fullmatch_letters_digits s = Some (letters, digits) <->
  s = letters ++ digits
  /\ letters <> [] /\ forallb Py.is_letter letters = true
  /\ digits <> [] /\ forallb Py.is_digit digits = true.
Proof.
  unfold fullmatch_letters_digits. split.
  - destruct (span Py.is_letter s) as [a b] eqn:Hs.
    destruct (span_app _ _ _ _ Hs) as [-> Ha].
    destruct a as [|a0 a']; [discriminate|].
    destruct b as [|b0 b']; [discriminate|].
    destruct (forallb Py.is_digit (b0 :: b')) eqn:Hd; [|discriminate].
    intros H. inversion H; subst. repeat split; auto; discriminate.
  - intros (-> & Hl & Hls & Hd & Hds).
    rewrite span_prefix; auto.
    + destruct letters; [contradiction|]. destruct digits; [contradiction|].
      now rewrite Hds.
    + destruct digits as [|d ds]; [exact I|]. simpl in Hds.
      apply andb_true_iff in Hds as [Hd0 _]. now apply digit_not_letter.
Qed.

Lemma fullmatch_none s :
  fullmatch_letters_digits s = None <->
  ~ (exists letters digits,
        s = letters ++ digits
        /\ letters <> [] /\ forallb Py.is_letter letters = true
        /\ digits <> [] /\ forallb Py.is_digit digits = true).
Proof.
  split.
  - intros H (l & d & Hm). apply fullmatch_some in Hm. congruence.
  - intros H. destruct (fullmatch_letters_digits s) as [[l d]|] eqn:E; auto.
    exfalso. apply H. exists l, d. now apply fullmatch_some.
Qed.

(** The loop of lines 22-24 is Horner's rule for the positional value. *)
Lemma column_loop letters acc :
  forallb Py.is_letter letters = true ->
  fold_left (fun col ch => col * 26 + (Py.ord ch - Py.ord "A" + 1))
            (map Py.upper_char letters) acc
  = acc * 26 ^ Z.of_nat (List.length letters) + column_number letters.
Proof.
  revert acc. induction letters as [|ch t IH]; intros acc H.
  - simpl. lia.
  - simpl in H. apply andb_true_iff in H as [Hc Ht].
    cbn [map fold_left column_number List.length].
    rewrite IH by assumption. rewrite upper_letter_value by assumption.
    rewrite Nat2Z.inj_succ, Z.pow_succ_r by lia. ring.
Qed.

Lemma int_of_digits_loop digits acc :
  fold_left (fun n d => n * 10 + (Py.ord d - 48)) digits acc
  = acc * 10 ^ Z.of_nat (List.length digits) + decimal_value digits.
Proof.
  revert acc. induction digits as [|d t IH]; intros acc.
  - simpl. lia.
  - cbn [fold_left decimal_value List.length]. rewrite IH.
    rewrite Nat2Z.inj_succ, Z.pow_succ_r by lia. ring.
Qed.

Lemma int_of_digits_decimal digits :
  Py.int_of_digits digits = decimal_value digits.
Proof. unfold Py.int_of_digits. rewrite int_of_digits_loop. lia. Qed.

Lemma column_number_nonneg letters :
  forallb Py.is_letter letters = true -> 0 <= column_number letters.
Proof.
  induction letters as [|ch t IH]; simpl; intros H; [lia|].
  apply andb_true_iff in H as [Hc Ht].
  pose proof (letter_value_bounds _ Hc). specialize (IH Ht).
  assert (0 < 26 ^ Z.of_nat (List.length t)) by (apply Z.pow_pos_nonneg; lia).
  nia.
Qed.

Lemma column_number_pos letters :
  letters <> [] -> forallb Py.is_letter letters = true ->
  1 <= column_number letters.
Proof.
  destruct letters as [|ch t]; [contradiction|]. intros _ H. simpl in *.
  apply andb_true_iff in H as [Hc Ht].
  pose proof (letter_value_bounds _ Hc).
  pose proof (column_number_nonneg _ Ht).
  assert (0 < 26 ^ Z.of_nat (List.length t)) by (apply Z.pow_pos_nonneg; lia).
  nia.
Qed.

Lemma decimal_value_nonneg digits :
  forallb Py.is_digit digits = true -> 0 <= decimal_value digits.
Proof.
  induction digits as [|d t IH]; simpl; intros H; [lia|].
  apply andb_true_iff in H as [Hc Ht].
  pose proof (digit_bounds _ Hc). specialize (IH Ht).
  assert (0 < 10 ^ Z.of_nat (List.length t)) by (apply Z.pow_pos_nonneg; lia).
  nia.
Qed.

Lemma decimal_value_no_leading_zero d digits :
  is_digit_1_9 d = true -> forallb Py.is_digit digits = true ->
  1 <= decimal_value (d :: digits).
Proof.
  intros Hd Hds. simpl.
  pose proof (digit_1_9_bounds _ Hd).
  pose proof (decimal_value_nonneg _ Hds).
  assert (0 < 10 ^ Z.of_nat (List.length digits))
    by (apply Z.pow_pos_nonneg; lia).
  nia.
Qed.

Lemma strip_chars_address pre letters digits post :
  forallb Py.isspace pre = true -> forallb Py.isspace post = true ->
  letters <> [] -> forallb Py.is_letter letters = true ->
  digits <> [] -> forallb Py.is_digit digits = true ->
  Py.strip_chars (pre ++ letters ++ digits ++ post) = letters ++ digits.
Proof.
  intros Hpre Hpost Hl Hls Hd Hds.
  destruct letters as [|f ls]; [contradiction|].
  destruct (exists_last Hd) as (ds & l & ->).
  simpl in Hls. apply andb_true_iff in Hls as [Hf _].
  rewrite forallb_app in Hds. apply andb_true_iff in Hds as [_ Hlast].
  simpl in Hlast. rewrite andb_true_r in Hlast.
  replace (pre ++ (f :: ls) ++ (ds ++ [l]) ++ post)
    with (pre ++ (f :: (ls ++ ds) ++ [l]) ++ post)
    by (simpl; now rewrite <- !app_assoc).
  rewrite strip_chars_core; auto using letter_not_space, digit_not_space.
  simpl. now rewrite <- app_assoc.
Qed.

(** What [a1_to_rc] returns on letters followed by digits, white space
    around them or not. *)
Lemma a1_to_rc_letters_digits pre letters digits post :
  forallb Py.isspace pre = true -> forallb Py.isspace post = true ->
  letters <> [] -> forallb Py.is_letter letters = true ->
  digits <> [] -> forallb Py.is_digit digits = true ->
  a1_to_rc (string_of_list_ascii (pre ++ letters ++ digits ++ post))
  = Ok (decimal_value digits, column_number letters).
Proof.
  intros Hpre Hpost Hl Hls Hd Hds. unfold a1_to_rc, Py.strip.
  rewrite !list_ascii_of_string_of_list_ascii.
  rewrite strip_chars_address by assumption.
  assert (E : fullmatch_letters_digits (letters ++ digits)
              = Some (letters, digits)) by (apply fullmatch_some; auto).
  rewrite E. rewrite column_loop by assumption.
  rewrite int_of_digits_decimal, Z.mul_0_l. reflexivity.
Qed.

(** The result of [a1_to_rc], read off the stripped address. *)
Lemma a1_to_rc_ok a1 r c :
  a1_to_rc a1 = Ok (r, c) <->
  exists letters digits,
    list_ascii_of_string (Py.strip a1) = letters ++ digits
    /\ letters <> [] /\ forallb Py.is_letter letters = true
    /\ digits <> [] /\ forallb Py.is_digit digits = true
    /\ r = decimal_value digits /\ c = column_number letters.
Proof.
  unfold a1_to_rc. split.
  - destruct (fullmatch_letters_digits _) as [[l d]|] eqn:E; [|discriminate].
    apply fullmatch_some in E as (E & Hl & Hls & Hd & Hds).
    rewrite column_loop by assumption. rewrite int_of_digits_decimal.
    rewrite Z.mul_0_l. intros H. inversion H; subst.
    exists l, d. repeat split; auto.
  - intros (l & d & E & Hl & Hls & Hd & Hds & -> & ->).
    assert (E' : fullmatch_letters_digits (list_ascii_of_string (Py.strip a1))
                 = Some (l, d)) by (apply fullmatch_some; auto).
    rewrite E'. rewrite column_loop by assumption.
    rewrite int_of_digits_decimal, Z.mul_0_l. reflexivity.
Qed.

Lemma a1_to_rc_err a1 e :
  a1_to_rc a1 = Err e ->
  e = InvalidAddress /\ ~ letters_then_digits (Py.strip a1).
Proof.
  unfold a1_to_rc.
  destruct (fullmatch_letters_digits _) as [[l d]|] eqn:E; [discriminate|].
  intros H. inversion H; subst. split; [reflexivity|].
  now apply fullmatch_none in E.
Qed.

(** ** The [A1_REGEX] gate *)

Lemma A1_REGEX_match_shape s :
  A1_REGEX_match s = true ->
  exists letters d digits tail,
    list_ascii_of_string s = letters ++ (d :: digits) ++ tail
    /\ letters <> [] /\ forallb Py.is_letter letters = true
    /\ is_digit_1_9 d = true /\ forallb Py.is_digit digits = true
    /\ (tail = [] \/ tail = ["010"%char]).
Proof.
  unfold A1_REGEX_match.
  destruct (span Py.is_letter (list_ascii_of_string s)) as [a b] eqn:Hs.
  destruct (span_app _ _ _ _ Hs) as [E Ha].
  destruct a as [|a0 a']; [discriminate|].
  destruct b as [|d ds]; [discriminate|].
  intros H. apply andb_true_iff in H as [Hd H].
  destruct (span Py.is_digit ds) as [digits tail] eqn:Hs2.
  destruct (span_app _ _ _ _ Hs2) as [E2 Hds].
  exists (a0 :: a'), d, digits, tail. subst ds.
  repeat split; auto; try discriminate.
  destruct tail as [|nl [|? ?]]; auto; [|discriminate].
  right. apply Ascii.eqb_eq in H. now subst.
Qed.

Lemma A1_REGEX_match_strict s :
  A1_REGEX_match s = true -> strict_address (Py.strip s).
Proof.
  intros H.
  destruct (A1_REGEX_match_shape _ H)
    as (l & d & ds & tail & E & Hl & Hls & Hd & Hds & Htail).
  exists l, d, ds. repeat split; auto.
  unfold Py.strip. rewrite list_ascii_of_string_of_list_ascii, E.
  apply (strip_chars_address [] l (d :: ds) tail); auto.
  - destruct Htail as [-> | ->]; reflexivity.
  - discriminate.
  - simpl. rewrite Hds, (digit_1_9_is_digit _ Hd). reflexivity.
Qed.

Lemma strict_address_match s :
  strict_address s -> A1_REGEX_match s = true.
Proof.
  intros (l & d & ds & E & Hl & Hls & Hd & Hds). unfold A1_REGEX_match.
  rewrite E, span_prefix; auto.
  - destruct l; [contradiction|]. rewrite Hd. simpl.
    rewrite <- (app_nil_r ds), span_prefix; auto.
  - apply digit_not_letter. now apply digit_1_9_is_digit.
Qed.

Lemma strict_is_letters_then_digits s :
  strict_address s -> letters_then_digits s.
Proof.
  intros (l & d & ds & E & Hl & Hls & Hd & Hds).
  exists l, (d :: ds). repeat split; auto; [discriminate|].
  simpl. now rewrite Hds, (digit_1_9_is_digit _ Hd).
Qed.

(** ** The resolver: the statements *)

(** C6.  On every address made of letters then digits (white space around
    it or not), [a1_to_rc] returns the row the digit run denotes in base 10
    and the column the letters denote in base 26 with A=1, whatever their
    case; so A1 is (1,1), Z1 is (1,26), AA1 is (1,27) and BC10, in either
    case, is (10,55). *)
Theorem a1_to_rc_valid_address :
  (forall pre letters digits post,
      forallb Py.isspace pre = true -> forallb Py.isspace post = true ->
      letters <> [] -> forallb Py.is_letter letters = true ->
      digits <> [] -> forallb Py.is_digit digits = true ->
      a1_to_rc (string_of_list_ascii (pre ++ letters ++ digits ++ post))
      = Ok (decimal_value digits, column_number letters))
  /\ a1_to_rc "A1" = Ok (1, 1)
  /\ a1_to_rc "Z1" = Ok (1, 26)
  /\ a1_to_rc "AA1" = Ok (1, 27)
  /\ a1_to_rc "BC10" = Ok (10, 55)
  /\ a1_to_rc "bc10" = Ok (10, 55).
Proof.
  split; [exact a1_to_rc_letters_digits|].
  repeat split; reflexivity.
Qed.

Lemma a1_to_rc_valid_address_witness :
  a1_to_rc " bC10 " = Ok (10, 55).
Proof.
  apply (proj1 a1_to_rc_valid_address
           [" "%char] ["b"%char; "C"%char] ["1"%char; "0"%char] [" "%char]);
    try reflexivity; discriminate.
Defined.

(** C5, the counterexample: A01 has a leading zero, yet [a1_to_rc] resolves
    it, to row 1 and column 1. *)
Lemma a1_to_rc_accepts_leading_zero :
  a1_to_rc "A01" = Ok (1, 1) /\ ~ strict_address (Py.strip "A01").
Proof.
  split; [reflexivity|].
  intros H. apply strict_address_match in H. discriminate H.
Qed.

(** C5, as the code has it.  [a1_to_rc] fails, with its one error, exactly
    on the inputs that once stripped are not letters followed by digits: a
    leading zero in the digits is accepted.  It fails on the empty string,
    on 5, on A and on 1A.  The rule against a leading zero is that of the
    [A1_REGEX] gate, which [ConvertWorker.run] applies first: the gate
    refuses every input that once stripped is not an address of the strict
    pattern (A01 among them), and the worker then fails. *)
Theorem a1_to_rc_rejects :
  (forall a1,
      a1_to_rc a1 = Err InvalidAddress <->
      ~ letters_then_digits (Py.strip a1))
  /\ (forall a1 e, a1_to_rc a1 = Err e -> e = InvalidAddress)
  /\ a1_to_rc "" = Err InvalidAddress
  /\ a1_to_rc "5" = Err InvalidAddress
  /\ a1_to_rc "A" = Err InvalidAddress
  /\ a1_to_rc "1A" = Err InvalidAddress
  /\ (forall a1, ~ strict_address (Py.strip a1) -> A1_REGEX_match a1 = false)
  /\ A1_REGEX_match "A01" = false
  /\ (forall fs input_path a1 sheet_name id_col_name var_name value_name,
         ~ strict_address (Py.strip a1) ->
         is_ok (ConvertWorker_run fs input_path a1 sheet_name id_col_name
                  var_name value_name) = false).
Proof.
  assert (G : forall a1,
             ~ strict_address (Py.strip a1) -> A1_REGEX_match a1 = false).
  { intros a1 H. destruct (A1_REGEX_match a1) eqn:E; [|reflexivity].
    exfalso. apply H. now apply A1_REGEX_match_strict. }
  split; [|split; [|repeat split; try reflexivity; try exact G]].
  - intros a1. split.
    + intros H. now apply a1_to_rc_err in H.
    + intros H. destruct (a1_to_rc a1) as [[r c]|e] eqn:E.
      * exfalso. apply H. apply a1_to_rc_ok in E.
        destruct E as (l & d & E & Hl & Hls & Hd & Hds & _).
        exists l, d. auto.
      * apply a1_to_rc_err in E as [-> _]. reflexivity.
  - intros a1 e H. now apply a1_to_rc_err in H.
  - intros fs p a1 sn idc vn valn H. unfold ConvertWorker_run.
    destruct (negb (path_exists fs p)); [reflexivity|].
    now rewrite (G a1 H).
Qed.

Lemma a1_to_rc_rejects_witness :
  a1_to_rc "A-1" = Err InvalidAddress.
Proof.
  apply (proj1 a1_to_rc_rejects "A-1"). vm_compute.
  intros (l & d & E & Hl & Hls & Hd & Hds).
  destruct l as [|c0 l]; [contradiction|].
  simpl in E. inversion E as [[E0 E1]]. subst c0. clear E.
  destruct l as [|c1 l].
  - simpl in E1. subst d. discriminate Hds.
  - simpl in E1. inversion E1 as [[E2 E3]]. subst c1. discriminate Hls.
Defined.

(** C9, the counterexample: [a1_to_rc] resolves A0, and the row is 0. *)
Lemma a1_to_rc_row_zero :
  exists r c, a1_to_rc "A0" = Ok (r, c) /\ r < 1.
Proof. exists 0, 1. split; reflexivity. Qed.

(** C9, as the code has it.  Every pair [a1_to_rc] returns has a column of
    at least 1 and a row of at least 0; the row is at least 1 when the
    address has passed the [A1_REGEX] gate, which allows no leading zero and
    which [ConvertWorker.run] applies before the pipeline. *)
Theorem a1_to_rc_bounds a1 r c :
  a1_to_rc a1 = Ok (r, c) ->
  1 <= c /\ 0 <= r /\ (A1_REGEX_match a1 = true -> 1 <= r).
Proof.
  intros H. apply a1_to_rc_ok in H.
  destruct H as (l & d & E & Hl & Hls & Hd & Hds & -> & ->).
  split; [now apply column_number_pos|].
  split; [now apply decimal_value_nonneg|].
  intros G. apply A1_REGEX_match_strict in G.
  destruct G as (l' & d0 & ds & E' & Hl' & Hls' & Hd0 & Hds').
  assert (M1 : fullmatch_letters_digits (list_ascii_of_string (Py.strip a1))
               = Some (l, d)) by (apply fullmatch_some; auto).
  assert (M2 : fullmatch_letters_digits (list_ascii_of_string (Py.strip a1))
               = Some (l', d0 :: ds)).
  { apply fullmatch_some. repeat split; auto; [discriminate|].
    simpl. now rewrite Hds', (digit_1_9_is_digit _ Hd0). }
  rewrite M1 in M2. inversion M2; subst.
  now apply decimal_value_no_leading_zero.
Qed.

Lemma a1_to_rc_bounds_witness :
  1 <= 55 /\ 0 <= 10 /\ (A1_REGEX_match "BC10" = true -> 1 <= 10).
Proof. apply (a1_to_rc_bounds "BC10" 10 55). reflexivity. Defined.

(** ** Cells that are never empty *)

Lemma lstrip_no_space s :
  Forall (fun ch => Py.isspace ch = false) s -> Py.lstrip_chars s = s.
Proof.
  intros H. destruct H as [|ch s Hc _]; [reflexivity|]. now apply lstrip_stop.
Qed.

Lemma strip_no_space s :
  Forall (fun ch => Py.isspace ch = false) s -> Py.strip_chars s = s.
Proof.
  intros H. unfold Py.strip_chars, Py.rstrip_chars.
  rewrite (lstrip_no_space s H), lstrip_no_space.
  - apply rev_involutive.
  - now apply Forall_rev.
Qed.

Lemma string_of_uint_no_space d :
  Forall (fun ch => Py.isspace ch = false)
         (list_ascii_of_string (NilEmpty.string_of_uint d)).
Proof. induction d; simpl; constructor; auto. Qed.

Lemma str_of_int_chars n :
  list_ascii_of_string (Py.str_of_int n) <> []
  /\ Forall (fun ch => Py.isspace ch = false)
            (list_ascii_of_string (Py.str_of_int n)).
Proof.
  unfold Py.str_of_int, NilZero.string_of_int, NilZero.string_of_uint.
  destruct (Z.to_int n) as [d|d]; destruct d; simpl;
    (split; [discriminate|]); repeat constructor;
    apply string_of_uint_no_space.
Qed.

Lemma not_blank_chars s :
  list_ascii_of_string s <> [] ->
  Forall (fun ch => Py.isspace ch = false) (list_ascii_of_string s) ->
  String.eqb (Py.strip s) "" = false.
Proof.
  intros Hne Hall. unfold Py.strip. rewrite strip_no_space by assumption.
  rewrite string_of_list_ascii_of_string.
  destruct s; [contradiction|reflexivity].
Qed.

(** A cell that holds an integer or a truth value is never empty. *)
Lemma number_not_blank n : is_none_or_blank (VInt n) = false.
Proof.
  destruct (str_of_int_chars n). now apply not_blank_chars.
Qed.

Lemma bool_not_blank b : is_none_or_blank (VBool b) = false.
Proof. destruct b; reflexivity. Qed.

(** A missing value that is not [None] is the float NaN, and the extractor
    does not take it for an empty cell. *)
Lemma isna_not_blank v :
  Pandas.isna v = true ->
  v = VNone \/ (v = VFloat "nan" /\ is_none_or_blank v = false).
Proof.
  destruct v; try discriminate; auto. simpl. intros H.
  apply String.eqb_eq in H. subst. right. split; reflexivity.
Qed.

(** ** Reading the block *)

Lemma mapM_total {A B} (f : A -> result B) (g : A -> B) l :
  (forall a, In a l -> f a = Ok (g a)) -> mapM f l = Ok (map g l).
Proof.
  induction l as [|a l IH]; intros H; [reflexivity|].
  simpl. rewrite (H a (or_introl eq_refl)). simpl.
  rewrite IH by (intros; apply H; now right). reflexivity.
Qed.

Lemma range_In a b x : In x (Py.range a b) <-> a <= x < b.
Proof.
  unfold Py.range. rewrite in_map_iff. split.
  - intros (k & <- & Hk). apply in_seq in Hk. lia.
  - intros H. exists (Z.to_nat (x - a)). split; [lia|]. apply in_seq. lia.
Qed.

Lemma range_length a b : List.length (Py.range a b) = Z.to_nat (b - a).
Proof. unfold Py.range. now rewrite length_map, length_seq. Qed.

Lemma range_nth a b k d :
  (k < Z.to_nat (b - a))%nat -> nth k (Py.range a b) d = a + Z.of_nat k.
Proof.
  intros H. unfold Py.range.
  rewrite (nth_indep _ d (a + Z.of_nat 0))
    by (now rewrite length_map, length_seq).
  rewrite (map_nth (fun k => a + Z.of_nat k)), seq_nth by assumption.
  reflexivity.
Qed.

Lemma read_rows_ok ws start_r start_c :
  1 <= start_r -> 1 <= start_c ->
  read_rows ws start_r start_c = Ok (cells_from ws start_r start_c).
Proof.
  intros Hr Hc. unfold read_rows, cells_from.
  apply mapM_total. intros r Hin. apply range_In in Hin.
  apply mapM_total. intros c Hin'. apply range_In in Hin'.
  unfold Openpyxl.cell_value.
  replace (r <? 1) with false by (symmetry; apply Z.ltb_ge; lia).
  replace (c <? 1) with false by (symmetry; apply Z.ltb_ge; lia).
  reflexivity.
Qed.

Lemma cells_from_length ws start_r start_c :
  List.length (cells_from ws start_r start_c)
  = Z.to_nat (Openpyxl.max_row ws + 1 - start_r).
Proof. unfold cells_from. now rewrite length_map, range_length. Qed.

Lemma cells_from_rectangular ws start_r start_c :
  rectangular (Z.to_nat (Openpyxl.max_column ws + 1 - start_c))
              (cells_from ws start_r start_c).
Proof.
  intros row Hin. unfold cells_from in Hin. apply in_map_iff in Hin.
  destruct Hin as (r & <- & _). now rewrite length_map, range_length.
Qed.

Lemma cells_from_nth ws start_r start_c i j :
  (i < Z.to_nat (Openpyxl.max_row ws + 1 - start_r))%nat ->
  (j < Z.to_nat (Openpyxl.max_column ws + 1 - start_c))%nat ->
  nth j (nth i (cells_from ws start_r start_c) []) VNone
  = Openpyxl.value_at ws (start_r + Z.of_nat i) (start_c + Z.of_nat j).
Proof.
  intros Hi Hj. unfold cells_from.
  set (f := fun r => map (fun c => Openpyxl.value_at ws r c)
                         (Py.range start_c (Openpyxl.max_column ws + 1))).
  rewrite (nth_indep _ [] (f 0)) by (now rewrite length_map, range_length).
  rewrite (map_nth f), range_nth by assumption. unfold f.
  rewrite (nth_indep _ VNone (Openpyxl.value_at ws (start_r + Z.of_nat i) 0))
    by (now rewrite length_map, range_length).
  rewrite (map_nth (fun c => Openpyxl.value_at ws (start_r + Z.of_nat i) c)).
  now rewrite range_nth.
Qed.

Lemma cells_from_nil ws start_r start_c :
  cells_from ws start_r start_c = [] <-> Openpyxl.max_row ws < start_r.
Proof.
  split; intros H.
  - apply length_zero_iff_nil in H. rewrite cells_from_length in H. lia.
  - apply length_zero_iff_nil. rewrite cells_from_length. lia.
Qed.

(** ** Trimming a rectangular block *)

Lemma row_empty_forallb row :
  forallb is_none_or_blank row = true <-> row_empty row.
Proof. apply forallb_forall. Qed.

Lemma col_is_all_none_rect data w ci :
  rectangular w data -> (ci < w)%nat ->
  col_is_all_none data ci
  = Ok (forallb (fun row => is_none_or_blank (nth ci row VNone)) data).
Proof.
  induction data as [|row rest IH]; intros Hrect Hci; [reflexivity|].
  simpl. assert (Hlen : List.length row = w) by (apply Hrect; now left).
  rewrite (nth_error_nth' row VNone) by lia.
  destruct (is_none_or_blank (nth ci row VNone)); [|reflexivity].
  apply IH; auto. intros r Hr. apply Hrect. now right.
Qed.

Lemma column_empty_forallb data j :
  forallb (fun row => is_none_or_blank (nth j row VNone)) data = true
  <-> column_empty data j.
Proof. apply forallb_forall. Qed.

Lemma scan_end_c_spec data w n :
  rectangular w data -> (n <= w)%nat ->
  exists m,
    scan_end_c data n = Ok m /\ (m <= n)%nat
    /\ (forall j, (m <= j < n)%nat -> column_empty data j)
    /\ (forall j, m = S j -> ~ column_empty data j).
Proof.
  intros Hrect. induction n as [|n IH]; intros Hn.
  - exists O. repeat split; auto; intros; lia.
  - simpl. rewrite (col_is_all_none_rect data w) by (auto; lia). simpl.
    destruct (forallb _ data) eqn:E.
    + destruct IH as (m & Hm & Hle & Hblank & Hstop); [lia|].
      exists m. repeat split; auto.
      intros j Hj. destruct (Nat.eq_dec j n) as [->|Hne].
      * now apply column_empty_forallb.
      * apply Hblank. lia.
    + exists (S n). repeat split; auto; [intros; lia|].
      intros j Hj Hc. inversion Hj; subst.
      apply column_empty_forallb in Hc. congruence.
Qed.

Lemma row_is_all_none_in data ri :
  (ri < List.length data)%nat ->
  row_is_all_none data ri = Ok (forallb is_none_or_blank (nth ri data [])).
Proof.
  intros H. unfold row_is_all_none.
  now rewrite (nth_error_nth' data []).
Qed.

Lemma scan_end_r_spec data n :
  (n <= List.length data)%nat ->
  exists k,
    scan_end_r data n = Ok k /\ (k <= n)%nat
    /\ (forall i, (k <= i < n)%nat -> row_empty (nth i data []))
    /\ (forall i, k = S i -> ~ row_empty (nth i data [])).
Proof.
  induction n as [|n IH]; intros Hn.
  - exists O. repeat split; auto; intros; lia.
  - simpl. rewrite row_is_all_none_in by lia. simpl.
    destruct (forallb _ (nth n data [])) eqn:E.
    + destruct IH as (k & Hk & Hle & Hblank & Hstop); [lia|].
      exists k. repeat split; auto.
      intros i Hi. destruct (Nat.eq_dec i n) as [->|Hne].
      * now apply row_empty_forallb.
      * apply Hblank. lia.
    + exists (S n). repeat split; auto; [intros; lia|].
      intros i Hi Hc. inversion Hi; subst.
      apply row_empty_forallb in Hc. congruence.
Qed.

Lemma narrowed_rectangular data w m :
  rectangular w data -> (m <= w)%nat -> rectangular m (map (firstn m) data).
Proof.
  intros Hrect Hm row Hin. apply in_map_iff in Hin.
  destruct Hin as (r & <- & Hr). rewrite length_firstn, (Hrect r Hr). lia.
Qed.

Lemma narrowed_nth (data : block) m i :
  nth i (map (firstn m) data) [] = firstn m (nth i data []).
Proof.
  rewrite <- (map_nth (@firstn cell m) data []). now rewrite firstn_nil.
Qed.

Lemma In_firstn {A} (x : A) n l : In x (firstn n l) -> In x l.
Proof.
  intros H. rewrite <- (firstn_skipn n l). apply in_or_app. now left.
Qed.

Lemma row_empty_narrowed row m : row_empty row -> row_empty (firstn m row).
Proof. intros H v Hv. apply H. eapply In_firstn; eauto. Qed.

(** A row is empty when its first [m] cells are and the columns from [m] on
    are empty in the whole block. *)
Lemma row_empty_widen data w m row :
  rectangular w data -> In row data ->
  (forall j, (m <= j < w)%nat -> column_empty data j) ->
  row_empty (firstn m row) -> row_empty row.
Proof.
  intros Hrect Hin Hcols Hrow v Hv.
  destruct (In_nth _ _ VNone Hv) as (j & Hj & <-).
  rewrite (Hrect row Hin) in Hj.
  destruct (Nat.lt_ge_cases j m) as [Hlt|Hge].
  - apply Hrow.
    assert (E : nth j (firstn m row) VNone = nth j row VNone).
    { rewrite nth_firstn. apply Nat.ltb_lt in Hlt. now rewrite Hlt. }
    rewrite <- E. apply nth_In. rewrite length_firstn, (Hrect row Hin). lia.
  - apply (Hcols j); auto.
Qed.

Lemma trim_block_trimmed data :
  data <> [] ->
  trim_block data
  = (t <- trimmed data ;;
     match t with
     | [] => Err NoValidDataAtHeader
     | [] :: _ => Err NoValidDataAtHeader
     | _ => Ok t
     end).
Proof.
  destruct data as [|row0 rest]; [contradiction|]. intros _.
  unfold trim_block, trimmed.
  destruct (trim_columns (row0 :: rest)); reflexivity.
Qed.

(** What the two trimming steps and the final check do to a rectangular
    block: [end_c] and [end_r] are where the two scans stop. *)
Lemma trim_block_rect data w :
  data <> [] -> rectangular w data ->
  exists end_c end_r,
    trim_columns data = Ok (map (firstn end_c) data)
    /\ (end_c <= w)%nat
    /\ (forall j, (end_c <= j < w)%nat -> column_empty data j)
    /\ (forall j, end_c = S j -> ~ column_empty data j)
    /\ trim_rows (map (firstn end_c) data)
       = Ok (firstn end_r (map (firstn end_c) data))
    /\ (end_r <= List.length data)%nat
    /\ (forall i, (end_r <= i < List.length data)%nat ->
                  row_empty (firstn end_c (nth i data [])))
    /\ (forall i, end_r = S i -> ~ row_empty (firstn end_c (nth i data [])))
    /\ (end_r <> O -> end_c <> O)
    /\ trim_block data
       = match end_r with
         | O => Err NoValidDataAtHeader
         | S _ => Ok (firstn end_r (map (firstn end_c) data))
         end.
Proof.
  intros Hne Hrect. destruct data as [|row0 rest]; [contradiction|].
  assert (Hw : List.length row0 = w) by (apply Hrect; now left).
  destruct (scan_end_c_spec (row0 :: rest) w (List.length row0) Hrect)
    as (m & Hm & Hmle & Hcols & Hcstop); [lia|].
  set (data := row0 :: rest) in *.
  destruct (scan_end_r_spec (map (firstn m) data)
              (List.length (map (firstn m) data)) (le_n _))
    as (k & Hk & Hkle & Hrows & Hrstop).
  rewrite length_map in Hkle, Hrows.
  assert (Hpos : k <> O -> m <> O).
  { intros Hk0 ->. destruct k as [|i]; [contradiction|].
    apply (Hrstop i eq_refl). rewrite narrowed_nth, firstn_0.
    intros v []. }
  assert (Tc : trim_columns data = Ok (map (firstn m) data)).
  { unfold trim_columns, data. fold data. now rewrite Hm. }
  assert (Tr : trim_rows (map (firstn m) data)
               = Ok (firstn k (map (firstn m) data))).
  { unfold trim_rows. now rewrite Hk. }
  exists m, k.
  split; [exact Tc|]. split; [lia|].
  split; [intros j Hj; apply Hcols; lia|].
  split; [exact Hcstop|]. split; [exact Tr|]. split; [unfold data in *; lia|].
  split; [|split; [|split; [exact Hpos|]]].
  - intros i Hi. rewrite <- narrowed_nth. now apply Hrows.
  - intros i Hi. rewrite <- narrowed_nth. now apply Hrstop.
  - rewrite trim_block_trimmed by assumption. unfold trimmed.
    rewrite Tc. cbn [bind]. rewrite Tr. cbn [bind].
    destruct k as [|i]; [reflexivity|].
    assert (m <> O) by (apply Hpos; discriminate).
    unfold data. simpl map. rewrite firstn_cons.
    destruct row0 as [|v row0']; [simpl in Hmle; lia|].
    destruct m as [|m']; [contradiction|]. reflexivity.
Qed.

(** The trimming leaves nothing exactly when every cell read is empty. *)
Lemma trim_block_fails_iff data w :
  data <> [] -> rectangular w data ->
  (is_ok (trim_block data) = false <->
   forall row, In row data -> row_empty row).
Proof.
  intros Hne Hrect.
  destruct (trim_block_rect data w Hne Hrect)
    as (m & k & _ & Hm & Hcols & _ & _ & Hk & Hrows & Hrstop & _ & ->).
  split.
  - destruct k as [|i]; [|discriminate]. intros _ row Hin.
    destruct (In_nth _ _ [] Hin) as (i & Hi & <-).
    apply (row_empty_widen data w m _ Hrect (nth_In _ _ Hi) Hcols).
    apply Hrows. lia.
  - intros Hall. destruct k as [|i]; [reflexivity|]. exfalso.
    apply (Hrstop i eq_refl). apply row_empty_narrowed. apply Hall.
    apply nth_In. lia.
Qed.


(** ** The block extractor: the statements *)

Lemma read_block_at_trim ws start_r start_c :
  1 <= start_r -> 1 <= start_c ->
  read_block_at ws start_r start_c
  = trim_block (cells_from ws start_r start_c).
Proof.
  intros Hr Hc. unfold read_block_at. now rewrite read_rows_ok.
Qed.

Lemma trimmed_rect (data : block) end_c end_r :
  trim_columns data = Ok (map (firstn end_c) data) ->
  trim_rows (map (firstn end_c) data)
  = Ok (firstn end_r (map (firstn end_c) data)) ->
  trimmed data = Ok (firstn end_r (map (firstn end_c) data)).
Proof. intros Tc Tr. unfold trimmed. rewrite Tc. exact Tr. Qed.

(** C4.  From an anchor inside the sheet, the extractor reads the cells up
    to the sheet's extent and trims columns first, then rows.  The column
    scan stops at [end_c]: every column from [end_c] on is empty in every
    row, column [end_c - 1] is not, and each row keeps its first [end_c]
    cells, empty interior columns included.  The row scan then works on the
    narrowed rows and stops at [end_r]: every narrowed row from [end_r] on
    is empty, row [end_r - 1] is not, and the first [end_r] rows are kept.
    A sheet of three rows and three columns whose third row and third column
    are empty and whose other four cells are not gives the block of those
    four cells. *)
Theorem extract_trims_columns_then_rows :
  (forall ws start_r start_c,
      1 <= start_r <= Openpyxl.max_row ws -> 1 <= start_c ->
      let raw := cells_from ws start_r start_c in
      let w := Z.to_nat (Openpyxl.max_column ws + 1 - start_c) in
      read_rows ws start_r start_c = Ok raw
      /\ exists end_c end_r,
          trim_columns raw = Ok (map (firstn end_c) raw)
          /\ (end_c <= w)%nat
          /\ (forall j, (end_c <= j < w)%nat -> column_empty raw j)
          /\ (forall j, end_c = S j -> ~ column_empty raw j)
          /\ trim_rows (map (firstn end_c) raw)
             = Ok (firstn end_r (map (firstn end_c) raw))
          /\ (end_r <= List.length raw)%nat
          /\ (forall i, (end_r <= i < List.length raw)%nat ->
                        row_empty (firstn end_c (nth i raw [])))
          /\ (forall i, end_r = S i ->
                        ~ row_empty (firstn end_c (nth i raw [])))
          /\ read_block_at ws start_r start_c
             = match end_r with
               | O => Err NoValidDataAtHeader
               | S _ => Ok (firstn end_r (map (firstn end_c) raw))
               end)
  /\ (forall ws,
         Openpyxl.max_row ws = 3 -> Openpyxl.max_column ws = 3 ->
         (forall c, 1 <= c <= 3 ->
                    is_none_or_blank (Openpyxl.value_at ws 3 c) = true) ->
         (forall r, 1 <= r <= 3 ->
                    is_none_or_blank (Openpyxl.value_at ws r 3) = true) ->
         (forall r c, 1 <= r <= 2 -> 1 <= c <= 2 ->
                      is_none_or_blank (Openpyxl.value_at ws r c) = false) ->
         read_block_from_header ws "A1"
         = Ok [[Openpyxl.value_at ws 1 1; Openpyxl.value_at ws 1 2];
               [Openpyxl.value_at ws 2 1; Openpyxl.value_at ws 2 2]]).
Proof.
  split.
  - intros ws start_r start_c Hr Hc raw w.
    split; [apply read_rows_ok; lia|].
    assert (Hne : raw <> []).
    { intros E. apply cells_from_nil in E. lia. }
    destruct (trim_block_rect raw w Hne (cells_from_rectangular _ _ _))
      as (m & k & Tc & Hm & Hcols & Hcstop & Tr & Hk & Hrows & Hrstop & _ & T).
    exists m, k. rewrite read_block_at_trim by lia. fold raw.
    repeat (split; [assumption|]). exact T.
  - intros ws Hmr Hmc Hrow3 Hcol3 Hfull.
    unfold read_block_from_header.
    change (a1_to_rc "A1") with (@Ok (Z * Z) (1, 1)). cbn [bind].
    rewrite read_block_at_trim by lia. unfold cells_from.
    rewrite Hmr, Hmc. change (Py.range 1 (3 + 1)) with [1; 2; 3].
    cbn [map].
    pose proof (Hfull 1 1 ltac:(lia) ltac:(lia)) as H11.
    pose proof (Hfull 1 2 ltac:(lia) ltac:(lia)) as H12.
    pose proof (Hfull 2 1 ltac:(lia) ltac:(lia)) as H21.
    pose proof (Hfull 2 2 ltac:(lia) ltac:(lia)) as H22.
    pose proof (Hcol3 1 ltac:(lia)) as H13.
    pose proof (Hcol3 2 ltac:(lia)) as H23.
    pose proof (Hrow3 1 ltac:(lia)) as H31.
    pose proof (Hrow3 2 ltac:(lia)) as H32.
    pose proof (Hrow3 3 ltac:(lia)) as H33.
    unfold trim_block, trim_columns.
    cbn [List.length scan_end_c col_is_all_none nth_error bind].
    rewrite H13, H23, H33. cbn [bind]. rewrite H12. cbn [bind map firstn].
    unfold trim_rows.
    cbn [List.length scan_end_r row_is_all_none nth_error bind forallb].
    rewrite H31, H32, H21. cbn [andb bind firstn]. reflexivity.
Qed.

Lemma extract_trims_columns_then_rows_witness :
  read_block_from_header sheet_3x3 "A1"
  = Ok [[VInt 11; VInt 12]; [VInt 21; VInt 22]].
Proof.
  apply (proj2 extract_trims_columns_then_rows sheet_3x3);
    try reflexivity.
  - intros r Hr. unfold sheet_3x3, Openpyxl.value_at.
    replace (3 <=? 2) with false by reflexivity.
    now rewrite andb_false_r.
  - intros r c Hr Hc.
    assert (Er : r = 1 \/ r = 2) by lia. assert (Ec : c = 1 \/ c = 2) by lia.
    destruct Er as [-> | ->], Ec as [-> | ->]; reflexivity.
Defined.

(** The verdict of [trim_block] on a rectangular block. *)
Lemma trim_block_verdict (raw : block) w :
  rectangular w raw ->
  (trim_block raw = Err NoDataAtHeader <-> raw = [])
  /\ (trim_block raw = Err NoValidDataAtHeader <->
      raw <> [] /\
      exists t, trimmed raw = Ok t /\ (t = [] \/ exists rest, t = [] :: rest))
  /\ (forall e, trim_block raw = Err e ->
                e = NoDataAtHeader \/ e = NoValidDataAtHeader)
  /\ (forall b, trim_block raw = Ok b ->
                trimmed raw = Ok b
                /\ exists v row0 rest, b = (v :: row0) :: rest)
  /\ (is_ok (trim_block raw) = false <->
      forall row, In row raw -> row_empty row).
Proof.
  intros Hrect. destruct raw as [|row0 rest] eqn:Hraw.
  - (* no row at the anchor *)
    simpl.
    split; [tauto|].
    split; [split; [discriminate | intros [H _]; congruence]|].
    split; [intros e H; inversion H; auto|].
    split; [discriminate|].
    split; [intros _ row []|reflexivity].
  - rewrite <- Hraw in *.
    assert (Hne : raw <> []) by (rewrite Hraw; discriminate).
    destruct (trim_block_rect raw _ Hne Hrect)
      as (m & k & Tc & Hmw & _ & _ & Tr & _ & _ & _ & Hpos & T).
    pose proof (trimmed_rect raw m k Tc Tr) as Tt.
    pose proof (trim_block_fails_iff raw _ Hne Hrect) as Hall.
    split; [split; [|congruence]|].
    { rewrite T. destruct k; discriminate. }
    split.
    { split.
      - intros H. split; [assumption|]. rewrite T in H.
        destruct k as [|i]; [|discriminate].
        exists []. split; [exact Tt|now left].
      - intros (_ & t & Ht & Hshape).
        rewrite trim_block_trimmed, Ht by assumption. cbn [bind].
        destruct Hshape as [-> | (r & ->)]; reflexivity. }
    split.
    { intros e H. rewrite T in H. destruct k; inversion H; auto. }
    split; [|exact Hall].
    intros b H. rewrite T in H. destruct k as [|i]; [discriminate|].
    inversion H; subst b. split; [exact Tt|].
    assert (Hm : m <> O) by (apply Hpos; discriminate).
    assert (Hw : List.length row0 = w) by (apply Hrect; rewrite Hraw; now left).
    rewrite Hraw. cbn [map firstn].
    destruct row0 as [|v row0']; [simpl in Hw; lia|].
    destruct m as [|m']; [contradiction|].
    now exists v, (firstn m' row0'), (firstn i (map (firstn (S m')) rest)).
Qed.

(** What the two trimming steps leave of rows of one width: no row, or a
    first row that has a cell.  The test [not data[0]] of line 61 never
    decides by itself. *)
Lemma trimmed_headed (raw : block) w t :
  rectangular w raw -> trimmed raw = Ok t ->
  t = [] \/ exists v row0 rest, t = (v :: row0) :: rest.
Proof.
  intros Hrect Ht. destruct raw as [|r0 rest] eqn:Hraw; [discriminate Ht|].
  rewrite <- Hraw in *.
  assert (Hne : raw <> []) by (rewrite Hraw; discriminate).
  destruct (trim_block_rect raw _ Hne Hrect)
    as (m & k & Tc & Hmw & _ & _ & Tr & _ & _ & _ & Hpos & _).
  rewrite (trimmed_rect raw m k Tc Tr) in Ht. injection Ht as <-.
  destruct k as [|i]; [now left|]. right.
  assert (Hm : m <> O) by (apply Hpos; discriminate).
  assert (Hw : List.length r0 = w) by (apply Hrect; rewrite Hraw; now left).
  rewrite Hraw. cbn [map firstn].
  destruct r0 as [|v r0']; [simpl in Hw; lia|].
  destruct m as [|m']; [contradiction|].
  now exists v, (firstn m' r0'), (firstn i (map (firstn (S m')) rest)).
Qed.

(** C7, the counterexample.  The two cells of the first row are empty, the
    second row holds data: after trimming the first row is empty, cell by
    cell, and the extractor returns the block. *)
Lemma extract_accepts_empty_first_row :
  trimmed (cells_from sheet_empty_first_row 1 1)
  = Ok [[VNone; VStr " "]; [VStr "x"; VInt 1]]
  /\ forallb is_none_or_blank [VNone; VStr " "] = true
  /\ read_block_from_header sheet_empty_first_row "A1"
     = Ok [[VNone; VStr " "]; [VStr "x"; VInt 1]].
Proof. repeat split; reflexivity. Qed.

(** C7, as the code has it.  From an anchor of row and column at least 1,
    the extractor fails with one of its two empty-block errors and with
    nothing else: with the first exactly when no row exists at the anchor
    (the anchor row is below the sheet's last row), with the second exactly
    when rows exist and every cell read is empty, which is exactly when
    trimming leaves no row.  Trimming never leaves a first row without a
    cell.  A first row whose cells are all empty is no failure: when the
    extractor succeeds, the block is the trimmed one and its first row has
    a cell, empty or not. *)
Theorem extract_fails_iff_empty ws start_r start_c :
  1 <= start_r -> 1 <= start_c ->
  let raw := cells_from ws start_r start_c in
  let extract := read_block_at ws start_r start_c in
  read_rows ws start_r start_c = Ok raw
  /\ (raw = [] <-> Openpyxl.max_row ws < start_r)
  /\ (extract = Err NoDataAtHeader <-> raw = [])
  /\ (extract = Err NoValidDataAtHeader <->
      raw <> [] /\ forall row, In row raw -> row_empty row)
  /\ (extract = Err NoValidDataAtHeader <-> raw <> [] /\ trimmed raw = Ok [])
  /\ (forall t, trimmed raw = Ok t ->
                t = [] \/ exists v row0 rest, t = (v :: row0) :: rest)
  /\ (forall e, extract = Err e ->
                e = NoDataAtHeader \/ e = NoValidDataAtHeader)
  /\ (forall b, extract = Ok b ->
                trimmed raw = Ok b
                /\ exists v row0 rest, b = (v :: row0) :: rest).
Proof.
  intros Hr Hc raw extract.
  assert (E : extract = trim_block raw) by (now apply read_block_at_trim).
  pose proof (cells_from_rectangular ws start_r start_c) as Hrect.
  fold raw in Hrect.
  destruct (trim_block_verdict raw _ Hrect) as (V1 & V2 & V3 & V4 & V5).
  split; [now apply read_rows_ok|].
  split; [apply cells_from_nil|].
  rewrite E.
  split; [exact V1|].
  assert (K : trim_block raw = Err NoValidDataAtHeader <->
              raw <> [] /\ trimmed raw = Ok []).
  { rewrite V2. split.
    - intros (Hne & t & Ht & [-> | (rest & ->)]); [auto|].
      destruct (trimmed_headed raw _ _ Hrect Ht) as [F | (v & r & l & F)];
        discriminate F.
    - intros (Hne & Ht). split; [assumption|]. exists []. auto. }
  split.
  { split.
    - intros F. split.
      + now apply K in F.
      + apply V5. now rewrite F.
    - intros (Hne & Hall). apply V5 in Hall. case_eq (trim_block raw).
      + intros b T. rewrite T in Hall. discriminate.
      + intros e T. destruct (V3 e T) as [-> | ->]; [|reflexivity].
        apply V1 in T. contradiction. }
  split; [exact K|].
  split; [intros t Ht; exact (trimmed_headed raw _ t Hrect Ht)|].
  split; [exact V3|exact V4].
Qed.

Lemma extract_fails_iff_empty_witness :
  let raw := cells_from sheet_3x3 1 1 in
  let extract := read_block_at sheet_3x3 1 1 in
  read_rows sheet_3x3 1 1 = Ok raw
  /\ (raw = [] <-> Openpyxl.max_row sheet_3x3 < 1)
  /\ (extract = Err NoDataAtHeader <-> raw = [])
  /\ (extract = Err NoValidDataAtHeader <->
      raw <> [] /\ forall row, In row raw -> row_empty row)
  /\ (extract = Err NoValidDataAtHeader <-> raw <> [] /\ trimmed raw = Ok [])
  /\ (forall t, trimmed raw = Ok t ->
                t = [] \/ exists v row0 rest, t = (v :: row0) :: rest)
  /\ (forall e, extract = Err e ->
                e = NoDataAtHeader \/ e = NoValidDataAtHeader)
  /\ (forall b, extract = Ok b ->
                trimmed raw = Ok b
                /\ exists v row0 rest, b = (v :: row0) :: rest).
Proof. apply (extract_fails_iff_empty sheet_3x3 1 1); lia. Defined.

(** An empty column between two columns of data is interior: it stays. *)
Example interior_empty_column_kept :
  read_block_from_header
    (sheet_of 2 3 [[VStr "id"; VNone; VStr "v"]; [VStr "x"; VNone; VInt 1]])
    "A1"
  = Ok [[VStr "id"; VNone; VStr "v"]; [VStr "x"; VNone; VInt 1]].
Proof. reflexivity. Qed.

(** With a first row of empty cells the header names are the default
    ones. *)
Example empty_first_row_names :
  derive_header [VNone; VStr " "] = ["col_1"; "col_2"].
Proof. reflexivity. Qed.

(** A sheet with the anchor cell populated and nothing else gives the block
    of that one cell. *)
Example single_cell_block :
  read_block_from_header (sheet_of 1 1 [[VStr "id"]]) "A1" = Ok [[VStr "id"]].
Proof. reflexivity. Qed.

(** ** The writer *)

Lemma string_of_list_ascii_app a b :
  string_of_list_ascii (a ++ b)
  = (string_of_list_ascii a ++ string_of_list_ascii b)%string.
Proof. induction a as [|ch a IH]; simpl; [reflexivity|]. now rewrite IH. Qed.

Lemma append_empty_r s : (s ++ "")%string = s.
Proof. induction s as [|c s IH]; simpl; congruence. Qed.

(** The stem and the suffix split the name. *)
Lemma stem_suffix p : (stem p ++ suffix p)%string = name p.
Proof.
  unfold stem, suffix.
  destruct (Py.rfind_dot (list_ascii_of_string (name p))) as [i|].
  - destruct (Nat.ltb 0 i && Nat.ltb i _).
    + rewrite <- string_of_list_ascii_app, firstn_skipn.
      apply string_of_list_ascii_of_string.
    + apply append_empty_r.
  - apply append_empty_r.
Qed.

Lemma spreadsheet_suffixes_lower e :
  In e spreadsheet_suffixes -> Py.lower e = e.
Proof.
  intros He. simpl in He.
  repeat (destruct He as [<- | He]; [reflexivity|]). contradiction.
Qed.

Lemma recognised_suffix_iff s :
  existsb (String.eqb (Py.lower s)) spreadsheet_suffixes = true
  <-> recognised_suffix s.
Proof.
  unfold recognised_suffix. rewrite existsb_exists. split.
  - intros (e & He & Heq). apply String.eqb_eq in Heq. exists e.
    split; [assumption|]. now rewrite (spreadsheet_suffixes_lower e He).
  - intros (e & He & Heq). exists e. split; [assumption|].
    apply String.eqb_eq. rewrite Heq. now apply spreadsheet_suffixes_lower.
Qed.

Lemma recognised_suffix_nonempty s :
  recognised_suffix s -> String.eqb s "" = false.
Proof.
  intros H. apply recognised_suffix_iff in H.
  destruct (String.eqb s "") eqn:E; [|reflexivity].
  apply String.eqb_eq in E. subst. discriminate H.
Qed.

Lemma write_long_spec input_path long_df :
  parent (fst (write_long input_path long_df)) = parent input_path
  /\ w_path (snd (write_long input_path long_df))
     = fst (write_long input_path long_df)
  /\ w_table (snd (write_long input_path long_df)) = long_df
  /\ ((recognised_suffix (suffix input_path)
       /\ name (fst (write_long input_path long_df))
          = (stem input_path ++ "_long" ++ suffix input_path)%string
       /\ w_format (snd (write_long input_path long_df)) = ExcelSheetLong)
      \/ (~ recognised_suffix (suffix input_path)
          /\ name (fst (write_long input_path long_df))
             = (stem input_path ++ "_long" ++ ".csv")%string
          /\ w_format (snd (write_long input_path long_df)) = CsvText)).
Proof.
  unfold write_long.
  destruct (existsb _ spreadsheet_suffixes) eqn:E.
  - apply recognised_suffix_iff in E. cbn [fst snd w_path w_table w_format].
    repeat split. left. repeat split; auto.
    unfold with_name. cbn [name].
    now rewrite (recognised_suffix_nonempty _ E).
  - cbn [fst snd w_path w_table w_format]. repeat split. right.
    repeat split.
    intros H. apply recognised_suffix_iff in H. congruence.
Qed.

(** C8.  The output goes to the directory of the input, under the name
    made of the input's stem, [_long] and an extension: the input's own
    extension, unchanged, when it is one of the spreadsheet extensions case
    apart, and then the file is a spreadsheet; [.csv] otherwise, and then
    the file is delimited text.  data.xlsx gives data_long.xlsx, while
    data.txt and data give data_long.csv.  The path the pipeline returns
    is the path of the file it has written. *)
Theorem write_long_naming :
  (forall input_path long_df,
      let out := fst (write_long input_path long_df) in
      let w := snd (write_long input_path long_df) in
      parent out = parent input_path
      /\ w_path w = out
      /\ w_table w = long_df
      /\ ((recognised_suffix (suffix input_path)
           /\ name out
              = (stem input_path ++ "_long" ++ suffix input_path)%string
           /\ w_format w = ExcelSheetLong)
          \/ (~ recognised_suffix (suffix input_path)
              /\ name out = (stem input_path ++ "_long" ++ ".csv")%string
              /\ w_format w = CsvText)))
  /\ (forall dir long_df,
         fst (write_long {| parent := dir; name := "data.xlsx" |} long_df)
         = {| parent := dir; name := "data_long.xlsx" |})
  /\ (forall dir long_df,
         fst (write_long {| parent := dir; name := "data.txt" |} long_df)
         = {| parent := dir; name := "data_long.csv" |})
  /\ (forall dir long_df,
         fst (write_long {| parent := dir; name := "data" |} long_df)
         = {| parent := dir; name := "data_long.csv" |})
  /\ (forall fs input_path header_cell sheet_name id_col_name var_name
             value_name out w,
         wide_to_long_from_excel fs input_path header_cell sheet_name
           id_col_name var_name value_name = Ok (out, w) ->
         w_path w = out /\ (out, w) = write_long input_path (w_table w)).
Proof.
  split; [intros p df; apply write_long_spec|].
  split; [reflexivity|]. split; [reflexivity|]. split; [reflexivity|].
  intros fs p hc sn idc vn valn out w. unfold wide_to_long_from_excel.
  destruct (negb (path_exists fs p)); [discriminate|].
  destruct (load_workbook fs p) as [wb|]; [|discriminate]. cbn [bind].
  destruct (select_sheet wb sn) as [ws|]; [|discriminate]. cbn [bind].
  destruct (read_block_from_header ws hc) as [b|]; [|discriminate].
  cbn [bind].
  destruct (reshape b idc vn valn) as [long|]; [|discriminate]. cbn [bind].
  intros H. inversion H as [H0]. clear H.
  destruct (write_long_spec p long) as (_ & Hp & Ht & _).
  rewrite H0 in Hp, Ht. cbn [fst snd] in Hp, Ht.
  split; [exact Hp|]. now rewrite Ht.
Qed.

(** ** Lists: filters, comprehensions and their order *)

Section Comprehensions.

Context {A B : Type}.

Lemma filter_flat_map (p : B -> bool) (f : A -> list B) l :
  filter p (flat_map f l) = flat_map (fun x => filter p (f x)) l.
Proof.
  induction l as [|a l IH]; simpl; [reflexivity|].
  now rewrite filter_app, IH.
Qed.

Lemma filter_map_singletons (p : B -> bool) (g : A -> B) l :
  filter p (map g l) = flat_map (fun x => if p (g x) then [g x] else []) l.
Proof.
  induction l as [|a l IH]; simpl; [reflexivity|].
  rewrite IH. now destruct (p (g a)).
Qed.

Lemma flat_map_filter (q : A -> bool) (f : A -> list B) l :
  flat_map f (filter q l) = flat_map (fun x => if q x then f x else []) l.
Proof.
  induction l as [|a l IH]; simpl; [reflexivity|].
  destruct (q a); simpl; now rewrite IH.
Qed.

Lemma flat_map_ext_in (f g : A -> list B) l :
  (forall a, In a l -> f a = g a) -> flat_map f l = flat_map g l.
Proof.
  induction l as [|a l IH]; intros H; simpl; [reflexivity|].
  rewrite (H a (or_introl eq_refl)), IH; [reflexivity|].
  intros; apply H; now right.
Qed.

Lemma flat_map_nil l : flat_map (fun _ : A => @nil B) l = [].
Proof. induction l; simpl; auto. Qed.


End Comprehensions.


(** ** The data frame *)

Lemma header_from_length i row0 :
  List.length (header_from i row0) = List.length row0.
Proof. revert i. induction row0; intros i; simpl; auto. Qed.

Lemma derive_header_length row0 :
  List.length (derive_header row0) = List.length row0.
Proof. apply header_from_length. Qed.

Lemma wide_frame_ok row0 rows df :
  wide_frame (row0 :: rows) = Ok df ->
  Pandas.columns df = derive_header row0
  /\ Pandas.rows df
     = filter (fun r => negb (forallb Pandas.isna r)) rows
  /\ rectangular (List.length row0) rows.
Proof.
  unfold wide_frame, Pandas.make_frame.
  destruct (forallb _ rows) eqn:E; [|discriminate].
  cbn [bind]. intros H. inversion H; subst. cbn.
  repeat split. intros r Hr.
  rewrite forallb_forall in E. specialize (E r Hr).
  apply Nat.eqb_eq in E. now rewrite derive_header_length in E.
Qed.

Lemma wide_frame_rectangular row0 rows :
  rectangular (List.length row0) rows ->
  wide_frame (row0 :: rows)
  = Ok {| Pandas.columns := derive_header row0;
          Pandas.rows := filter (fun r => negb (forallb Pandas.isna r)) rows |}.
Proof.
  intros Hrect. unfold wide_frame, Pandas.make_frame.
  replace (forallb _ rows) with true; [reflexivity|].
  symmetry. apply forallb_forall. intros r Hr. apply Nat.eqb_eq.
  rewrite derive_header_length. now apply Hrect.
Qed.

Lemma isna_nth r j :
  forallb Pandas.isna r = true -> Pandas.isna (nth j r VNone) = true.
Proof.
  intros H. destruct (Nat.lt_ge_cases j (List.length r)) as [Hlt|Hge].
  - rewrite forallb_forall in H. apply H. now apply nth_In.
  - now rewrite nth_overflow.
Qed.

(** A row of missing values only gives no record. *)
Lemma records_of_null_row header id_col r j :
  forallb Pandas.isna r = true -> records_of header id_col r j = [].
Proof.
  intros H. unfold records_of, emits. rewrite (isna_nth r j H).
  now rewrite andb_false_r.
Qed.

(** ** The melt and the null filter *)

Lemma index_of_In label cols :
  In label cols -> exists i, Pandas.index_of label cols = Some i.
Proof.
  induction cols as [|c cols IH]; intros H; [contradiction|]. simpl.
  destruct (String.eqb c label) eqn:E; [now exists O|].
  destruct H as [->|H]; [rewrite String.eqb_refl in E; discriminate|].
  destruct (IH H) as (i & ->). now exists (S i).
Qed.

Lemma existsb_eqb_In label cols :
  existsb (String.eqb label) cols = true <-> In label cols.
Proof.
  rewrite existsb_exists. split.
  - intros (c & Hc & E). apply String.eqb_eq in E. now subst.
  - intros H. exists label. split; [assumption|apply String.eqb_refl].
Qed.

Lemma count_occ_In_string cols label :
  Nat.eqb (count_occ string_dec cols label) 1 = true -> In label cols.
Proof.
  intros H. apply Nat.eqb_eq in H. apply (count_occ_In string_dec). lia.
Qed.

Lemma melt_accepts_parts cols id_col value_name :
  Pandas.melt_accepts cols id_col value_name = true <->
  ~ In value_name cols /\ count_occ string_dec cols id_col = 1%nat.
Proof.
  unfold Pandas.melt_accepts.
  rewrite andb_true_iff, negb_true_iff, Nat.eqb_eq.
  split; intros [Hv Hc]; (split; [|assumption]).
  - intros Hin. apply existsb_eqb_In in Hin. congruence.
  - destruct (existsb (String.eqb value_name) cols) eqn:E; [|reflexivity].
    apply existsb_eqb_In in E. contradiction.
Qed.

Lemma melt_defined_parts cols id_col var_name value_name :
  Pandas.melt_defined cols id_col var_name value_name = true <->
  Pandas.melt_accepts cols id_col value_name = true
  /\ var_name <> id_col /\ var_name <> value_name.
Proof.
  unfold Pandas.melt_defined, Pandas.melt_accepts.
  rewrite !andb_true_iff, !negb_true_iff, !String.eqb_neq. tauto.
Qed.

(** The value label names one of the three columns of the melted frame
    when it is neither the identifier label nor the variable label. *)
Lemma long_labels_count id_col var_name value_name :
  Nat.eqb (count_occ string_dec [id_col; var_name; value_name] value_name) 1
  = negb (String.eqb id_col value_name)
    && negb (String.eqb var_name value_name).
Proof.
  cbn [count_occ].
  destruct (string_dec value_name value_name) as [_|N]; [|contradiction].
  destruct (string_dec id_col value_name) as [E1|N1];
    destruct (string_dec var_name value_name) as [E2|N2].
  - subst. now rewrite !String.eqb_refl.
  - subst. now rewrite String.eqb_refl.
  - subst. rewrite String.eqb_refl. apply String.eqb_neq in N1.
    now rewrite N1.
  - apply String.eqb_neq in N1, N2. now rewrite N1, N2.
Qed.

Lemma melt_accepts_id_not_value cols id_col value_name :
  Pandas.melt_accepts cols id_col value_name = true ->
  String.eqb id_col value_name = false.
Proof.
  intros H. apply melt_accepts_parts in H as [Hv Hc].
  apply String.eqb_neq. intros ->. apply Hv.
  apply (count_occ_In string_dec). lia.
Qed.

(** When the melt and the null filter go through, and what they fail with
    otherwise. *)
Lemma melt_filter_is_ok df id_col var_name value_name :
  is_ok (long_df <- Pandas.melt df id_col var_name value_name ;;
         Pandas.drop_missing long_df value_name)
  = Pandas.melt_accepts (Pandas.columns df) id_col value_name
    && negb (String.eqb var_name value_name).
Proof.
  unfold Pandas.melt.
  destruct (Pandas.melt_accepts (Pandas.columns df) id_col value_name) eqn:A;
    cbn [negb bind andb]; [|reflexivity].
  unfold Pandas.drop_missing. cbn [Pandas.columns].
  rewrite long_labels_count, (melt_accepts_id_not_value _ _ _ A).
  cbn [negb andb]. now destruct (String.eqb var_name value_name).
Qed.

Lemma melt_filter_err df id_col var_name value_name e :
  (long_df <- Pandas.melt df id_col var_name value_name ;;
   Pandas.drop_missing long_df value_name) = Err e ->
  e = LabelClash.
Proof.
  unfold Pandas.melt.
  destruct (negb (Pandas.melt_accepts _ _ _)); cbn [bind];
    [intros H; now inversion H|].
  unfold Pandas.drop_missing.
  destruct (negb (Nat.eqb _ 1)); [intros H; now inversion H|discriminate].
Qed.

Lemma melt_filter_columns df id_col var_name value_name long :
  (long_df <- Pandas.melt df id_col var_name value_name ;;
   Pandas.drop_missing long_df value_name) = Ok long ->
  Pandas.columns long = [id_col; var_name; value_name].
Proof.
  unfold Pandas.melt.
  destruct (negb (Pandas.melt_accepts _ _ _)); cbn [bind]; [discriminate|].
  unfold Pandas.drop_missing.
  destruct (negb (Nat.eqb _ 1)); [discriminate|].
  intros H. inversion H. reflexivity.
Qed.

(** On the frames where [melt] is defined, the value column of the melted
    frame is its third. *)
Lemma melt_defined_value_position cols id_col var_name value_name :
  Pandas.melt_defined cols id_col var_name value_name = true ->
  Pandas.position value_name [id_col; var_name; value_name] = 2%nat.
Proof.
  intros H. apply melt_defined_parts in H as (A & _ & Hvv).
  apply melt_accepts_id_not_value in A. apply String.eqb_neq in Hvv.
  unfold Pandas.position. simpl.
  now rewrite A, Hvv, String.eqb_refl.
Qed.

(** The melt followed by the null filter is the comprehension, column after
    column, over the rows of the frame. *)
Lemma melt_drop_missing df id_col var_name value_name :
  Pandas.melt_defined (Pandas.columns df) id_col var_name value_name = true ->
  (long_df <- Pandas.melt df id_col var_name value_name ;;
   Pandas.drop_missing long_df value_name)
  = Ok {| Pandas.columns := [id_col; var_name; value_name];
          Pandas.rows :=
            column_major (Pandas.columns df) id_col (Pandas.rows df) |}.
Proof.
  intros Hdef. pose proof Hdef as Hd.
  apply melt_defined_parts in Hd as (A & Hvi & Hvv).
  pose proof (melt_accepts_id_not_value _ _ _ A) as Hiv.
  apply String.eqb_neq in Hvi, Hvv.
  unfold Pandas.melt. rewrite A, Hvi, Hvv. cbn [negb bind].
  unfold Pandas.drop_missing. cbn [Pandas.columns Pandas.rows].
  rewrite long_labels_count, Hiv, Hvv. cbn [negb andb].
  rewrite (melt_defined_value_position _ _ _ _ Hdef). f_equal. f_equal.
  unfold Pandas.value_positions, column_major.
  rewrite flat_map_filter, filter_flat_map.
  apply flat_map_ext. intros j.
  unfold records_of, emits.
  destruct (String.eqb (nth j (Pandas.columns df) "") id_col); cbn [negb andb].
  - now rewrite flat_map_nil.
  - rewrite filter_map_singletons. reflexivity.
Qed.

(** ** The reshaper *)

Lemma column_major_dropna header id_col rows :
  column_major header id_col
    (filter (fun r => negb (forallb Pandas.isna r)) rows)
  = column_major header id_col rows.
Proof.
  unfold column_major. apply flat_map_ext. intros j.
  rewrite flat_map_filter. apply flat_map_ext. intros r.
  destruct (forallb Pandas.isna r) eqn:E; [|reflexivity].
  cbn [negb]. now rewrite records_of_null_row.
Qed.

Lemma value_cols_exists header id_col :
  filter (fun c => negb (String.eqb c id_col)) header <> [] <->
  exists c, In c header /\ c <> id_col.
Proof.
  split.
  - intros H. destruct (filter _ header) as [|c l] eqn:E; [contradiction|].
    assert (Hin : In c (filter (fun c => negb (String.eqb c id_col)) header))
      by (rewrite E; now left).
    apply filter_In in Hin as [Hin Hc]. exists c. split; [assumption|].
    intros ->. now rewrite String.eqb_refl in Hc.
  - intros (c & Hin & Hc) E.
    assert (Hf : In c (filter (fun c => negb (String.eqb c id_col)) header)).
    { apply filter_In. split; [assumption|].
      destruct (String.eqb c id_col) eqn:Eq; [|reflexivity].
      apply String.eqb_eq in Eq. contradiction. }
    rewrite E in Hf. contradiction.
Qed.

(** [reshape] on rows of the header's width, once the identifier is known. *)
Lemma reshape_cases row0 rows id_col_name var_name value_name id_col :
  rectangular (List.length row0) rows ->
  resolve_id_col id_col_name (derive_header row0) = Ok id_col ->
  reshape (row0 :: rows) id_col_name var_name value_name
  = if negb (existsb (String.eqb id_col) (derive_header row0))
    then Err MissingIdColumn
    else match filter (fun c => negb (String.eqb c id_col))
                      (derive_header row0) with
         | [] => Err NoValueColumns
         | _ :: _ =>
             long_df <-
               Pandas.melt
                 {| Pandas.columns := derive_header row0;
                    Pandas.rows :=
                      filter (fun r => negb (forallb Pandas.isna r)) rows |}
                 id_col var_name value_name ;;
             Pandas.drop_missing long_df value_name
         end.
Proof.
  intros Hrect Hid. unfold reshape.
  rewrite (wide_frame_rectangular _ _ Hrect). cbn [bind Pandas.columns].
  rewrite Hid. reflexivity.
Qed.

(** What a successful [reshape] has checked and what it returns. *)
Lemma reshape_ok row0 rows id_col_name var_name value_name long :
  reshape (row0 :: rows) id_col_name var_name value_name = Ok long ->
  exists id_col,
    resolve_id_col id_col_name (derive_header row0) = Ok id_col
    /\ In id_col (derive_header row0)
    /\ (exists c, In c (derive_header row0) /\ c <> id_col)
    /\ rectangular (List.length row0) rows
    /\ Pandas.columns long = [id_col; var_name; value_name]
    /\ (Pandas.melt_defined (derive_header row0) id_col var_name value_name
        = true ->
        Pandas.rows long = column_major (derive_header row0) id_col rows).
Proof.
  unfold reshape.
  destruct (wide_frame (row0 :: rows)) as [df|] eqn:Hdf; [|discriminate].
  destruct (wide_frame_ok _ _ _ Hdf) as (Hcols & Hrows & Hrect).
  cbn [bind]. rewrite Hcols.
  destruct (resolve_id_col id_col_name (derive_header row0)) as [id_col|]
    eqn:Hid; [|discriminate].
  cbn [bind].
  destruct (existsb (String.eqb id_col) (derive_header row0)) eqn:Hin;
    [|discriminate].
  cbn [negb].
  destruct (filter _ (derive_header row0)) as [|c l] eqn:Hval; [discriminate|].
  intros H.
  exists id_col. split; [reflexivity|].
  split; [now apply existsb_eqb_In|].
  split; [apply value_cols_exists; rewrite Hval; discriminate|].
  split; [assumption|].
  split; [exact (melt_filter_columns _ _ _ _ _ H)|].
  intros Hdef. rewrite <- Hcols in Hdef.
  rewrite (melt_drop_missing df _ _ _ Hdef) in H.
  inversion H. cbn [Pandas.rows]. rewrite Hcols, Hrows.
  apply column_major_dropna.
Qed.

(** A successful [reshape] has got through the melt and the null filter:
    the identifier labels one column, the value name none, and the variable
    name is not the value name. *)
Lemma reshape_ok_labels row0 rows id_col_name var_name value_name long id_col :
  reshape (row0 :: rows) id_col_name var_name value_name = Ok long ->
  resolve_id_col id_col_name (derive_header row0) = Ok id_col ->
  Pandas.melt_accepts (derive_header row0) id_col value_name = true
  /\ var_name <> value_name.
Proof.
  intros H Hid.
  destruct (reshape_ok _ _ _ _ _ _ H) as (id & Hid' & _ & _ & Hrect & _).
  assert (Hok : is_ok (reshape (row0 :: rows) id_col_name var_name value_name)
                = true) by (now rewrite H).
  rewrite (reshape_cases _ _ _ _ _ _ Hrect Hid) in Hok.
  destruct (negb (existsb _ _)); [discriminate|].
  destruct (filter _ (derive_header row0)); [discriminate|].
  rewrite melt_filter_is_ok in Hok. cbn [Pandas.columns] in Hok.
  apply andb_true_iff in Hok as [A Hvv]. split; [assumption|].
  apply String.eqb_neq. now apply negb_true_iff.
Qed.

(** When [reshape] succeeds: the rows have the header's width, the
    identifier resolves to a header name that labels one column, another
    name exists, the value name is no header name and is not the variable
    name. *)
Lemma reshape_succeeds row0 rows id_col_name var_name value_name id_col :
  rectangular (List.length row0) rows ->
  resolve_id_col id_col_name (derive_header row0) = Ok id_col ->
  (exists c, In c (derive_header row0) /\ c <> id_col) ->
  Pandas.melt_accepts (derive_header row0) id_col value_name = true ->
  var_name <> value_name ->
  exists long,
    reshape (row0 :: rows) id_col_name var_name value_name = Ok long.
Proof.
  intros Hrect Hid Hother A Hvv.
  assert (Hok : is_ok (reshape (row0 :: rows) id_col_name var_name value_name)
                = true).
  { rewrite (reshape_cases _ _ _ _ _ _ Hrect Hid).
    assert (Hin : In id_col (derive_header row0)).
    { apply melt_accepts_parts in A as [_ Hc].
      apply (count_occ_In string_dec). lia. }
    apply existsb_eqb_In in Hin. rewrite Hin. cbn [negb].
    apply value_cols_exists in Hother.
    destruct (filter _ (derive_header row0)); [contradiction|].
    rewrite melt_filter_is_ok. cbn [Pandas.columns]. rewrite A.
    apply String.eqb_neq in Hvv. now rewrite Hvv. }
  destruct (reshape _ _ _ _) as [long|]; [eauto|discriminate].
Qed.

Lemma In_column_major header id_col rows x :
  In x (column_major header id_col rows) <->
  exists j r, (j < List.length header)%nat /\ In r rows
              /\ emits header id_col r j = true
              /\ x = long_record header id_col r j.
Proof.
  unfold column_major. rewrite in_flat_map. split.
  - intros (j & Hj & Hx). apply in_seq in Hj.
    apply in_flat_map in Hx as (r & Hr & Hx).
    unfold records_of in Hx.
    destruct (emits header id_col r j) eqn:E; [|contradiction].
    destruct Hx as [<-|[]]. exists j, r. repeat split; auto. lia.
  - intros (j & r & Hj & Hr & He & ->). exists j.
    split; [apply in_seq; lia|].
    apply in_flat_map. exists r. split; [assumption|].
    unfold records_of. rewrite He. now left.
Qed.

(** C1, the counterexample.  With two full data rows the output lists both
    records of column 2020 before both records of column 2021; it is not
    the row-major list. *)
Lemma reshape_not_row_major :
  reshape block_full None "variable" "value" = Ok long_of_block_full
  /\ row_major ["id"; "2020"; "2021"] "id" (tl block_full)
     = row_major_of_block_full
  /\ Pandas.rows long_of_block_full <> row_major_of_block_full.
Proof.
  split; [reflexivity|]. split; [reflexivity|]. discriminate.
Qed.

(** C1, as the code has it.  The records come in column-major order: all
    the records of the first column that is not the identifier, in row
    order, then all those of the second, and so on; records whose value is
    missing are left out.  On the header id, 2020, 2021 and the rows
    (x, 10, None), (y, None, 30), with the default names, the output is
    exactly (x, 2020, 10), (y, 2021, 30), in that order. *)
Theorem reshape_column_major :
  (forall row0 rows id_col_name var_name value_name long,
      reshape (row0 :: rows) id_col_name var_name value_name = Ok long ->
      exists id_col,
        resolve_id_col id_col_name (derive_header row0) = Ok id_col
        /\ (Pandas.melt_defined (derive_header row0) id_col var_name
              value_name = true ->
            Pandas.columns long = [id_col; var_name; value_name]
            /\ Pandas.rows long
               = column_major (derive_header row0) id_col rows))
  /\ reshape block_2020_2021 None "variable" "value"
     = Ok {| Pandas.columns := ["id"; "variable"; "value"];
             Pandas.rows := [[VStr "x"; VStr "2020"; VInt 10];
                             [VStr "y"; VStr "2021"; VInt 30]] |}.
Proof.
  split; [|reflexivity].
  intros row0 rows idn var val long H.
  destruct (reshape_ok _ _ _ _ _ _ H) as (id & Hid & _ & _ & _ & Hc & Hr).
  exists id. split; [assumption|]. intros Hdef. split; auto.
Qed.

Lemma reshape_column_major_witness :
  exists id_col,
    resolve_id_col None (derive_header (hd [] block_full)) = Ok id_col
    /\ (Pandas.melt_defined (derive_header (hd [] block_full)) id_col
          "variable" "value" = true ->
        Pandas.columns long_of_block_full = [id_col; "variable"; "value"]
        /\ Pandas.rows long_of_block_full
           = column_major (derive_header (hd [] block_full)) id_col
               (tl block_full)).
Proof.
  apply (proj1 reshape_column_major (hd [] block_full) (tl block_full)
           None "variable" "value").
  reflexivity.
Defined.

Lemma emits_true header id_col r j :
  emits header id_col r j = true <->
  nth j header "" <> id_col /\ Pandas.isna (nth j r VNone) = false.
Proof.
  unfold emits. rewrite andb_true_iff, !negb_true_iff. split.
  - intros [Hn Hv]. split; [|assumption]. intros E.
    apply String.eqb_eq in E. congruence.
  - intros [Hn Hv]. split; [|assumption].
    destruct (String.eqb (nth j header "") id_col) eqn:E; [|reflexivity].
    apply String.eqb_eq in E. contradiction.
Qed.





(** C3, the counterexample.  A data row of blank strings only is empty
    cell by cell, yet it stays in the frame. *)
Lemma wide_frame_keeps_blank_row :
  exists df,
    wide_frame block_blank_row = Ok df
    /\ In [VStr " "; VStr ""] (Pandas.rows df)
    /\ forallb is_none_or_blank [VStr " "; VStr ""] = true.
Proof.
  eexists. split; [reflexivity|]. split; [now left|reflexivity].
Qed.

(** C3, as the code has it.  Before unpivoting, the frame built from the
    data rows (the header row is not among them and always gives the column
    names) loses exactly the rows in which every cell is missing, that is
    [None] or NaN, and keeps the others in their order; a blank string is
    not missing, so a row that holds one is kept. *)
Theorem wide_frame_drops_null_rows row0 rows df :
  wide_frame (row0 :: rows) = Ok df ->
  Pandas.columns df = derive_header row0
  /\ (exists keep,
         (forall r, keep r = true <-> exists v, In v r /\ Pandas.isna v = false)
         /\ Pandas.rows df = filter keep rows)
  /\ (forall r s, In r rows -> In (VStr s) r -> In r (Pandas.rows df)).
Proof.
  intros H. destruct (wide_frame_ok _ _ _ H) as (Hc & Hr & _).
  assert (K : forall r, negb (forallb Pandas.isna r) = true
                        <-> exists v, In v r /\ Pandas.isna v = false).
  { intros r. rewrite negb_true_iff. split.
    - intros E. induction r as [|v r IH]; [discriminate|]. simpl in E.
      destruct (Pandas.isna v) eqn:Ev.
      + destruct (IH E) as (v' & Hin & Hv'). exists v'. split; [now right|auto].
      + exists v. split; [now left|auto].
    - intros (v & Hin & Hv). destruct (forallb Pandas.isna r) eqn:E; auto.
      rewrite forallb_forall in E. rewrite (E v Hin) in Hv. discriminate. }
  split; [assumption|]. split.
  - exists (fun r => negb (forallb Pandas.isna r)). split; [exact K|exact Hr].
  - intros r s Hin Hs. rewrite Hr. apply filter_In. split; [assumption|].
    apply K. exists (VStr s). split; [assumption|reflexivity].
Qed.

Lemma wide_frame_drops_null_rows_witness :
  Pandas.columns
    {| Pandas.columns := ["id"; "a"];
       Pandas.rows := [[VStr "x"; VInt 1]] |}
  = derive_header [VStr "id"; VStr "a"]
  /\ (exists keep,
         (forall r, keep r = true <-> exists v, In v r /\ Pandas.isna v = false)
         /\ Pandas.rows
              {| Pandas.columns := ["id"; "a"];
                 Pandas.rows := [[VStr "x"; VInt 1]] |}
            = filter keep [[VNone; VFloat "nan"]; [VStr "x"; VInt 1]])
  /\ (forall r s,
         In r [[VNone; VFloat "nan"]; [VStr "x"; VInt 1]] ->
         In (VStr s) r ->
         In r (Pandas.rows
                 {| Pandas.columns := ["id"; "a"];
                    Pandas.rows := [[VStr "x"; VInt 1]] |})).
Proof.
  apply (wide_frame_drops_null_rows
           [VStr "id"; VStr "a"]
           [[VNone; VFloat "nan"]; [VStr "x"; VInt 1]]).
  reflexivity.
Defined.

(** ** The pipeline on a block that is a header row only *)

Lemma value_cols_count header id_col :
  (List.length (filter (fun c => negb (String.eqb c id_col)) header)
   + count_occ string_dec header id_col = List.length header)%nat.
Proof.
  induction header as [|c header IH]; [reflexivity|]. simpl.
  destruct (string_dec c id_col) as [->|Hne].
  - rewrite String.eqb_refl. simpl. lia.
  - destruct (String.eqb c id_col) eqn:E;
      [apply String.eqb_eq in E; contradiction|].
    simpl. lia.
Qed.





Lemma write_long_naming_witness :
  w_path
    (snd (write_long data_xlsx
            {| Pandas.columns := ["id"; "variable"; "value"];
               Pandas.rows := [] |}))
  = {| parent := "/home/user"; name := "data_long.xlsx" |}
  /\ (fst (write_long data_xlsx
             {| Pandas.columns := ["id"; "variable"; "value"];
                Pandas.rows := [] |}),
      snd (write_long data_xlsx
             {| Pandas.columns := ["id"; "variable"; "value"];
                Pandas.rows := [] |}))
     = write_long data_xlsx
         (w_table (snd (write_long data_xlsx
                          {| Pandas.columns := ["id"; "variable"; "value"];
                             Pandas.rows := [] |}))).
Proof.
  apply (proj2 (proj2 (proj2 (proj2 write_long_naming)))
           (one_workbook sheet_header_only) data_xlsx "A1" None None
           "variable" "value").
  reflexivity.
Defined.

(** * Further properties *)

(** ** Addresses and cells *)

Lemma ord_inj a b : Py.ord a = Py.ord b -> a = b.
Proof.
  unfold Py.ord. intros H. apply N2Z.inj in H.
  rewrite <- (ascii_N_embedding a), <- (ascii_N_embedding b). now rewrite H.
Qed.

Lemma upper_of_letter_value ch :
  Py.is_letter ch = true -> Py.upper_char ch = Py.chr (letter_value ch + 64).
Proof. by_cases_on_ascii ch. Qed.

Lemma upper_digit ch : Py.is_digit ch = true -> Py.upper_char ch = ch.
Proof. by_cases_on_ascii ch. Qed.

Lemma upper_letter_is_letter ch :
  Py.is_letter ch = true -> Py.is_letter (Py.upper_char ch) = true.
Proof. by_cases_on_ascii ch. Qed.

Lemma letter_value_upper a b :
  Py.is_letter a = true -> Py.is_letter b = true ->
  (letter_value a = letter_value b <-> Py.upper_char a = Py.upper_char b).
Proof.
  intros Ha Hb. split; intros H.
  - now rewrite !upper_of_letter_value, H by assumption.
  - rewrite <- !upper_letter_value by assumption. now rewrite H.
Qed.

Lemma column_number_snoc l ch :
  column_number (l ++ [ch]) = column_number l * 26 + letter_value ch.
Proof.
  induction l as [|c l IH]; simpl; [lia|].
  rewrite IH, length_app, Nat.add_comm. cbn [List.length Nat.add].
  rewrite Nat2Z.inj_succ, Z.pow_succ_r by lia. ring.
Qed.

Lemma decimal_value_snoc l d :
  decimal_value (l ++ [d]) = decimal_value l * 10 + (Py.ord d - 48).
Proof.
  induction l as [|c l IH]; simpl; [lia|].
  rewrite IH, length_app, Nat.add_comm. cbn [List.length Nat.add].
  rewrite Nat2Z.inj_succ, Z.pow_succ_r by lia. ring.
Qed.

(** The column of a run of [n] letters, by [n]. *)
Lemma column_number_range letters :
  forallb Py.is_letter letters = true ->
  26 ^ Z.of_nat (List.length letters) - 1 <= 25 * column_number letters
  /\ 25 * column_number letters
     <= 26 ^ (Z.of_nat (List.length letters) + 1) - 26.
Proof.
  induction letters as [|ch t IH]; intros H; [simpl; lia|].
  simpl in H. apply andb_true_iff in H as [Hc Ht].
  specialize (IH Ht). pose proof (letter_value_bounds _ Hc) as Hv.
  cbn [column_number List.length].
  rewrite Nat2Z.inj_succ. unfold Z.succ.
  rewrite !Z.pow_add_r, !Z.pow_1_r in * by lia.
  assert (0 < 26 ^ Z.of_nat (List.length t)) by (apply Z.pow_pos_nonneg; lia).
  nia.
Qed.

(** Bijective base 26: the column tells the letters, case apart. *)
Lemma column_number_inj l1 l2 :
  forallb Py.is_letter l1 = true -> forallb Py.is_letter l2 = true ->
  column_number l1 = column_number l2 ->
  map letter_value l1 = map letter_value l2.
Proof.
  revert l2. induction l1 as [|c1 l1 IH] using rev_ind; intros l2 H1 H2 E.
  - destruct l2 as [|c2 l2]; [reflexivity|].
    assert (1 <= column_number (c2 :: l2))
      by (apply column_number_pos; [discriminate|assumption]).
    change (column_number []) with 0 in E. lia.
  - induction l2 as [|c2 l2 _] using rev_ind.
    + assert (1 <= column_number (l1 ++ [c1]))
        by (apply column_number_pos; [now destruct l1|assumption]).
      change (column_number []) with 0 in E. lia.
    + rewrite forallb_app in H1, H2.
      apply andb_true_iff in H1 as [H1 Hc1].
      apply andb_true_iff in H2 as [H2 Hc2].
      simpl in Hc1, Hc2. rewrite andb_true_r in Hc1, Hc2.
      rewrite !column_number_snoc in E.
      pose proof (letter_value_bounds _ Hc1).
      pose proof (letter_value_bounds _ Hc2).
      rewrite !map_app. cbn [map].
      assert (letter_value c1 = letter_value c2) by lia.
      assert (column_number l1 = column_number l2) by lia.
      f_equal; [now apply IH|congruence].
Qed.

Lemma map_letter_value_upper l1 l2 :
  forallb Py.is_letter l1 = true -> forallb Py.is_letter l2 = true ->
  (map letter_value l1 = map letter_value l2
   <-> map Py.upper_char l1 = map Py.upper_char l2).
Proof.
  revert l2. induction l1 as [|a l1 IH]; intros [|b l2] H1 H2;
    try (split; [reflexivity|reflexivity]); try (split; discriminate).
  simpl in H1, H2.
  apply andb_true_iff in H1 as [Ha H1]. apply andb_true_iff in H2 as [Hb H2].
  cbn [map]. split; intros E; injection E as E0 E1.
  - f_equal; [now apply letter_value_upper|now apply IH].
  - f_equal; [now apply letter_value_upper|now apply IH].
Qed.

Lemma column_number_upper l1 l2 :
  map letter_value l1 = map letter_value l2 ->
  column_number l1 = column_number l2.
Proof.
  revert l2. induction l1 as [|a l1 IH]; intros [|b l2] E;
    try discriminate; [reflexivity|].
  cbn [map] in E. injection E as E0 E1. cbn [column_number].
  rewrite E0, (IH l2 E1).
  assert (L : List.length l1 = List.length l2).
  { rewrite <- (length_map letter_value l1), E1. apply length_map. }
  now rewrite L.
Qed.

Lemma decimal_value_inj l1 l2 :
  forallb Py.is_digit l1 = true -> forallb Py.is_digit l2 = true ->
  no_leading_zero l1 -> no_leading_zero l2 ->
  decimal_value l1 = decimal_value l2 -> l1 = l2.
Proof.
  assert (P : forall l, l <> [] -> forallb Py.is_digit l = true ->
                        no_leading_zero l -> 1 <= decimal_value l).
  { intros [|d t] Hne Hd Hz; [contradiction|]. simpl in Hd.
    apply andb_true_iff in Hd as [_ Hd].
    now apply decimal_value_no_leading_zero. }
  assert (Q : forall l c, no_leading_zero (l ++ [c]) -> no_leading_zero l).
  { intros [|d t] c H; [exact I|exact H]. }
  revert l2. induction l1 as [|c1 l1 IH] using rev_ind;
    intros l2 H1 H2 Z1 Z2 E.
  - destruct l2 as [|c2 l2]; [reflexivity|].
    assert (1 <= decimal_value (c2 :: l2)) by (apply P; auto; discriminate).
    change (decimal_value []) with 0 in E. lia.
  - induction l2 as [|c2 l2 _] using rev_ind.
    + assert (1 <= decimal_value (l1 ++ [c1]))
        by (apply P; auto; now destruct l1).
      change (decimal_value []) with 0 in E. lia.
    + pose proof H1 as H1'. pose proof H2 as H2'.
      rewrite forallb_app in H1', H2'.
      apply andb_true_iff in H1' as [H1' Hc1].
      apply andb_true_iff in H2' as [H2' Hc2].
      simpl in Hc1, Hc2. rewrite andb_true_r in Hc1, Hc2.
      rewrite !decimal_value_snoc in E.
      pose proof (digit_bounds _ Hc1). pose proof (digit_bounds _ Hc2).
      assert (Py.ord c1 = Py.ord c2) by lia.
      assert (decimal_value l1 = decimal_value l2) by lia.
      f_equal; [apply IH; eauto|f_equal; now apply ord_inj].
Qed.

(** What the gate lets through, and what [a1_to_rc] makes of it. *)
Lemma gate_resolution a :
  A1_REGEX_match a = true ->
  exists letters d digits,
    list_ascii_of_string (Py.strip a) = letters ++ d :: digits
    /\ letters <> [] /\ forallb Py.is_letter letters = true
    /\ is_digit_1_9 d = true /\ forallb Py.is_digit digits = true
    /\ a1_to_rc a = Ok (decimal_value (d :: digits), column_number letters).
Proof.
  intros G. destruct (A1_REGEX_match_strict _ G)
    as (l & d & ds & E & Hl & Hls & Hd & Hds).
  exists l, d, ds. repeat (split; [assumption|]).
  apply a1_to_rc_ok. exists l, (d :: ds).
  repeat split; auto; [discriminate|].
  simpl. now rewrite Hds, (digit_1_9_is_digit _ Hd).
Qed.

(** Letters then digits, letters in upper case: the two parts are told
    apart by the first digit. *)
Lemma upper_parts l1 d1 l2 d2 :
  forallb Py.is_letter l1 = true -> forallb Py.is_letter l2 = true ->
  d1 <> [] -> forallb Py.is_digit d1 = true ->
  d2 <> [] -> forallb Py.is_digit d2 = true ->
  map Py.upper_char (l1 ++ d1) = map Py.upper_char (l2 ++ d2) ->
  map Py.upper_char l1 = map Py.upper_char l2 /\ d1 = d2.
Proof.
  assert (D : forall d, forallb Py.is_digit d = true ->
                        map Py.upper_char d = d).
  { induction d as [|c d IH]; simpl; intros H; [reflexivity|].
    apply andb_true_iff in H as [Hc H]. now rewrite upper_digit, IH. }
  assert (X : forall c d t, Py.is_letter c = true -> Py.is_digit d = true ->
                            Py.upper_char c = Py.upper_char d -> t).
  { intros c d t Hc Hd E. apply upper_letter_is_letter in Hc.
    rewrite E, (upper_digit _ Hd), (digit_not_letter _ Hd) in Hc.
    discriminate. }
  revert l2. induction l1 as [|a l1 IH]; intros [|b l2] H1 H2 N1 D1 N2 D2 E.
  - simpl in E. rewrite !D in E by assumption. auto.
  - destruct d1 as [|x d1]; [contradiction|]. simpl in E, H2, D1.
    apply andb_true_iff in H2 as [Hb _]. apply andb_true_iff in D1 as [Hx _].
    injection E as E _. symmetry in E. exact (X _ _ _ Hb Hx E).
  - destruct d2 as [|x d2]; [contradiction|]. simpl in E, H1, D2.
    apply andb_true_iff in H1 as [Ha _]. apply andb_true_iff in D2 as [Hx _].
    injection E as E _. exact (X _ _ _ Ha Hx E).
  - simpl in E, H1, H2. injection E as E0 E.
    apply andb_true_iff in H1 as [_ H1]. apply andb_true_iff in H2 as [_ H2].
    destruct (IH l2 H1 H2 N1 D1 N2 D2 E) as [El Ed].
    split; [cbn [map]; congruence|assumption].
Qed.

(** X1.  Every address the [A1_REGEX] gate lets through, of at most 4300
    characters so that [int] converts its digits, is resolved by
    [a1_to_rc], to a row and a column that are at least 1: after the gate,
    the resolver does not fail. *)
Theorem gate_then_resolve a :
  A1_REGEX_match a = true ->
  (String.length a <= Py.int_max_str_digits)%nat ->
  exists r c, a1_to_rc a = Ok (r, c) /\ 1 <= r /\ 1 <= c.
Proof.
  intros G _. destruct (gate_resolution a G)
    as (l & d & ds & _ & Hl & Hls & Hd & Hds & R).
  exists (decimal_value (d :: ds)), (column_number l).
  split; [exact R|]. split.
  - now apply decimal_value_no_leading_zero.
  - now apply column_number_pos.
Qed.

Lemma gate_then_resolve_witness :
  exists r c, a1_to_rc "bc10" = Ok (r, c) /\ 1 <= r /\ 1 <= c.
Proof.
  apply (gate_then_resolve "bc10"); [reflexivity|].
  unfold Py.int_max_str_digits. simpl. lia.
Defined.

(** X2.  Two addresses that pass the gate, written with the digits 0 to 9
    and of at most 4300 characters each, resolve to the same cell exactly
    when they are the same address once stripped, the case of the letters
    apart: no two column names share a column, no two row numbers a row. *)
Theorem same_cell_iff_same_address a b :
  A1_REGEX_match a = true -> A1_REGEX_match b = true ->
  (String.length a <= Py.int_max_str_digits)%nat ->
  (String.length b <= Py.int_max_str_digits)%nat ->
  (a1_to_rc a = a1_to_rc b <-> normalised a = normalised b).
Proof.
  intros Ga Gb _ _.
  destruct (gate_resolution a Ga)
    as (la & da & dsa & Ea & Hla & Hlsa & Hda & Hdsa & Ra).
  destruct (gate_resolution b Gb)
    as (lb & db & dsb & Eb & Hlb & Hlsb & Hdb & Hdsb & Rb).
  assert (Da : forallb Py.is_digit (da :: dsa) = true)
    by (simpl; now rewrite Hdsa, (digit_1_9_is_digit _ Hda)).
  assert (Db : forallb Py.is_digit (db :: dsb) = true)
    by (simpl; now rewrite Hdsb, (digit_1_9_is_digit _ Hdb)).
  unfold normalised. rewrite Ra, Rb, Ea, Eb. split.
  - intros E.
    assert (Er : decimal_value (da :: dsa) = decimal_value (db :: dsb))
      by congruence.
    assert (Ec : column_number la = column_number lb) by congruence.
    apply column_number_inj in Ec; [|assumption..].
    apply map_letter_value_upper in Ec; [|assumption..].
    apply decimal_value_inj in Er; try assumption.
    rewrite !map_app, Ec, Er. reflexivity.
  - intros E.
    destruct (upper_parts la (da :: dsa) lb (db :: dsb)) as [El Ed];
      try assumption; try discriminate.
    apply map_letter_value_upper in El; [|assumption..].
    now rewrite (column_number_upper _ _ El), Ed.
Qed.

Lemma same_cell_iff_same_address_witness :
  a1_to_rc "bc10" = a1_to_rc "BC10" <-> normalised "bc10" = normalised "BC10".
Proof.
  apply (same_cell_iff_same_address "bc10" "BC10");
    try reflexivity; unfold Py.int_max_str_digits; simpl; lia.
Defined.

(** X3.  The number of letters bounds the column: a run of [n] letters
    resolves to a column [c] with 26^n - 1 <= 25 c <= 26^(n+1) - 26, so one
    letter gives the columns 1 to 26 and two letters the columns 27 to
    702. *)
Theorem column_range_by_letters pre letters digits post r c :
  forallb Py.isspace pre = true -> forallb Py.isspace post = true ->
  letters <> [] -> forallb Py.is_letter letters = true ->
  digits <> [] -> forallb Py.is_digit digits = true ->
  a1_to_rc (string_of_list_ascii (pre ++ letters ++ digits ++ post))
  = Ok (r, c) ->
  26 ^ Z.of_nat (List.length letters) - 1 <= 25 * c
  /\ 25 * c <= 26 ^ (Z.of_nat (List.length letters) + 1) - 26
  /\ (List.length letters = 1%nat -> 1 <= c <= 26)
  /\ (List.length letters = 2%nat -> 27 <= c <= 702).
Proof.
  intros Hpre Hpost Hl Hls Hd Hds R.
  rewrite a1_to_rc_letters_digits in R by assumption.
  injection R as _ <-.
  destruct (column_number_range letters Hls) as [Lo Hi].
  split; [exact Lo|]. split; [exact Hi|].
  split; intros L; rewrite L in Lo, Hi.
  - change (26 ^ Z.of_nat 1) with 26 in Lo.
    change (26 ^ (Z.of_nat 1 + 1)) with 676 in Hi. lia.
  - change (26 ^ Z.of_nat 2) with 676 in Lo.
    change (26 ^ (Z.of_nat 2 + 1)) with 17576 in Hi. lia.
Qed.

Lemma column_range_by_letters_witness :
  26 ^ Z.of_nat 2 - 1 <= 25 * 55
  /\ 25 * 55 <= 26 ^ (Z.of_nat 2 + 1) - 26
  /\ (2%nat = 1%nat -> 1 <= 55 <= 26)
  /\ (2%nat = 2%nat -> 27 <= 55 <= 702).
Proof.
  apply (column_range_by_letters
           [] ["B"%char; "C"%char] ["1"%char; "0"%char] [] 10 55);
    try reflexivity; discriminate.
Defined.

(** ** The block returned by the extractor *)

Lemma forallb_false_exists {A} (f : A -> bool) l :
  forallb f l = false -> exists x, In x l /\ f x = false.
Proof.
  induction l as [|a l IH]; simpl; [discriminate|].
  destruct (f a) eqn:E.
  - intros H. destruct (IH H) as (x & Hx & Hf). exists x. auto.
  - intros _. exists a. auto.
Qed.

Lemma not_column_empty data j :
  ~ column_empty data j ->
  exists row, In row data /\ is_none_or_blank (nth j row VNone) = false.
Proof.
  intros H.
  destruct (forallb (fun row => is_none_or_blank (nth j row VNone)) data)
    eqn:E.
  - exfalso. apply H. now apply column_empty_forallb.
  - now apply forallb_false_exists in E.
Qed.

Lemma not_row_empty row :
  ~ row_empty row -> exists v, In v row /\ is_none_or_blank v = false.
Proof.
  intros H. destruct (forallb is_none_or_blank row) eqn:E.
  - exfalso. apply H. now apply row_empty_forallb.
  - now apply forallb_false_exists in E.
Qed.

Lemma nth_narrowed (row : list cell) m j :
  (j < m)%nat -> nth j (firstn m row) VNone = nth j row VNone.
Proof.
  intros H. rewrite nth_firstn. apply Nat.ltb_lt in H. now rewrite H.
Qed.

Lemma nth_kept (raw : block) m k i :
  (i < k)%nat ->
  nth i (firstn k (map (firstn m) raw)) [] = firstn m (nth i raw []).
Proof.
  intros H. rewrite nth_firstn. apply Nat.ltb_lt in H. rewrite H.
  apply narrowed_nth.
Qed.

Lemma last_nth {A} (l : list A) d :
  last l d = nth (List.length l - 1) l d.
Proof.
  induction l as [|a l IH]; [reflexivity|].
  destruct l as [|b l]; [reflexivity|].
  change (last (a :: b :: l) d) with (last (b :: l) d). rewrite IH.
  replace (List.length (a :: b :: l) - 1)%nat
    with (S (List.length (b :: l) - 1)) by (simpl; lia).
  reflexivity.
Qed.

(** What a block that [trim_block] returns looks like, against the rows it
    was given. *)
Lemma trim_block_result raw w b :
  rectangular w raw -> trim_block raw = Ok b ->
  exists m,
    (1 <= m <= w)%nat
    /\ rectangular m b
    /\ (1 <= List.length b <= List.length raw)%nat
    /\ ~ column_empty b (m - 1)
    /\ ~ row_empty (last b [])
    /\ (forall i j, (i < List.length b)%nat -> (j < m)%nat ->
                    nth j (nth i b []) VNone = nth j (nth i raw []) VNone)
    /\ (forall i j, (i < List.length raw)%nat -> (j < w)%nat ->
                    is_none_or_blank (nth j (nth i raw []) VNone) = false ->
                    (i < List.length b)%nat /\ (j < m)%nat).
Proof.
  intros Hrect T.
  assert (Hne : raw <> []) by (intros ->; discriminate T).
  destruct (trim_block_rect raw w Hne Hrect)
    as (m & k & _ & Hm & Hcols & Hcstop & _ & Hk & Hrows & Hrstop & Hpos & T').
  assert (Hk1 : k <> O) by (intros ->; rewrite T in T'; discriminate).
  assert (Eb : b = firstn k (map (firstn m) raw)).
  { destruct k; [contradiction|]. congruence. }
  subst b. clear T T'.
  assert (Hm1 : m <> O) by (now apply Hpos).
  assert (Hlen : List.length (firstn k (map (firstn m) raw)) = k).
  { rewrite length_firstn, length_map. lia. }
  assert (Kept : forall i j, (i < k)%nat -> (j < m)%nat ->
                  nth j (nth i (firstn k (map (firstn m) raw)) []) VNone
                  = nth j (nth i raw []) VNone).
  { intros i j Hi Hj. rewrite nth_kept by assumption.
    now apply nth_narrowed. }
  assert (Inside : forall i j, (i < List.length raw)%nat -> (j < w)%nat ->
                    is_none_or_blank (nth j (nth i raw []) VNone) = false ->
                    (i < k)%nat /\ (j < m)%nat).
  { intros i j Hi Hj Hv.
    assert (Hjm : (j < m)%nat).
    { destruct (Nat.lt_ge_cases j m) as [|Hge]; [assumption|]. exfalso.
      rewrite (Hcols j) in Hv; [discriminate|lia|]. now apply nth_In. }
    split; [|assumption].
    destruct (Nat.lt_ge_cases i k) as [|Hge]; [assumption|]. exfalso.
    assert (Hr : row_empty (firstn m (nth i raw []))) by (apply Hrows; lia).
    rewrite <- (nth_narrowed _ m j Hjm) in Hv.
    rewrite Hr in Hv; [discriminate|]. apply nth_In.
    rewrite length_firstn, (Hrect (nth i raw [])) by (now apply nth_In). lia. }
  exists m. split; [lia|]. split.
  { intros row Hin. apply In_firstn in Hin.
    now apply (narrowed_rectangular raw w m Hrect Hm). }
  split; [rewrite Hlen; lia|]. split.
  { destruct m as [|m']; [contradiction|]. intros Hc.
    destruct (not_column_empty raw m' (Hcstop m' eq_refl)) as (row & Hin & Hv).
    destruct (In_nth _ _ [] Hin) as (i & Hi & <-).
    destruct (Inside i m' Hi ltac:(lia) Hv) as [Hik _].
    rewrite <- (Kept i m' Hik ltac:(lia)) in Hv.
    replace (S m' - 1)%nat with m' in Hc by lia.
    rewrite Hc in Hv; [discriminate|]. apply nth_In. now rewrite Hlen. }
  split.
  { rewrite last_nth, Hlen. rewrite nth_kept by lia.
    apply (Hrstop (k - 1)%nat). lia. }
  split; [|rewrite Hlen; exact Inside].
  intros i j Hi Hj. rewrite Hlen in Hi. now apply Kept.
Qed.

(** A block with nothing to trim is returned as it is. *)
Lemma trim_block_fixed b m :
  (1 <= m)%nat -> b <> [] -> rectangular m b ->
  ~ column_empty b (m - 1) -> ~ row_empty (last b []) ->
  trim_block b = Ok b.
Proof.
  intros Hm Hne Hrect Hcol Hrow.
  destruct (trim_block_rect b m Hne Hrect)
    as (m' & k' & _ & Hm' & Hcols & _ & _ & Hk' & Hrows & _ & _ & ->).
  assert (Em : m' = m).
  { destruct (Nat.eq_dec m' m) as [|Hneq]; [assumption|]. exfalso.
    apply Hcol, Hcols. lia. }
  subst m'.
  assert (Hb : map (firstn m) b = b).
  { rewrite <- (map_id b) at 2. apply map_ext_in. intros row Hin.
    apply firstn_all2. rewrite (Hrect row Hin). lia. }
  assert (Hlen : (0 < List.length b)%nat).
  { destruct b; [contradiction|simpl; lia]. }
  assert (Ek : k' = List.length b).
  { destruct (Nat.eq_dec k' (List.length b)) as [|Hneq]; [assumption|].
    exfalso. apply Hrow. rewrite last_nth.
    specialize (Hrows (List.length b - 1)%nat ltac:(lia)).
    rewrite firstn_all2 in Hrows; [assumption|].
    rewrite (Hrect (nth (List.length b - 1) b [])); [lia|].
    apply nth_In. lia. }
  subst k'. rewrite Hb, firstn_all.
  destruct (List.length b); [lia|reflexivity].
Qed.

Lemma read_block_at_result ws start_r start_c b :
  1 <= start_r -> 1 <= start_c ->
  read_block_at ws start_r start_c = Ok b ->
  exists m,
    (1 <= m <= Z.to_nat (Openpyxl.max_column ws + 1 - start_c))%nat
    /\ rectangular m b
    /\ (1 <= List.length b
        <= Z.to_nat (Openpyxl.max_row ws + 1 - start_r))%nat
    /\ ~ column_empty b (m - 1)
    /\ ~ row_empty (last b [])
    /\ (forall i j, (i < List.length b)%nat -> (j < m)%nat ->
                    nth j (nth i b []) VNone
                    = Openpyxl.value_at ws (start_r + Z.of_nat i)
                                           (start_c + Z.of_nat j))
    /\ (forall i j,
           (i < Z.to_nat (Openpyxl.max_row ws + 1 - start_r))%nat ->
           (j < Z.to_nat (Openpyxl.max_column ws + 1 - start_c))%nat ->
           is_none_or_blank
             (Openpyxl.value_at ws (start_r + Z.of_nat i)
                                   (start_c + Z.of_nat j)) = false ->
           (i < List.length b)%nat /\ (j < m)%nat).
Proof.
  intros Hr Hc T. rewrite read_block_at_trim in T by assumption.
  destruct (trim_block_result _ _ _ (cells_from_rectangular _ _ _) T)
    as (m & Hm & Hrect & Hlen & Hcol & Hrow & Kept & Inside).
  rewrite cells_from_length in Hlen, Inside.
  exists m. repeat (split; [assumption|]). split.
  - intros i j Hi Hj. rewrite Kept by assumption.
    apply cells_from_nth; lia.
  - intros i j Hi Hj Hv. apply Inside; try assumption.
    now rewrite cells_from_nth.
Qed.

(** X4.  A block the extractor returns has at least one row, all its rows
    have one width, at least 1, and nothing is left to trim: its last
    column holds a cell that is not empty, and so does its last row. *)
Theorem extracted_block_shape ws start_r start_c b :
  1 <= start_r -> 1 <= start_c ->
  read_block_at ws start_r start_c = Ok b ->
  exists m,
    (1 <= m)%nat
    /\ rectangular m b
    /\ (1 <= List.length b)%nat
    /\ Z.of_nat (List.length b) <= Openpyxl.max_row ws + 1 - start_r
    /\ Z.of_nat m <= Openpyxl.max_column ws + 1 - start_c
    /\ ~ column_empty b (m - 1)
    /\ ~ row_empty (last b []).
Proof.
  intros Hr Hc T.
  destruct (read_block_at_result ws start_r start_c b Hr Hc T)
    as (m & Hm & Hrect & Hlen & Hcol & Hrow & _).
  exists m. repeat split; try assumption; lia.
Qed.

Lemma extracted_block_shape_witness :
  exists m,
    (1 <= m)%nat
    /\ rectangular m [[VInt 11; VInt 12]; [VInt 21; VInt 22]]
    /\ (1 <= List.length [[VInt 11; VInt 12]; [VInt 21; VInt 22]])%nat
    /\ Z.of_nat (List.length [[VInt 11; VInt 12]; [VInt 21; VInt 22]])
       <= Openpyxl.max_row sheet_3x3 + 1 - 1
    /\ Z.of_nat m <= Openpyxl.max_column sheet_3x3 + 1 - 1
    /\ ~ column_empty [[VInt 11; VInt 12]; [VInt 21; VInt 22]] (m - 1)
    /\ ~ row_empty (last [[VInt 11; VInt 12]; [VInt 21; VInt 22]] []).
Proof.
  apply (extracted_block_shape sheet_3x3 1 1); try lia. reflexivity.
Defined.

(** X5.  Trimming is idempotent: the block the extractor returns, trimmed
    again, is returned as it is. *)
Theorem trimming_is_idempotent ws start_r start_c b :
  1 <= start_r -> 1 <= start_c ->
  read_block_at ws start_r start_c = Ok b ->
  trim_block b = Ok b.
Proof.
  intros Hr Hc T.
  destruct (read_block_at_result ws start_r start_c b Hr Hc T)
    as (m & Hm & Hrect & Hlen & Hcol & Hrow & _).
  apply (trim_block_fixed b m); try assumption; try lia.
  intros ->. simpl in Hlen. lia.
Qed.

Lemma trimming_is_idempotent_witness :
  trim_block [[VInt 11; VInt 12]; [VInt 21; VInt 22]]
  = Ok [[VInt 11; VInt 12]; [VInt 21; VInt 22]].
Proof.
  apply (trimming_is_idempotent sheet_3x3 1 1); try lia. reflexivity.
Defined.

(** X6.  The block is the top left corner of what the sheet holds from the
    anchor on: the cell at row [i], column [j] of the block is the sheet's
    cell [i] rows below and [j] columns right of the anchor, and every cell
    of the sheet from the anchor to the sheet's extent that is not empty
    lies inside the block.  No cell is moved or changed, and no cell that
    holds something is trimmed away. *)
Theorem extracted_block_cells ws start_r start_c b :
  1 <= start_r -> 1 <= start_c ->
  read_block_at ws start_r start_c = Ok b ->
  (forall i j,
      (i < List.length b)%nat -> (j < List.length (hd [] b))%nat ->
      nth j (nth i b []) VNone
      = Openpyxl.value_at ws (start_r + Z.of_nat i) (start_c + Z.of_nat j))
  /\ (forall r c,
         start_r <= r <= Openpyxl.max_row ws ->
         start_c <= c <= Openpyxl.max_column ws ->
         is_none_or_blank (Openpyxl.value_at ws r c) = false ->
         r - start_r < Z.of_nat (List.length b)
         /\ c - start_c < Z.of_nat (List.length (hd [] b))).
Proof.
  intros Hr Hc T.
  destruct (read_block_at_result ws start_r start_c b Hr Hc T)
    as (m & Hm & Hrect & Hlen & _ & _ & Kept & Inside).
  assert (Hw : List.length (hd [] b) = m).
  { destruct b as [|row0 rest]; [simpl in Hlen; lia|].
    apply Hrect. now left. }
  rewrite Hw. split; [exact Kept|].
  intros r c Hrr Hcc Hv.
  destruct (Inside (Z.to_nat (r - start_r)) (Z.to_nat (c - start_c)))
    as [Hi Hj]; try lia.
  now replace (start_r + Z.of_nat (Z.to_nat (r - start_r))) with r by lia;
    replace (start_c + Z.of_nat (Z.to_nat (c - start_c))) with c by lia.
Qed.

Lemma extracted_block_cells_witness :
  (forall i j,
      (i < List.length [[VInt 11; VInt 12]; [VInt 21; VInt 22]])%nat ->
      (j < List.length (hd [] [[VInt 11; VInt 12]; [VInt 21; VInt 22]]))%nat ->
      nth j (nth i [[VInt 11; VInt 12]; [VInt 21; VInt 22]] []) VNone
      = Openpyxl.value_at sheet_3x3 (1 + Z.of_nat i) (1 + Z.of_nat j))
  /\ (forall r c,
         1 <= r <= Openpyxl.max_row sheet_3x3 ->
         1 <= c <= Openpyxl.max_column sheet_3x3 ->
         is_none_or_blank (Openpyxl.value_at sheet_3x3 r c) = false ->
         r - 1 < Z.of_nat (List.length [[VInt 11; VInt 12]; [VInt 21; VInt 22]])
         /\ c - 1
            < Z.of_nat
                (List.length (hd [] [[VInt 11; VInt 12]; [VInt 21; VInt 22]]))).
Proof.
  apply (extracted_block_cells sheet_3x3 1 1); try lia. reflexivity.
Defined.

(** ** Header names *)

Lemma lstrip_head s :
  match Py.lstrip_chars s with
  | [] => True
  | ch :: _ => Py.isspace ch = false
  end.
Proof.
  induction s as [|ch t IH]; simpl; [exact I|].
  destruct (Py.isspace ch) eqn:E; [exact IH|exact E].
Qed.

Lemma lstrip_fixed s :
  match s with [] => True | ch :: _ => Py.isspace ch = false end ->
  Py.lstrip_chars s = s.
Proof. destruct s as [|ch t]; [reflexivity|]. apply lstrip_stop. Qed.

Lemma lstrip_idempotent s :
  Py.lstrip_chars (Py.lstrip_chars s) = Py.lstrip_chars s.
Proof. apply lstrip_fixed, lstrip_head. Qed.

Lemma lstrip_snoc u h :
  Py.isspace h = false ->
  Py.lstrip_chars (u ++ [h]) = Py.lstrip_chars u ++ [h].
Proof.
  intros H. induction u as [|ch u IH]; simpl; [now rewrite H|].
  destruct (Py.isspace ch); [exact IH|reflexivity].
Qed.

Lemma rstrip_cons h t :
  Py.isspace h = false ->
  Py.rstrip_chars (h :: t) = h :: Py.rstrip_chars t.
Proof.
  intros H. unfold Py.rstrip_chars. simpl.
  rewrite lstrip_snoc by assumption. rewrite rev_app_distr. reflexivity.
Qed.

Lemma strip_chars_idempotent s :
  Py.strip_chars (Py.strip_chars s) = Py.strip_chars s.
Proof.
  unfold Py.strip_chars.
  pose proof (lstrip_head s) as Hh.
  destruct (Py.lstrip_chars s) as [|h t] eqn:E; [reflexivity|].
  rewrite rstrip_cons by assumption.
  rewrite lstrip_stop by assumption.
  rewrite rstrip_cons by assumption. f_equal.
  unfold Py.rstrip_chars. rewrite rev_involutive, lstrip_idempotent.
  reflexivity.
Qed.

Lemma strip_idempotent s : Py.strip (Py.strip s) = Py.strip s.
Proof.
  unfold Py.strip. rewrite list_ascii_of_string_of_list_ascii.
  now rewrite strip_chars_idempotent.
Qed.

Lemma list_ascii_of_string_app a b :
  list_ascii_of_string (a ++ b)%string
  = list_ascii_of_string a ++ list_ascii_of_string b.
Proof. induction a as [|ch a IH]; simpl; [reflexivity|]. now rewrite IH. Qed.

Lemma strip_no_space_string s :
  Forall (fun ch => Py.isspace ch = false) (list_ascii_of_string s) ->
  Py.strip s = s.
Proof.
  intros H. unfold Py.strip. rewrite strip_no_space by assumption.
  apply string_of_list_ascii_of_string.
Qed.

Lemma str_of_int_inj n m : Py.str_of_int n = Py.str_of_int m -> n = m.
Proof.
  unfold Py.str_of_int. intros H. apply DecimalZ.to_int_inj.
  assert (P : forall z, NilZero.int_of_string
                          (NilZero.string_of_int (Z.to_int z))
                        = Some (Z.to_int z)).
  { intros z. apply NilZero.isi; destruct z; simpl; try discriminate;
      intros E; injection E as E;
      exact (DecimalPos.Unsigned.to_uint_nonnil _ E). }
  pose proof (P n) as Pn. rewrite H, P in Pn. congruence.
Qed.

Lemma append_inj_l p a b : (p ++ a)%string = (p ++ b)%string -> a = b.
Proof.
  induction p as [|ch p IH]; simpl; intros H; [assumption|].
  injection H as H. auto.
Qed.

(** The name of a header cell: the default one when the cell is empty, the
    stripped text otherwise. *)
Lemma header_name_cases i h :
  header_name i h
  = if is_none_or_blank h
    then ("col_" ++ Py.str_of_int (Z.of_nat i + 1))%string
    else Py.strip (py_str h).
Proof. unfold header_name, is_none_or_blank. destruct h; reflexivity. Qed.

Lemma default_name_stripped i :
  Py.strip ("col_" ++ Py.str_of_int (Z.of_nat i + 1))%string
  = ("col_" ++ Py.str_of_int (Z.of_nat i + 1))%string.
Proof.
  apply strip_no_space_string. rewrite list_ascii_of_string_app.
  apply Forall_app. split; [repeat constructor|].
  apply str_of_int_chars.
Qed.

Lemma header_name_not_empty i h :
  String.eqb (header_name i h) "" = false
  /\ Py.strip (header_name i h) = header_name i h.
Proof.
  rewrite header_name_cases. destruct (is_none_or_blank h) eqn:E.
  - split; [reflexivity|apply default_name_stripped].
  - split; [|apply strip_idempotent].
    destruct h; try discriminate E; exact E.
Qed.

Lemma header_from_nth k row0 i :
  (i < List.length row0)%nat ->
  nth i (header_from k row0) "" = header_name (k + i) (nth i row0 VNone).
Proof.
  revert k i. induction row0 as [|h t IH]; intros k i Hi; [simpl in Hi; lia|].
  destruct i as [|i]; simpl.
  - now rewrite Nat.add_0_r.
  - rewrite IH by (simpl in Hi; lia). now rewrite Nat.add_succ_r.
Qed.

Lemma derive_header_nth row0 i :
  (i < List.length row0)%nat ->
  nth i (derive_header row0) "" = header_name i (nth i row0 VNone).
Proof. intros H. unfold derive_header. now rewrite header_from_nth. Qed.

(** X7.  The header has one name per cell of the first row.  No name is
    empty and none has white space around it.  An empty cell (blank or
    [None]) at position [i], from 0, is named col_ followed by [i + 1];
    any other cell is named by its stripped text.  Default names at two
    positions differ, so a first row of empty cells gives names that are
    all distinct. *)
Theorem derived_header_names row0 :
  List.length (derive_header row0) = List.length row0
  /\ (forall name,
         In name (derive_header row0) ->
         String.eqb name "" = false /\ Py.strip name = name)
  /\ (forall i,
         (i < List.length row0)%nat ->
         nth i (derive_header row0) ""
         = if is_none_or_blank (nth i row0 VNone)
           then ("col_" ++ Py.str_of_int (Z.of_nat i + 1))%string
           else Py.strip (py_str (nth i row0 VNone)))
  /\ (forall i j,
         (i < List.length row0)%nat -> (j < List.length row0)%nat ->
         is_none_or_blank (nth i row0 VNone) = true ->
         is_none_or_blank (nth j row0 VNone) = true ->
         nth i (derive_header row0) "" = nth j (derive_header row0) "" ->
         i = j)
  /\ (row_empty row0 -> NoDup (derive_header row0)).
Proof.
  assert (Names : forall i, (i < List.length row0)%nat ->
            nth i (derive_header row0) ""
            = if is_none_or_blank (nth i row0 VNone)
              then ("col_" ++ Py.str_of_int (Z.of_nat i + 1))%string
              else Py.strip (py_str (nth i row0 VNone))).
  { intros i Hi. now rewrite derive_header_nth, header_name_cases. }
  assert (Distinct : forall i j,
            (i < List.length row0)%nat -> (j < List.length row0)%nat ->
            is_none_or_blank (nth i row0 VNone) = true ->
            is_none_or_blank (nth j row0 VNone) = true ->
            nth i (derive_header row0) "" = nth j (derive_header row0) "" ->
            i = j).
  { intros i j Hi Hj Bi Bj E. rewrite !Names, Bi, Bj in E by assumption.
    apply append_inj_l, str_of_int_inj in E. lia. }
  split; [apply derive_header_length|]. split.
  { intros name Hin. destruct (In_nth _ _ "" Hin) as (i & Hi & <-).
    rewrite derive_header_length in Hi. rewrite derive_header_nth by assumption.
    apply header_name_not_empty. }
  split; [exact Names|]. split; [exact Distinct|].
  intros Hempty. apply (NoDup_nth _ "").
  intros i j Hi Hj E. rewrite derive_header_length in Hi, Hj.
  apply Distinct; auto; apply Hempty; now apply nth_In.
Qed.

Lemma derived_header_names_witness :
  NoDup (derive_header [VNone; VStr " "; VNone]).
Proof.
  apply (proj2 (proj2 (proj2 (proj2
           (derived_header_names [VNone; VStr " "; VNone]))))).
  intros v Hv. simpl in Hv.
  repeat (destruct Hv as [<- | Hv]; [reflexivity|]). contradiction.
Defined.

(** ** The outcome of the reshape *)

Lemma value_cols_nil header id_col :
  filter (fun c => negb (String.eqb c id_col)) header = [] <->
  forall c, In c header -> c = id_col.
Proof.
  split.
  - intros E c Hin. destruct (string_dec c id_col) as [|Hne]; [assumption|].
    exfalso. assert (Hv : exists c, In c header /\ c <> id_col) by eauto.
    apply value_cols_exists in Hv. contradiction.
  - intros H. destruct (filter _ header) as [|c l] eqn:E; [reflexivity|].
    exfalso.
    assert (Hv : exists c, In c header /\ c <> id_col)
      by (apply value_cols_exists; rewrite E; discriminate).
    destruct Hv as (c' & Hin & Hne). auto.
Qed.

(** The two checks of lines 90-95 come first. *)
Lemma reshape_first_checks
    row0 rows id_col_name var_name value_name id_col :
  rectangular (List.length row0) rows ->
  resolve_id_col id_col_name (derive_header row0) = Ok id_col ->
  (reshape (row0 :: rows) id_col_name var_name value_name
   = Err MissingIdColumn
   <-> ~ In id_col (derive_header row0))
  /\ (reshape (row0 :: rows) id_col_name var_name value_name
      = Err NoValueColumns
      <-> In id_col (derive_header row0)
          /\ forall c, In c (derive_header row0) -> c = id_col).
Proof.
  intros Hrect Hid. rewrite (reshape_cases _ _ _ _ _ _ Hrect Hid).
  destruct (existsb (String.eqb id_col) (derive_header row0)) eqn:Ein;
    cbn [negb].
  - apply existsb_eqb_In in Ein.
    destruct (filter _ (derive_header row0)) as [|c l] eqn:Ev.
    + pose proof (proj1 (value_cols_nil _ _) Ev) as Hall.
      split; [split; [discriminate|contradiction]|].
      split; auto.
    + assert (Hv : exists c, In c (derive_header row0) /\ c <> id_col)
        by (apply value_cols_exists; rewrite Ev; discriminate).
      split; split.
      * intros H. apply melt_filter_err in H. discriminate.
      * contradiction.
      * intros H. apply melt_filter_err in H. discriminate.
      * intros (_ & Hall). destruct Hv as (c' & Hc & Hne).
        exfalso. now apply Hne, Hall.
  - assert (Hnot : ~ In id_col (derive_header row0)).
    { intros H. apply existsb_eqb_In in H. congruence. }
    split; [split; auto|].
    split; [discriminate|intros [H _]; contradiction].
Qed.

(** X8.  On a block whose data rows have the header's width, the two
    checks of the reshape come first: it fails with the missing-identifier
    error exactly when the identifier is not a header name, and with the
    no-value-column error exactly when it is one and every header name
    equals it.  Past the two checks pandas decides.  A value name that is a
    header name, or an identifier that labels several columns, makes the
    melt raise.  When the identifier labels one column and the names given
    for the variable and value columns clash neither with each other nor
    with a column, the reshape succeeds. *)
Theorem reshape_outcome row0 rows id_col_name var_name value_name id_col :
  rectangular (List.length row0) rows ->
  resolve_id_col id_col_name (derive_header row0) = Ok id_col ->
  (reshape (row0 :: rows) id_col_name var_name value_name
   = Err MissingIdColumn
   <-> ~ In id_col (derive_header row0))
  /\ (reshape (row0 :: rows) id_col_name var_name value_name
      = Err NoValueColumns
      <-> In id_col (derive_header row0)
          /\ forall c, In c (derive_header row0) -> c = id_col)
  /\ (In id_col (derive_header row0) ->
      (exists c, In c (derive_header row0) /\ c <> id_col) ->
      (In value_name (derive_header row0)
       \/ count_occ string_dec (derive_header row0) id_col <> 1%nat ->
       reshape (row0 :: rows) id_col_name var_name value_name
       = Err LabelClash)
      /\ (Pandas.melt_defined (derive_header row0) id_col var_name
            value_name = true ->
          is_ok (reshape (row0 :: rows) id_col_name var_name value_name)
          = true)).
Proof.
  intros Hrect Hid.
  destruct (reshape_first_checks row0 rows id_col_name var_name value_name
              id_col Hrect Hid) as (Hm & Hn).
  split; [exact Hm|]. split; [exact Hn|].
  intros Hin Hother. split.
  - intros Hclash.
    assert (A : Pandas.melt_accepts (derive_header row0) id_col value_name
                = false).
    { destruct (Pandas.melt_accepts _ _ _) eqn:A; [|reflexivity].
      apply melt_accepts_parts in A as [Hv Hc]. tauto. }
    rewrite (reshape_cases _ _ _ _ _ _ Hrect Hid).
    apply existsb_eqb_In in Hin. rewrite Hin. cbn [negb].
    apply value_cols_exists in Hother.
    destruct (filter _ (derive_header row0)); [contradiction|].
    unfold Pandas.melt. cbn [Pandas.columns]. now rewrite A.
  - intros Hdef. apply melt_defined_parts in Hdef as (A & _ & Hvv).
    destruct (reshape_succeeds row0 rows id_col_name var_name value_name
                id_col Hrect Hid Hother A Hvv) as (long & ->).
    reflexivity.
Qed.

Lemma reshape_outcome_witness :
  reshape [[VStr "id"; VStr "value"]; [VStr "x"; VInt 1]] None
    "variable" "value"
  = Err LabelClash
  /\ is_ok (reshape [[VStr "id"; VStr "value"]; [VStr "x"; VInt 1]] None
              "variable" "amount")
     = true.
Proof.
  destruct (reshape_outcome [VStr "id"; VStr "value"] [[VStr "x"; VInt 1]]
              None "variable" "value" "id")
    as (_ & _ & H); [intros r [<- | []]; reflexivity | reflexivity |].
  destruct (reshape_outcome [VStr "id"; VStr "value"] [[VStr "x"; VInt 1]]
              None "variable" "amount" "id")
    as (_ & _ & H'); [intros r [<- | []]; reflexivity | reflexivity |].
  split.
  - apply H; [now left | exists "value"; split; [simpl; auto|discriminate] |].
    left. simpl. auto.
  - apply H'; [now left | exists "value"; split; [simpl; auto|discriminate] |].
    reflexivity.
Defined.

(** X9.  With no identifier given ([None] or the empty text) the
    identifier is the first header name: the reshape cannot fail for a
    missing identifier, and it fails for want of a value column exactly
    when every header name equals the first, as it does on a block of one
    column. *)
Theorem reshape_default_identifier h row0 rows id_col_name var_name value_name :
  rectangular (S (List.length row0)) rows ->
  id_col_name = None \/ id_col_name = Some "" ->
  resolve_id_col id_col_name (derive_header (h :: row0))
  = Ok (header_name 0 h)
  /\ reshape ((h :: row0) :: rows) id_col_name var_name value_name
     <> Err MissingIdColumn
  /\ (reshape ((h :: row0) :: rows) id_col_name var_name value_name
      = Err NoValueColumns
      <-> forall c, In c (derive_header (h :: row0)) -> c = header_name 0 h)
  /\ (row0 = [] ->
      reshape ((h :: row0) :: rows) id_col_name var_name value_name
      = Err NoValueColumns).
Proof.
  intros Hrect Hdef.
  assert (Hid : resolve_id_col id_col_name (derive_header (h :: row0))
                = Ok (header_name 0 h))
    by (destruct Hdef as [-> | ->]; reflexivity).
  assert (Hin : In (header_name 0 h) (derive_header (h :: row0)))
    by (now left).
  destruct (reshape_first_checks (h :: row0) rows id_col_name var_name
              value_name (header_name 0 h) Hrect Hid) as (Hm & Hn).
  split; [exact Hid|]. split.
  { intros H. now apply Hm in H. }
  split; [rewrite Hn; tauto|].
  intros ->. apply Hn. split; [assumption|].
  intros c [<- | []]. reflexivity.
Qed.

Lemma reshape_default_identifier_witness :
  resolve_id_col None (derive_header [VStr "id"])
  = Ok (header_name 0 (VStr "id"))
  /\ reshape [[VStr "id"]; [VStr "x"]] None "variable" "value"
     <> Err MissingIdColumn
  /\ (reshape [[VStr "id"]; [VStr "x"]] None "variable" "value"
      = Err NoValueColumns
      <-> forall c, In c (derive_header [VStr "id"]) ->
                    c = header_name 0 (VStr "id"))
  /\ (@nil cell = [] ->
      reshape [[VStr "id"]; [VStr "x"]] None "variable" "value"
      = Err NoValueColumns).
Proof.
  apply (reshape_default_identifier (VStr "id") [] [[VStr "x"]] None
           "variable" "value").
  - intros r [<- | []]. reflexivity.
  - now left.
Defined.

(** ** The records of the long table *)

Lemma length_flat_map_le {A B} (f : A -> list B) l k :
  (forall x, In x l -> (List.length (f x) <= k)%nat) ->
  (List.length (flat_map f l) <= List.length l * k)%nat.
Proof.
  induction l as [|a l IH]; intros H; [simpl; lia|].
  cbn [flat_map List.length]. rewrite length_app.
  specialize (H a (or_introl eq_refl)) as Ha.
  assert (List.length (flat_map f l) <= List.length l * k)%nat
    by (apply IH; intros; apply H; now right).
  lia.
Qed.

Lemma length_flat_map_eq {A B} (f : A -> list B) l k :
  (forall x, In x l -> List.length (f x) = k) ->
  List.length (flat_map f l) = (List.length l * k)%nat.
Proof.
  induction l as [|a l IH]; intros H; [reflexivity|].
  cbn [flat_map List.length]. rewrite length_app.
  rewrite (H a (or_introl eq_refl)), IH by (intros; apply H; now right).
  lia.
Qed.

Lemma map_nth_seq {A} (l : list A) d :
  map (fun j => nth j l d) (seq 0 (List.length l)) = l.
Proof.
  induction l as [|a l IH]; [reflexivity|].
  cbn [List.length seq map nth]. f_equal.
  rewrite <- seq_shift, map_map. exact IH.
Qed.

Lemma value_positions_length header id_col :
  List.length (Pandas.value_positions header id_col)
  = List.length (filter (fun c => negb (String.eqb c id_col)) header).
Proof.
  unfold Pandas.value_positions.
  transitivity
    (List.length
       (filter (fun c => negb (String.eqb c id_col))
               (map (fun j => nth j header "")
                    (seq 0 (List.length header))))).
  - rewrite filter_map_swap, length_map. reflexivity.
  - now rewrite map_nth_seq.
Qed.

Lemma column_major_by_value_positions header id_col rows :
  column_major header id_col rows
  = flat_map
      (fun j =>
         flat_map (fun r => if Pandas.isna (nth j r VNone) then []
                            else [long_record header id_col r j]) rows)
      (Pandas.value_positions header id_col).
Proof.
  unfold column_major, Pandas.value_positions. rewrite flat_map_filter.
  apply flat_map_ext. intros j. unfold records_of, emits.
  destruct (String.eqb (nth j header "") id_col); cbn [negb andb].
  - apply flat_map_nil.
  - apply flat_map_ext. intros r. now destruct (Pandas.isna (nth j r VNone)).
Qed.

Lemma melt_defined_count header id_col var_name value_name :
  Pandas.melt_defined header id_col var_name value_name = true ->
  count_occ string_dec header id_col = 1%nat.
Proof.
  unfold Pandas.melt_defined. intros H.
  apply andb_true_iff in H as [H _]. apply andb_true_iff in H as [H _].
  apply andb_true_iff in H as [H _]. now apply Nat.eqb_eq.
Qed.

(** X10.  When the identifier labels one column and the names given for
    the variable and value columns clash neither with each other nor with
    a column, every record of the long table has three cells, the second
    is the name of a column other than the identifier, and the third is
    never a missing value. *)
Theorem long_records_well_formed
    row0 rows id_col_name var_name value_name long id_col :
  reshape (row0 :: rows) id_col_name var_name value_name = Ok long ->
  resolve_id_col id_col_name (derive_header row0) = Ok id_col ->
  Pandas.melt_defined (derive_header row0) id_col var_name value_name = true ->
  forall rec,
    In rec (Pandas.rows long) ->
    exists i label v,
      rec = [i; VStr label; v]
      /\ In label (derive_header row0)
      /\ label <> id_col
      /\ Pandas.isna v = false.
Proof.
  intros H Hid Hdef rec Hin.
  destruct (reshape_ok _ _ _ _ _ _ H) as (id & Hid' & _ & _ & _ & _ & Hr).
  rewrite Hid in Hid'. injection Hid' as <-.
  rewrite (Hr Hdef) in Hin. apply In_column_major in Hin.
  destruct Hin as (j & r & Hj & Hrin & He & ->).
  apply emits_true in He as [Hne Hv].
  exists (nth (Pandas.position id_col (derive_header row0)) r VNone),
         (nth j (derive_header row0) ""), (nth j r VNone).
  split; [reflexivity|]. split; [now apply nth_In|]. split; assumption.
Qed.

Lemma long_records_well_formed_witness :
  exists i label v,
    [VStr "y"; VStr "2021"; VInt 4] = [i; VStr label; v]
    /\ In label (derive_header (hd [] block_full))
    /\ label <> "id"
    /\ Pandas.isna v = false.
Proof.
  apply (long_records_well_formed (hd [] block_full) (tl block_full) None
           "variable" "value" long_of_block_full "id");
    try reflexivity.
  simpl. auto.
Defined.

(** X11.  The long table has at most one record per data row and column
    other than the identifier: with [n] data rows and [k] columns in all,
    at most [n * (k - 1)] records, and exactly that many when no cell of
    those columns is missing. *)
Theorem long_table_size row0 rows id_col_name var_name value_name long id_col :
  reshape (row0 :: rows) id_col_name var_name value_name = Ok long ->
  resolve_id_col id_col_name (derive_header row0) = Ok id_col ->
  Pandas.melt_defined (derive_header row0) id_col var_name value_name = true ->
  (List.length (Pandas.rows long)
   <= List.length rows * (List.length row0 - 1))%nat
  /\ ((forall r j,
          In r rows -> (j < List.length row0)%nat ->
          nth j (derive_header row0) "" <> id_col ->
          Pandas.isna (nth j r VNone) = false) ->
      List.length (Pandas.rows long)
      = (List.length rows * (List.length row0 - 1))%nat).
Proof.
  intros H Hid Hdef.
  destruct (reshape_ok _ _ _ _ _ _ H) as (id & Hid' & _ & _ & _ & _ & Hr).
  rewrite Hid in Hid'. injection Hid' as <-.
  rewrite (Hr Hdef), column_major_by_value_positions.
  assert (Hn : List.length (Pandas.value_positions (derive_header row0) id_col)
               = (List.length row0 - 1)%nat).
  { rewrite value_positions_length.
    pose proof (value_cols_count (derive_header row0) id_col) as Hc.
    rewrite (melt_defined_count _ _ _ _ Hdef), derive_header_length in Hc.
    lia. }
  split.
  - rewrite Nat.mul_comm, <- Hn. apply length_flat_map_le. intros j _.
    rewrite <- (Nat.mul_1_r (List.length rows)).
    apply length_flat_map_le. intros r _.
    destruct (Pandas.isna (nth j r VNone)); simpl; lia.
  - intros Hfull. rewrite Nat.mul_comm, <- Hn.
    apply length_flat_map_eq. intros j Hj.
    unfold Pandas.value_positions in Hj. apply filter_In in Hj as [Hj Hne].
    apply in_seq in Hj. rewrite derive_header_length in Hj.
    rewrite <- (Nat.mul_1_r (List.length rows)).
    apply length_flat_map_eq. intros r Hrin.
    rewrite Hfull; [reflexivity|assumption|lia|].
    intros E. apply String.eqb_eq in E. rewrite E in Hne. discriminate.
Qed.

Lemma long_table_size_witness :
  (List.length (Pandas.rows long_of_block_full)
   <= List.length (tl block_full) * (List.length (hd [] block_full) - 1))%nat
  /\ ((forall r j,
          In r (tl block_full) -> (j < List.length (hd [] block_full))%nat ->
          nth j (derive_header (hd [] block_full)) "" <> "id" ->
          Pandas.isna (nth j r VNone) = false) ->
      List.length (Pandas.rows long_of_block_full)
      = (List.length (tl block_full)
         * (List.length (hd [] block_full) - 1))%nat).
Proof.
  apply (long_table_size (hd [] block_full) (tl block_full) None
           "variable" "value" long_of_block_full "id"); reflexivity.
Defined.

(** ** The output path *)


Lemma rfind_dot_none s :
  Py.rfind_dot s = None -> forallb not_dot s = true.
Proof.
  induction s as [|ch t IH]; simpl; [reflexivity|].
  destruct (Py.rfind_dot t); [discriminate|].
  unfold not_dot at 1. destruct (Ascii.eqb ch "."); [discriminate|].
  intros _. now rewrite IH.
Qed.

Lemma rfind_dot_some s i :
  Py.rfind_dot s = Some i ->
  exists a b, s = a ++ "."%char :: b /\ List.length a = i
              /\ forallb not_dot b = true.
Proof.
  revert i. induction s as [|ch t IH]; simpl; intros i H; [discriminate|].
  destruct (Py.rfind_dot t) as [k|] eqn:E.
  - injection H as <-. destruct (IH k eq_refl) as (a & b & -> & <- & Hb).
    exists (ch :: a), b. auto.
  - destruct (Ascii.eqb ch ".") eqn:Ec; [|discriminate].
    injection H as <-. apply Ascii.eqb_eq in Ec. subst ch.
    exists [], t. repeat split. now apply rfind_dot_none.
Qed.

Lemma rfind_dot_no_dot b : forallb not_dot b = true -> Py.rfind_dot b = None.
Proof.
  induction b as [|ch t IH]; simpl; intros H; [reflexivity|].
  apply andb_true_iff in H as [Hc Ht]. rewrite (IH Ht).
  unfold not_dot in Hc. now destruct (Ascii.eqb ch ".").
Qed.

Lemma rfind_dot_last a b :
  forallb not_dot b = true ->
  Py.rfind_dot (a ++ "."%char :: b) = Some (List.length a).
Proof.
  intros Hb. induction a as [|ch a IH]; simpl.
  - now rewrite (rfind_dot_no_dot b Hb).
  - now rewrite IH.
Qed.

(** A suffix is empty, or a dot followed by one or more characters none of
    which is a dot. *)
Lemma suffix_shape p :
  suffix p = ""
  \/ exists b, list_ascii_of_string (suffix p) = "."%char :: b
               /\ b <> [] /\ forallb not_dot b = true.
Proof.
  unfold suffix.
  destruct (Py.rfind_dot (list_ascii_of_string (name p))) as [i|] eqn:E;
    [|now left].
  destruct (Nat.ltb 0 i && Nat.ltb i _) eqn:C; [|now left]. right.
  apply andb_true_iff in C as [_ C]. apply Nat.ltb_lt in C.
  destruct (rfind_dot_some _ _ E) as (a & b & Hs & Ha & Hb).
  exists b. rewrite list_ascii_of_string_of_list_ascii, Hs, <- Ha.
  rewrite skipn_app, Nat.sub_diag, skipn_all. cbn [skipn app].
  split; [reflexivity|]. split; [|assumption].
  intros ->. rewrite Hs, length_app in C. simpl in C. lia.
Qed.

(** The stem and the suffix of a name made of a stem that is not empty and
    an extension. *)
Lemma stem_suffix_of_name dir x b :
  x <> [] -> b <> [] -> forallb not_dot b = true ->
  stem {| parent := dir;
          name := string_of_list_ascii (x ++ "."%char :: b) |}
  = string_of_list_ascii x
  /\ suffix {| parent := dir;
               name := string_of_list_ascii (x ++ "."%char :: b) |}
     = string_of_list_ascii ("."%char :: b).
Proof.
  intros Hx Hb Hdot. unfold stem, suffix. cbn [name].
  rewrite list_ascii_of_string_of_list_ascii, (rfind_dot_last x b Hdot).
  assert (C : Nat.ltb 0 (List.length x)
              && Nat.ltb (List.length x)
                         (List.length (x ++ "."%char :: b) - 1) = true).
  { apply andb_true_iff. split; apply Nat.ltb_lt.
    - destruct x; [contradiction|simpl; lia].
    - rewrite length_app. destruct b; [contradiction|simpl; lia]. }
  rewrite C. split.
  - now rewrite firstn_app, Nat.sub_diag, firstn_all, app_nil_r.
  - now rewrite skipn_app, Nat.sub_diag, skipn_all.
Qed.

(** The name written, as characters: the ones of the stem, [_long], a dot
    and an extension without dot. *)
Lemma write_long_name input_path long_df :
  exists b,
    b <> [] /\ forallb not_dot b = true
    /\ name (fst (write_long input_path long_df))
       = string_of_list_ascii
           ((list_ascii_of_string (stem input_path)
             ++ list_ascii_of_string "_long") ++ "."%char :: b)
    /\ ((recognised_suffix (suffix input_path)
         /\ string_of_list_ascii ("."%char :: b) = suffix input_path
         /\ w_format (snd (write_long input_path long_df)) = ExcelSheetLong)
        \/ (~ recognised_suffix (suffix input_path)
            /\ string_of_list_ascii ("."%char :: b) = ".csv"
            /\ w_format (snd (write_long input_path long_df)) = CsvText)).
Proof.
  destruct (write_long_spec input_path long_df)
    as (_ & _ & _ & [(Hrec & Hname & Hfmt) | (Hrec & Hname & Hfmt)]).
  - destruct (suffix_shape input_path) as [E | (b & Eb & Hb & Hdot)].
    + apply recognised_suffix_nonempty in Hrec. rewrite E in Hrec.
      discriminate.
    + exists b. split; [assumption|]. split; [assumption|]. split.
      * rewrite Hname, <- app_assoc, <- Eb.
        rewrite !string_of_list_ascii_app, !string_of_list_ascii_of_string.
        reflexivity.
      * left. rewrite <- Eb, string_of_list_ascii_of_string. auto.
  - exists (list_ascii_of_string "csv").
    split; [discriminate|]. split; [reflexivity|]. split.
    + rewrite Hname, <- app_assoc.
      rewrite !string_of_list_ascii_app, !string_of_list_ascii_of_string.
      reflexivity.
    + right. auto.
Qed.

Lemma string_length_append a b :
  String.length (a ++ b)%string = (String.length a + String.length b)%nat.
Proof. induction a as [|ch a IH]; simpl; [reflexivity|]. now rewrite IH. Qed.

(** X12.  The output never takes the place of the input: it is written in
    the same directory under a name that differs from the input's. *)
Theorem output_is_not_the_input input_path long_df :
  parent (fst (write_long input_path long_df)) = parent input_path
  /\ String.eqb (name (fst (write_long input_path long_df)))
                (name input_path) = false.
Proof.
  split; [apply write_long_spec|].
  destruct (String.eqb _ (name input_path)) eqn:E; [|reflexivity].
  exfalso. apply String.eqb_eq in E.
  destruct (write_long_name input_path long_df)
    as (b & Hb & Hdot & Hname & Hcase).
  rewrite Hname, <- (stem_suffix input_path) in E.
  rewrite <- app_assoc, !string_of_list_ascii_app in E.
  rewrite string_of_list_ascii_of_string in E.
  apply append_inj_l in E.
  assert (L : forall a c : string, a = c -> String.length a = String.length c)
    by (intros; now subst).
  destruct Hcase as [(_ & Hs & _) | (_ & Hs & _)].
  - rewrite <- Hs in E. apply L in E.
    rewrite string_length_append in E. simpl in E. lia.
  - destruct (suffix_shape input_path) as [E0 | (b' & Eb & _)].
    + rewrite E0 in E. discriminate.
    + apply (f_equal list_ascii_of_string) in E.
      rewrite Eb in E. discriminate.
Qed.

(** X13.  The name written has the stem of the input followed by [_long]
    for stem, and for suffix the extension chosen; the format of the file
    agrees with that suffix: a spreadsheet exactly when the suffix of the
    written path is a spreadsheet extension, delimited text exactly when it
    is [.csv]. *)
Theorem written_format_matches_suffix input_path long_df :
  stem (fst (write_long input_path long_df))
  = (stem input_path ++ "_long")%string
  /\ (w_format (snd (write_long input_path long_df)) = ExcelSheetLong
      <-> recognised_suffix (suffix (fst (write_long input_path long_df))))
  /\ (w_format (snd (write_long input_path long_df)) = CsvText
      <-> suffix (fst (write_long input_path long_df)) = ".csv").
Proof.
  destruct (write_long_name input_path long_df)
    as (b & Hb & Hdot & Hname & Hcase).
  destruct (stem_suffix_of_name
              (parent (fst (write_long input_path long_df)))
              (list_ascii_of_string (stem input_path)
               ++ list_ascii_of_string "_long") b) as [Hstem Hsuf];
    try assumption.
  { destruct (list_ascii_of_string (stem input_path)); discriminate. }
  rewrite <- Hname in Hstem, Hsuf.
  assert (P : {| parent := parent (fst (write_long input_path long_df));
                 name := name (fst (write_long input_path long_df)) |}
              = fst (write_long input_path long_df))
    by (now destruct (fst (write_long input_path long_df))).
  rewrite P in Hstem, Hsuf. rewrite Hstem, Hsuf.
  split.
  { rewrite string_of_list_ascii_app, string_of_list_ascii_of_string.
    reflexivity. }
  destruct Hcase as [(Hrec & Hs & Hfmt) | (Hrec & Hs & Hfmt)];
    rewrite Hs, Hfmt.
  - split; [tauto|]. split; [discriminate|].
    intros E. exfalso. rewrite E in Hrec.
    apply recognised_suffix_iff in Hrec. discriminate.
  - split; [|tauto]. split; [discriminate|].
    intros Hcsv. apply recognised_suffix_iff in Hcsv. discriminate.
Qed.

(** ** The worker *)

Lemma select_sheet_err wb sheet_name e :
  select_sheet wb sheet_name = Err e -> e = SheetNotFound.
Proof.
  assert (L : forall l n, Openpyxl.lookup_sheet l n = Err e ->
                          e = SheetNotFound).
  { induction l as [|[n' ws] l IH]; simpl; intros n H.
    - now inversion H.
    - destruct (String.eqb n' n); [discriminate|eauto]. }
  unfold select_sheet, Openpyxl.getitem.
  destruct sheet_name as [n|]; [|discriminate].
  destruct (String.eqb n ""); [discriminate|apply L].
Qed.

(** After the gate, the extractor fails for an empty block only, and what it
    returns is a header row with a cell and data rows of its width. *)
Lemma gated_extract ws header_cell :
  A1_REGEX_match header_cell = true ->
  match read_block_from_header ws header_cell with
  | Ok b =>
      exists h row0 rows,
        b = (h :: row0) :: rows
        /\ rectangular (S (List.length row0)) rows
  | Err e => e = NoDataAtHeader \/ e = NoValidDataAtHeader
  end.
Proof.
  intros G. destruct (gate_resolution _ G)
    as (l & d & ds & _ & Hl & Hls & Hd & Hds & R).
  assert (Hr : 1 <= decimal_value (d :: ds))
    by (now apply decimal_value_no_leading_zero).
  assert (Hc : 1 <= column_number l) by (now apply column_number_pos).
  unfold read_block_from_header. rewrite R. cbn [bind].
  destruct (read_block_at ws _ _) as [b|e] eqn:T.
  - destruct (read_block_at_result _ _ _ _ Hr Hc T)
      as (m & Hm & Hrect & Hlen & _).
    destruct b as [|row rows]; [simpl in Hlen; lia|].
    assert (Hw : List.length row = m) by (apply Hrect; now left).
    destruct row as [|h row0]; [simpl in Hw; lia|].
    exists h, row0, rows. split; [reflexivity|].
    intros r Hin. simpl in Hw. rewrite Hw. apply Hrect. now right.
  - rewrite read_block_at_trim in T by assumption.
    destruct (trim_block_verdict _ _
                (cells_from_rectangular ws (decimal_value (d :: ds))
                   (column_number l))) as (_ & _ & He & _).
    now apply He.
Qed.

Lemma resolve_id_col_total id_col_name h header :
  exists id_col, resolve_id_col id_col_name (h :: header) = Ok id_col.
Proof.
  unfold resolve_id_col. destruct id_col_name as [s|]; [|eauto].
  destruct (String.eqb s ""); eauto.
Qed.

Lemma reshape_err_rect h row0 rows id_col_name var_name value_name e :
  rectangular (S (List.length row0)) rows ->
  reshape ((h :: row0) :: rows) id_col_name var_name value_name = Err e ->
  e = MissingIdColumn \/ e = NoValueColumns \/ e = LabelClash.
Proof.
  intros Hrect.
  destruct (resolve_id_col_total id_col_name (header_name 0 h)
              (header_from 1 row0)) as (id & Hid).
  rewrite (reshape_cases (h :: row0) rows _ _ _ id Hrect Hid).
  destruct (negb _); [intros H; inversion H; auto|].
  destruct (filter _ _); [intros H; inversion H; auto|].
  intros H. apply melt_filter_err in H. auto.
Qed.

Lemma pipeline_written_path
    fs input_path header_cell sheet_name id_col_name var_name value_name
    out w :
  wide_to_long_from_excel fs input_path header_cell sheet_name
    id_col_name var_name value_name = Ok (out, w) ->
  w_path w = out.
Proof.
  unfold wide_to_long_from_excel.
  destruct (negb (path_exists fs input_path)); [discriminate|].
  destruct (load_workbook fs input_path) as [wb|]; [|discriminate].
  cbn [bind].
  destruct (select_sheet wb sheet_name) as [ws|]; [|discriminate].
  cbn [bind].
  destruct (read_block_from_header ws header_cell) as [b|]; [|discriminate].
  cbn [bind].
  destruct (reshape b id_col_name var_name value_name) as [long|];
    [|discriminate].
  cbn [bind]. intros H. injection H as H.
  destruct (write_long_spec input_path long) as (_ & Hp & _).
  rewrite H in Hp. exact Hp.
Qed.

(** What the pipeline can fail with, on a path that exists and a header cell
    that the gate lets through. *)
Lemma gated_pipeline_failures
    fs input_path header_cell sheet_name id_col_name var_name value_name e :
  path_exists fs input_path = true ->
  A1_REGEX_match header_cell = true ->
  wide_to_long_from_excel fs input_path header_cell sheet_name id_col_name
    var_name value_name = Err e ->
  load_workbook fs input_path = Err e
  \/ e = SheetNotFound
  \/ e = NoDataAtHeader \/ e = NoValidDataAtHeader
  \/ e = MissingIdColumn \/ e = NoValueColumns \/ e = LabelClash.
Proof.
  intros Hex G. unfold wide_to_long_from_excel. rewrite Hex. cbn [negb].
  destruct (load_workbook fs input_path) as [wb|e'] eqn:Hwb;
    [|intros H; inversion H; subst; auto].
  cbn [bind].
  destruct (select_sheet wb sheet_name) as [ws|e'] eqn:Hws.
  2:{ intros H; inversion H; subst.
      apply select_sheet_err in Hws. subst. auto. }
  cbn [bind]. pose proof (gated_extract ws header_cell G) as Hb.
  destruct (read_block_from_header ws header_cell) as [b|e'].
  2:{ intros H; inversion H; subst. tauto. }
  destruct Hb as (h & row0 & rows & -> & Hrect). cbn [bind].
  destruct (reshape _ _ _ _) as [long|e'] eqn:Hre; [discriminate|].
  intros H; inversion H; subst.
  apply reshape_err_rect in Hre; [tauto|assumption].
Qed.

(** The [failed] signal of a run: which step emits it. *)
Lemma failed_signal fs w e :
  In (Failed e) (fst (ConvertWorker_run_signals fs w)) ->
  (e = FileNotFound /\ path_exists fs (cw_path w) = false)
  \/ (e = HeaderCellRejected
      /\ path_exists fs (cw_path w) = true
      /\ A1_REGEX_match (cw_header_cell w) = false)
  \/ (path_exists fs (cw_path w) = true
      /\ A1_REGEX_match (cw_header_cell w) = true
      /\ (wide_to_long_from_excel fs (cw_path w) (cw_header_cell w)
            (cw_sheet_name w) (cw_id_col_name w) (cw_var_name w)
            (cw_value_name w) = Err e
          \/ e = WriteError)).
Proof.
  unfold ConvertWorker_run_signals.
  destruct (path_exists fs (cw_path w)) eqn:Hex; cbn [negb].
  2:{ cbn. intros [H|[H|[H|[]]]]; try discriminate. injection H as <-. auto. }
  destruct (A1_REGEX_match (cw_header_cell w)) eqn:G; cbn [negb].
  2:{ cbn. intros [H|[H|[H|[]]]]; try discriminate. injection H as <-.
      auto. }
  intros Hin. right. right. split; [reflexivity|]. split; [reflexivity|].
  destruct (wide_to_long_from_excel _ _ _ _ _ _ _) as [[out wf]|e'].
  - destruct (write_file fs wf); cbn in Hin;
      repeat (destruct Hin as [Hin | Hin]; try discriminate);
      try contradiction; injection Hin as <-; auto.
  - cbn in Hin. repeat (destruct Hin as [Hin | Hin]; try discriminate);
      try contradiction. injection Hin as <-. auto.
Qed.

(** After the two checks of the worker, the errors of the address, of the
    cell coordinates, of an index and of the frame's shape do not reach the
    caller. *)
Lemma gated_failed_signal fs w e :
  path_exists fs (cw_path w) = true ->
  A1_REGEX_match (cw_header_cell w) = true ->
  In (Failed e) (fst (ConvertWorker_run_signals fs w)) ->
  load_workbook fs (cw_path w) = Err e
  \/ (e <> FileNotFound /\ e <> HeaderCellRejected
      /\ e <> InvalidAddress /\ e <> CellOutOfSheet
      /\ e <> IndexError /\ e <> FrameShape).
Proof.
  intros Hex G Hin.
  destruct (failed_signal fs w e Hin)
    as [[_ F] | [(_ & _ & F) | (_ & _ & [T | ->])]];
    try congruence.
  - apply (gated_pipeline_failures _ _ _ _ _ _ _ _ Hex G) in T.
    destruct T as [T | T]; [now left|right].
    repeat (destruct T as [-> | T]; [repeat split; discriminate|]).
    subst e. repeat split; discriminate.
  - right. repeat split; discriminate.
Qed.

(** X14.  Whatever the worker fails with, it is not the invalid-address
    error of [a1_to_rc], nor a cell coordinate below 1, nor an index out of
    range, nor a frame of the wrong shape, an error handed over by
    [load_workbook] apart: the gate makes the address resolve inside the
    sheet's coordinates, the rows read have one width, and a block that is
    returned has a header cell. *)
Theorem worker_failures fs w e :
  In (Failed e) (fst (ConvertWorker_run_signals fs w)) ->
  load_workbook fs (cw_path w) = Err e
  \/ (e <> InvalidAddress /\ e <> CellOutOfSheet
      /\ e <> IndexError /\ e <> FrameShape).
Proof.
  intros Hin.
  destruct (failed_signal fs w e Hin)
    as [[-> _] | [(-> & _) | (Hex & G & _)]].
  - right. repeat split; discriminate.
  - right. repeat split; discriminate.
  - destruct (gated_failed_signal fs w e Hex G Hin) as [L | N];
      [now left|right]. tauto.
Qed.

Lemma worker_failures_witness :
  load_workbook (one_workbook sheet_same_name_twice) data_xlsx
  = Err NoValueColumns
  \/ (NoValueColumns <> InvalidAddress /\ NoValueColumns <> CellOutOfSheet
      /\ NoValueColumns <> IndexError /\ NoValueColumns <> FrameShape).
Proof.
  apply (worker_failures (one_workbook sheet_same_name_twice)
           {| cw_path := data_xlsx; cw_header_cell := "A1";
              cw_sheet_name := None; cw_id_col_name := None;
              cw_var_name := "variable"; cw_value_name := "value" |}).
  vm_compute. auto 10.
Defined.

(** X15.  The signals of a run.  Exactly one signal ends the run, and it is
    the last one: [succeeded], with the path of the file, which is then
    written in full, or [failed], with the error.  A failed run leaves the
    disk as it was, unless the write itself failed, which can leave a
    broken file at the output path.  The percentages go up strictly from 5;
    100 and the log line of the writing are emitted exactly when the run
    succeeds, so only once the file is written. *)
Theorem worker_signals fs w :
  exists body last,
    fst (ConvertWorker_run_signals fs w) = body ++ [last]
    /\ forallb (fun s => negb (is_terminal s)) body = true
    /\ is_terminal last = true
    /\ hd 0 (progress_values (fst (ConvertWorker_run_signals fs w))) = 5
    /\ increasing (progress_values (fst (ConvertWorker_run_signals fs w)))
    /\ (In 100 (progress_values (fst (ConvertWorker_run_signals fs w)))
        <-> exists out_path, last = Succeeded out_path)
    /\ (In (Logged LogWriting) (fst (ConvertWorker_run_signals fs w))
        <-> exists out_path, last = Succeeded out_path)
    /\ match snd (ConvertWorker_run_signals fs w) with
       | FileWritten f =>
           last = Succeeded (w_path f) /\ write_file fs f = Written
       | FileLeftBroken p =>
           last = Failed WriteError
           /\ exists f,
               wide_to_long_from_excel fs (cw_path w) (cw_header_cell w)
                 (cw_sheet_name w) (cw_id_col_name w) (cw_var_name w)
                 (cw_value_name w) = Ok (p, f)
               /\ write_file fs f = Broken
       | NothingWritten => exists e, last = Failed e
       end.
Proof.
  unfold ConvertWorker_run_signals.
  destruct (negb (path_exists fs (cw_path w))).
  { exists [Progressed 5; Logged LogStart], (Failed FileNotFound).
    cbn. repeat split; try lia; try discriminate; eauto;
      try (intros (p & H); discriminate);
      intros H; repeat (destruct H as [H | H]; try discriminate);
      contradiction. }
  destruct (negb (A1_REGEX_match (cw_header_cell w))).
  { exists [Progressed 5; Logged LogStart], (Failed HeaderCellRejected).
    cbn. repeat split; try lia; try discriminate; eauto;
      try (intros (p & H); discriminate);
      intros H; repeat (destruct H as [H | H]; try discriminate);
      contradiction. }
  destruct (wide_to_long_from_excel _ _ _ _ _ _ _) as [[out written]|e] eqn:R.
  - pose proof (pipeline_written_path _ _ _ _ _ _ _ _ _ R) as Hp.
    destruct (write_file fs written) eqn:Wf.
    + exists [Progressed 5; Logged LogStart; Progressed 20;
              Logged LogReading; Progressed 90; Logged LogWriting;
              Progressed 100; Logged LogDone],
             (Succeeded out).
      cbn. repeat split; try lia; eauto 10. now rewrite Hp.
    + exists [Progressed 5; Logged LogStart; Progressed 20;
              Logged LogReading],
             (Failed WriteError).
      cbn. repeat split; try lia; try discriminate; eauto;
        try (intros (p & H); discriminate);
        intros H; repeat (destruct H as [H | H]; try discriminate);
        contradiction.
    + exists [Progressed 5; Logged LogStart; Progressed 20;
              Logged LogReading],
             (Failed WriteError).
      cbn. repeat split; try lia; try discriminate;
        try (intros (p & H); discriminate);
        try (intros H; repeat (destruct H as [H | H]; try discriminate);
             contradiction).
      exists written. rewrite Hp. auto.
  - exists [Progressed 5; Logged LogStart; Progressed 20; Logged LogReading],
           (Failed e).
    cbn. repeat split; try lia; try discriminate; eauto;
      try (intros (p & H); discriminate);
      intros H; repeat (destruct H as [H | H]; try discriminate);
      contradiction.
Qed.

(** ** The form *)

Lemma or_default_not_empty s d :
  String.eqb d "" = false -> String.eqb (or_default s d) "" = false.
Proof.
  intros H. unfold or_default. now destruct (String.eqb s "") eqn:E.
Qed.

Lemma or_default_idempotent s d :
  or_default (or_default s d) d = or_default s d.
Proof.
  unfold or_default. destruct (String.eqb s "") eqn:E.
  - destruct (String.eqb d "") eqn:Ed; [|reflexivity].
    now apply String.eqb_eq in Ed.
  - now rewrite E.
Qed.

Lemma or_none_not_empty s : or_none s <> Some "".
Proof.
  unfold or_none. destruct (String.eqb s "") eqn:E; [discriminate|].
  intros H. injection H as ->. discriminate.
Qed.

Section FormFacts.

Variable Path : string -> path.

(** X16.  A worker is started only after the checks of the form: its path
    is the stripped text of the file field and exists, its header cell is
    the stripped text of the header field, or A1 when that is blank, and
    passes the gate, so that it resolves to a row and a column that are at
    least 1.  The names of the variable and value columns are the stripped
    texts, or the default names when blank, and are never empty; a blank
    sheet or identifier field counts as not given.  Run on the files the
    form has seen, such a worker does not fail on the two checks it makes
    again (a missing file, a refused header cell), nor on the address, the
    cell coordinates, an index or the frame's shape, an error handed over
    by [load_workbook] apart. *)
Theorem started_worker_is_checked
    fs ed_file ed_header ed_sheet ed_id ed_var ed_val w :
  start_convert Path fs ed_file ed_header ed_sheet ed_id ed_var ed_val
  = Started w ->
  cw_path w = Path (Py.strip ed_file)
  /\ String.eqb (Py.strip ed_file) "" = false
  /\ path_exists fs (cw_path w) = true
  /\ cw_header_cell w = or_default (Py.strip ed_header) "A1"
  /\ A1_REGEX_match (cw_header_cell w) = true
  /\ (exists r c, a1_to_rc (cw_header_cell w) = Ok (r, c) /\ 1 <= r /\ 1 <= c)
  /\ cw_sheet_name w = or_none (Py.strip ed_sheet)
  /\ cw_id_col_name w = or_none (Py.strip ed_id)
  /\ cw_var_name w = or_default (Py.strip ed_var) "variable"
  /\ cw_value_name w = or_default (Py.strip ed_val) "value"
  /\ String.eqb (cw_var_name w) "" = false
  /\ String.eqb (cw_value_name w) "" = false
  /\ (forall e,
         In (Failed e) (fst (ConvertWorker_run_signals fs w)) ->
         load_workbook fs (cw_path w) = Err e
         \/ (e <> FileNotFound /\ e <> HeaderCellRejected
             /\ e <> InvalidAddress /\ e <> CellOutOfSheet
             /\ e <> IndexError /\ e <> FrameShape)).
Proof.
  unfold start_convert.
  destruct (String.eqb (Py.strip ed_file) "") eqn:Efile; [discriminate|].
  destruct (path_exists fs (Path (Py.strip ed_file))) eqn:Hex;
    [|discriminate].
  destruct (A1_REGEX_match (or_default (Py.strip ed_header) "A1")) eqn:G;
    [|discriminate].
  cbn [negb]. intros H. injection H as <-.
  unfold ConvertWorker_init. cbn [cw_path cw_header_cell cw_sheet_name
    cw_id_col_name cw_var_name cw_value_name].
  rewrite !or_default_idempotent.
  destruct (gate_resolution _ G) as (l & d & ds & _ & Hl & Hls & Hd & Hds & R).
  repeat (split; [first [reflexivity | assumption]|]).
  split.
  { exists (decimal_value (d :: ds)), (column_number l).
    split; [exact R|]. split.
    - now apply decimal_value_no_leading_zero.
    - now apply column_number_pos. }
  repeat (split; [first [reflexivity | now apply or_default_not_empty]|]).
  intros e Hin. apply gated_failed_signal in Hin; assumption.
Qed.

(** X17.  Every press of the run button opens exactly one dialog.  A
    warning leaves the window as it was.  After a run the button is
    enabled again; the progress bar is at 100 and the last log line tells
    the saved path when the run succeeded, and the bar is back at 0 and the
    last log line tells the error when it failed. *)
Theorem press_run_window
    fs win ed_file ed_header ed_sheet ed_id ed_var ed_val :
  exists d,
    dialogs (press_run Path fs win ed_file ed_header ed_sheet ed_id
               ed_var ed_val)
    = d :: dialogs win
    /\ match d with
       | DialogWarning _ =>
           press_run Path fs win ed_file ed_header ed_sheet ed_id
             ed_var ed_val
           = {| progress := progress win; log := log win;
                btn_run_enabled := btn_run_enabled win;
                dialogs := d :: dialogs win |}
       | DialogSaved out_path =>
           press_run Path fs win ed_file ed_header ed_sheet ed_id
             ed_var ed_val
           = {| progress := 100;
                log := [LineSaved out_path; LineOf LogDone;
                        LineOf LogWriting; LineOf LogReading;
                        LineOf LogStart];
                btn_run_enabled := true;
                dialogs := d :: dialogs win |}
       | DialogError e =>
           progress (press_run Path fs win ed_file ed_header ed_sheet
                       ed_id ed_var ed_val) = 0
           /\ btn_run_enabled (press_run Path fs win ed_file ed_header
                                 ed_sheet ed_id ed_var ed_val) = true
           /\ hd_error (log (press_run Path fs win ed_file ed_header
                               ed_sheet ed_id ed_var ed_val))
              = Some (LineError e)
       end.
Proof.
  unfold press_run.
  destruct (start_convert Path fs ed_file ed_header ed_sheet ed_id ed_var
              ed_val) as [a|w].
  { exists (DialogWarning a). split; reflexivity. }
  unfold ConvertWorker_run_signals.
  destruct (negb (path_exists fs (cw_path w))).
  { exists (DialogError FileNotFound). cbn. auto. }
  destruct (negb (A1_REGEX_match (cw_header_cell w))).
  { exists (DialogError HeaderCellRejected). cbn. auto. }
  destruct (wide_to_long_from_excel _ _ _ _ _ _ _) as [[out wf]|e].
  - destruct (write_file fs wf).
    + exists (DialogSaved out). cbn. auto.
    + exists (DialogError WriteError). cbn. auto.
    + exists (DialogError WriteError). cbn. auto.
  - exists (DialogError e). cbn. auto.
Qed.

End FormFacts.

Lemma started_worker_is_checked_witness :
  exists w,
    start_convert bare_name (one_workbook sheet_header_only)
      " data.xlsx " "" "" "" " " "v" = Started w
    /\ cw_header_cell w = "A1"
    /\ cw_var_name w = "variable"
    /\ cw_value_name w = "v"
    /\ A1_REGEX_match (cw_header_cell w) = true.
Proof.
  eexists. split; [reflexivity|].
  pose proof (started_worker_is_checked bare_name
                (one_workbook sheet_header_only)
                " data.xlsx " "" "" "" " " "v" _ eq_refl)
    as (_ & _ & _ & Hh & Hg & _ & _ & _ & Hv & Hw & _).
  repeat split; assumption.
Defined.

(** ** Edge cases of the extractor and of the resolver *)

(** X18.  When the anchor cell is the only cell that is not empty from the
    anchor to the sheet's extent, the block is that one cell. *)
Theorem anchor_only_block ws start_r start_c :
  1 <= start_r <= Openpyxl.max_row ws ->
  1 <= start_c <= Openpyxl.max_column ws ->
  is_none_or_blank (Openpyxl.value_at ws start_r start_c) = false ->
  (forall r c,
      start_r <= r <= Openpyxl.max_row ws ->
      start_c <= c <= Openpyxl.max_column ws ->
      r <> start_r \/ c <> start_c ->
      is_none_or_blank (Openpyxl.value_at ws r c) = true) ->
  read_block_at ws start_r start_c
  = Ok [[Openpyxl.value_at ws start_r start_c]].
Proof.
  intros Hr Hc Hanchor Hrest.
  pose proof (cells_from_rectangular ws start_r start_c) as Hrect.
  assert (Hne : cells_from ws start_r start_c <> []).
  { intros E. apply cells_from_nil in E. lia. }
  destruct (read_block_at ws start_r start_c) as [b|e] eqn:T.
  2:{ exfalso. rewrite read_block_at_trim in T by lia.
      assert (F : is_ok (trim_block (cells_from ws start_r start_c)) = false)
        by (now rewrite T).
      pose proof (proj1 (trim_block_fails_iff _ _ Hne Hrect) F
                    (nth 0 (cells_from ws start_r start_c) [])) as F0.
      clear F. rename F0 into F.
      rewrite <- (Z.add_0_r start_r), <- (Z.add_0_r start_c) in Hanchor.
      change 0 with (Z.of_nat 0) in Hanchor.
      rewrite <- cells_from_nth in Hanchor by lia.
      rewrite F in Hanchor; [discriminate| |].
      - apply nth_In. rewrite cells_from_length. lia.
      - apply nth_In.
        rewrite (Hrect (nth 0 (cells_from ws start_r start_c) [])).
        + lia.
        + apply nth_In. rewrite cells_from_length. lia. }
  destruct (read_block_at_result ws start_r start_c b ltac:(lia) ltac:(lia) T)
    as (m & Hm & Hb & Hlen & Hcol & Hrow & Kept & _).
  assert (Only : forall i j, (i < List.length b)%nat -> (j < m)%nat ->
            is_none_or_blank (nth j (nth i b []) VNone) = false ->
            i = O /\ j = O).
  { intros i j Hi Hj Hv. rewrite Kept in Hv by assumption.
    destruct (Nat.eq_dec i 0) as [->|Hi0].
    - destruct (Nat.eq_dec j 0) as [->|Hj0]; [auto|].
      rewrite Hrest in Hv; [discriminate|lia|lia|lia].
    - rewrite Hrest in Hv; [discriminate|lia|lia|lia]. }
  assert (Em : m = 1%nat).
  { destruct (not_column_empty b (m - 1) Hcol) as (row & Hin & Hv).
    destruct (In_nth _ _ [] Hin) as (i & Hi & <-).
    destruct (Only i (m - 1)%nat Hi ltac:(lia) Hv). lia. }
  assert (El : List.length b = 1%nat).
  { destruct (not_row_empty _ Hrow) as (v & Hin & Hv).
    rewrite last_nth in Hin, Hrow.
    assert (Hlast : List.length (nth (List.length b - 1) b []) = m)
      by (apply Hb, nth_In; lia).
    destruct (In_nth _ _ VNone Hin) as (j & Hj & <-).
    destruct (Only (List.length b - 1)%nat j ltac:(lia) ltac:(lia) Hv). lia. }
  subst m. f_equal.
  destruct b as [|row [|row' b']]; try (simpl in El; lia).
  assert (Hw : List.length row = 1%nat) by (apply Hb; now left).
  destruct row as [|v [|v' row]]; try (simpl in Hw; lia).
  specialize (Kept O O ltac:(simpl; lia) ltac:(lia)). cbn [nth] in Kept.
  rewrite Kept. do 3 f_equal; lia.
Qed.

Lemma anchor_only_block_witness :
  read_block_at (sheet_of 4 3 [[VNone; VNone; VNone]; [VNone; VStr "id"]]) 2 2
  = Ok [[Openpyxl.value_at
           (sheet_of 4 3 [[VNone; VNone; VNone]; [VNone; VStr "id"]]) 2 2]].
Proof.
  apply (anchor_only_block
           (sheet_of 4 3 [[VNone; VNone; VNone]; [VNone; VStr "id"]]) 2 2);
    try (simpl; lia); try reflexivity.
  intros r c Hr Hc Hne. simpl in Hr, Hc.
  assert (Er : r = 2 \/ r = 3 \/ r = 4) by lia.
  assert (Ec : c = 2 \/ c = 3) by lia.
  destruct Er as [-> | [-> | ->]], Ec as [-> | ->];
    try reflexivity; exfalso; lia.
Defined.

(** X19.  An anchor outside what the sheet holds gives an empty block: no
    data when the anchor row is below the last row, no valid data when the
    anchor column is right of the last column. *)
Theorem anchor_outside_sheet ws start_r start_c :
  1 <= start_r -> 1 <= start_c ->
  (Openpyxl.max_row ws < start_r ->
   read_block_at ws start_r start_c = Err NoDataAtHeader)
  /\ (start_r <= Openpyxl.max_row ws ->
      Openpyxl.max_column ws < start_c ->
      read_block_at ws start_r start_c = Err NoValidDataAtHeader).
Proof.
  intros Hr Hc. rewrite read_block_at_trim by assumption.
  pose proof (cells_from_rectangular ws start_r start_c) as Hrect.
  destruct (trim_block_verdict _ _ Hrect) as (Hnil & _ & Herr & _ & Hall).
  split.
  - intros H. apply Hnil. now apply cells_from_nil.
  - intros Hrow Hcol.
    assert (Hne : cells_from ws start_r start_c <> []).
    { intros E. apply cells_from_nil in E. lia. }
    assert (F : is_ok (trim_block (cells_from ws start_r start_c)) = false).
    { apply Hall. intros row Hin v Hv. exfalso.
      apply Hrect in Hin. destruct row; [contradiction|simpl in Hin; lia]. }
    destruct (trim_block (cells_from ws start_r start_c)) as [b|e] eqn:T;
      [discriminate|].
    destruct (Herr e eq_refl) as [-> | ->]; [|reflexivity].
    exfalso. apply Hne. now apply Hnil.
Qed.

Lemma anchor_outside_sheet_witness :
  (Openpyxl.max_row sheet_3x3 < 2 ->
   read_block_at sheet_3x3 2 4 = Err NoDataAtHeader)
  /\ (2 <= Openpyxl.max_row sheet_3x3 ->
      Openpyxl.max_column sheet_3x3 < 4 ->
      read_block_at sheet_3x3 2 4 = Err NoValidDataAtHeader).
Proof. apply (anchor_outside_sheet sheet_3x3 2 4); lia. Defined.

(** X20.  White space around an address never matters to [a1_to_rc], which
    strips it, whereas the gate does not strip: it refuses every text that
    starts with a white-space character. *)
Theorem resolver_strips_gate_does_not :
  (forall a, a1_to_rc (Py.strip a) = a1_to_rc a)
  /\ (forall ch rest,
         Py.isspace ch = true -> A1_REGEX_match (String ch rest) = false).
Proof.
  split.
  - intros a. unfold a1_to_rc. now rewrite strip_idempotent.
  - intros ch rest H. unfold A1_REGEX_match. cbn [list_ascii_of_string span].
    destruct (Py.is_letter ch) eqn:L; [|reflexivity].
    apply letter_not_space in L. congruence.
Qed.

Lemma resolver_strips_gate_does_not_witness :
  a1_to_rc (Py.strip " A1") = a1_to_rc " A1"
  /\ A1_REGEX_match " A1" = false.
Proof.
  split.
  - apply (proj1 resolver_strips_gate_does_not " A1").
  - apply (proj2 resolver_strips_gate_does_not " "%char "A1"). reflexivity.
Defined.
(** ** The pipeline, end to end *)

(** X21.  Whenever the pipeline returns a path, the input exists, the
    workbook was loaded, the sheet selected and a block with a header row
    read from it; the identifier is a header name that labels one column
    only, and the value name is no header name and is not the variable
    name; the file handed to the writer, at the path returned and in the
    format that goes with its name, holds the frame the reshape returned,
    whose columns are the identifier, the variable name and the value
    name. *)
Theorem pipeline_success
    fs input_path header_cell sheet_name id_col_name var_name value_name
    out w :
  wide_to_long_from_excel fs input_path header_cell sheet_name
    id_col_name var_name value_name = Ok (out, w) ->
  exists wb ws row0 rows id_col,
    path_exists fs input_path = true
    /\ load_workbook fs input_path = Ok wb
    /\ select_sheet wb sheet_name = Ok ws
    /\ read_block_from_header ws header_cell = Ok (row0 :: rows)
    /\ resolve_id_col id_col_name (derive_header row0) = Ok id_col
    /\ count_occ string_dec (derive_header row0) id_col = 1%nat
    /\ ~ In value_name (derive_header row0)
    /\ var_name <> value_name
    /\ reshape (row0 :: rows) id_col_name var_name value_name
       = Ok (w_table w)
    /\ Pandas.columns (w_table w) = [id_col; var_name; value_name]
    /\ (out, w) = write_long input_path (w_table w)
    /\ w_path w = out.
Proof.
  unfold wide_to_long_from_excel.
  destruct (path_exists fs input_path) eqn:Hex; [|discriminate]. cbn [negb].
  destruct (load_workbook fs input_path) as [wb|] eqn:Hwb; [|discriminate].
  cbn [bind].
  destruct (select_sheet wb sheet_name) as [ws|] eqn:Hws; [|discriminate].
  cbn [bind].
  destruct (read_block_from_header ws header_cell) as [b|] eqn:Hb;
    [|discriminate].
  cbn [bind].
  destruct (reshape b id_col_name var_name value_name) as [long|] eqn:Hre;
    [|discriminate].
  cbn [bind]. intros H. injection H as H.
  destruct b as [|row0 rows]; [discriminate Hre|].
  destruct (reshape_ok _ _ _ _ _ _ Hre)
    as (id & Hid & Hin & _ & _ & Hc & _).
  destruct (reshape_ok_labels _ _ _ _ _ _ _ Hre Hid) as [A Hvv].
  apply melt_accepts_parts in A as [Hv Hcount].
  destruct (write_long_spec input_path long) as (_ & Hp & Ht & _).
  rewrite H in Hp, Ht. cbn [fst snd] in Hp, Ht. subst long.
  exists wb, ws, row0, rows, id. repeat (split; [auto|]). exact Hp.
Qed.

Lemma pipeline_success_witness :
  exists wb ws row0 rows id_col,
    path_exists (one_workbook sheet_2020_2021) data_xlsx = true
    /\ load_workbook (one_workbook sheet_2020_2021) data_xlsx = Ok wb
    /\ select_sheet wb None = Ok ws
    /\ read_block_from_header ws "A1" = Ok (row0 :: rows)
    /\ resolve_id_col None (derive_header row0) = Ok id_col
    /\ count_occ string_dec (derive_header row0) id_col = 1%nat
    /\ ~ In "value" (derive_header row0)
    /\ "variable" <> "value"
    /\ reshape (row0 :: rows) None "variable" "value"
       = Ok (w_table (snd (write_long data_xlsx long_2020_2021)))
    /\ Pandas.columns (w_table (snd (write_long data_xlsx long_2020_2021)))
       = [id_col; "variable"; "value"]
    /\ (fst (write_long data_xlsx long_2020_2021),
        snd (write_long data_xlsx long_2020_2021))
       = write_long data_xlsx
           (w_table (snd (write_long data_xlsx long_2020_2021)))
    /\ w_path (snd (write_long data_xlsx long_2020_2021))
       = fst (write_long data_xlsx long_2020_2021).
Proof.
  apply (pipeline_success (one_workbook sheet_2020_2021) data_xlsx "A1"
           None None "variable" "value").
  reflexivity.
Defined.
